(** * torchmultimodal: MDETR transformer and image-masking transform

    A shallow embedding of
    - [torchmultimodal/transforms/image_masking_transform.py]
      ([map_pixels], [MaskingGenerator], [TwoWayResize],
      [TwoWayRandomResizedCrop], [MaskedImageModelingTransform]) and
    - [torchmultimodal/models/mdetr.py]
      ([MDETR], [Transformer], [TransformerEncoder], [TransformerDecoder]
      and their layers, [FeatureResizer], [MLP] and the two factories),
    together with the properties of these programs that the design
    document states and further properties read off the code. *)

From Stdlib Require Import ZArith QArith List String Lia Bool.
From stdpp Require Import base tactics option list list_numbers strings.

Local Open Scope Z_scope.
Local Open Scope list_scope.

(** * Python exceptions and fallible computations *)

Inductive exn : Type :=
| ValueError (msg : string)
| TypeError
| RuntimeError
| IndexError
| AssertionError
| AttributeError.

Inductive result (A : Type) : Type :=
| Ok (a : A)
| Raise (e : exn).
Arguments Ok {A} a.
Arguments Raise {A} e.

Global Instance result_ret : MRet result := fun A a => Ok a.
Global Instance result_bind : MBind result := fun A B k r =>
  match r with
  | Ok a => k a
  | Raise e => Raise e
  end.

(** A Python [for] loop whose body may raise: the state is threaded from
    left to right and the first exception leaves the loop. *)
Fixpoint for_each {A S} (xs : list A) (body : S -> A -> result S) (s : S)
  : result S :=
  match xs with
  | [] => Ok s
  | x :: xs' => s' ← body s x; for_each xs' body s'
  end.

Definition is_ok {A} (r : result A) : bool :=
  match r with Ok _ => true | Raise _ => false end.

(** * image_masking_transform.py *)

Module ImageMasking.

(** ** Tensors as [map_pixels] sees them: a dtype, a shape and the values *)

Inductive dtype : Type :=
| float16 | bfloat16 | float32 | float64
| complex64 | complex128
| uint8 | int8 | int16 | int32 | int64
| bool_.

(** [torch.float] is an alias of [torch.float32]. *)
Definition torch_float : dtype := float32.

Definition dtype_eqb (a b : dtype) : bool :=
  match a, b with
  | float16, float16 | bfloat16, bfloat16 | float32, float32
  | float64, float64 | complex64, complex64 | complex128, complex128
  | uint8, uint8 | int8, int8 | int16, int16 | int32, int32
  | int64, int64 | bool_, bool_ => true
  | _, _ => false
  end.

Definition is_integer_dtype (d : dtype) : bool :=
  match d with
  | uint8 | int8 | int16 | int32 | int64 => true
  | _ => false
  end.

Definition is_floating_point (d : dtype) : bool :=
  match d with
  | float16 | bfloat16 | float32 | float64 => true
  | _ => false
  end.

Definition LOGIT_LAPLACE_EPS : Q := 1 # 10.

(** The scalars stored in a tensor and the two broadcast operations of
    line 26 belong to the tensor library; they are kept abstract. *)
Class PixelOps (elem : Type) : Type := {
  scalar_mul : Q -> elem -> elem;
  add_scalar : elem -> Q -> elem
}.

Record Tensor (elem : Type) : Type := {
  t_dtype : dtype;
  t_shape : list nat;
  t_data : list elem
}.
Arguments t_dtype {elem} _.
Arguments t_shape {elem} _.
Arguments t_data {elem} _.
Arguments Build_Tensor {elem} _ _ _.

(** [(1 - 2 * LOGIT_LAPLACE_EPS) * x + LOGIT_LAPLACE_EPS], element by
    element. *)
Definition affine `{PixelOps elem} (x : Tensor elem) : Tensor elem :=
  {| t_dtype := t_dtype x;
     t_shape := t_shape x;
     t_data :=
       List.map (fun v => add_scalar
                            (scalar_mul (1 - 2 * LOGIT_LAPLACE_EPS)%Q v)
                            LOGIT_LAPLACE_EPS)
                (t_data x) |}.

Definition map_pixels `{PixelOps elem} (x : Tensor elem)
  : result (Tensor elem) :=
  if negb (dtype_eqb (t_dtype x) torch_float)
  then Raise (ValueError "expected input to have type float"%string)
  else Ok (affine x).

(** ** MaskingGenerator *)

(** The configuration that [__init__] stores.  The sizes and the patch
    counts are natural numbers.  [min_aspect] and [max_aspect] only
    parametrise the floating-point sampling of a block (lines 72-75),
    which the model receives as a drawn pair [(h, w)] (see [Draw]);
    [min_num_patches] is the lower end of the sampled area. *)
Record MaskingGenerator : Type := {
  height : nat;
  width : nat;
  num_patches : nat;
  num_masking_patches : nat;
  min_num_patches : nat;
  max_num_patches : nat
}.

Definition MaskingGenerator_init (input_size : nat * nat)
    (num_masking_patches : nat) (min_num_patches : nat)
    (max_num_patches : option nat) : MaskingGenerator :=
  {| height := fst input_size;
     width := snd input_size;
     num_patches := (fst input_size * snd input_size)%nat;
     num_masking_patches := num_masking_patches;
     min_num_patches := min_num_patches;
     max_num_patches :=
       match max_num_patches with
       | None => num_masking_patches
       | Some m => m
       end |}.

Definition get_shape (G : MaskingGenerator) : nat * nat :=
  (height G, width G).

(** One attempt of [_mask] consumes the process-global random source four
    times.  [d_h] and [d_w] are the values of
    [int(round(math.sqrt(...)))] of lines 74-75: the area is drawn between
    two non-negative counts and the aspect ratio is an exponential, so
    these are two non-negative integers, and any two are covered here.
    [d_top] and [d_left] are the raw entropy behind the two
    [random.randint] calls of lines 77-78. *)
Record Draw : Type := {
  d_h : nat;
  d_w : nat;
  d_top : nat;
  d_left : nat
}.

(** The random source: the draws of the successive attempts. *)
Definition Rng : Type := nat -> Draw.

(** [random.randint(0, n)] returns an integer of [0..n], both ends
    included; every such integer is [r mod (n + 1)] for some [r]. *)
Definition randint0 (r n : nat) : nat := (r mod (S n))%nat.

(** A [numpy] integer grid, row by row. *)
Abbreviation Grid := (list (list nat)).

Definition np_zeros (shape : nat * nat) : Grid :=
  replicate (fst shape) (replicate (snd shape) 0%nat).

Definition grid_shape_is (shape : nat * nat) (g : Grid) : bool :=
  (length g =? fst shape)%nat
  && forallb (fun row => (length row =? snd shape)%nat) g.

Definition grid_binary (g : Grid) : bool :=
  forallb (forallb (fun c => (c =? 0)%nat || (c =? 1)%nat)) g.

(** [mask.sum()] *)
Definition grid_sum (g : Grid) : nat := sum_list (sum_list <$> g).

(** [mask[top : top + h, left : left + w].sum()]; slices clip at the
    borders of the array. *)
Definition block_sum (g : Grid) (top h left w : nat) : nat :=
  sum_list ((fun row => sum_list (take w (drop left row)))
              <$> take h (drop top g)).

(** [mask[i, j]] *)
Definition grid_get (g : Grid) (i j : nat) : result nat :=
  match g !! i with
  | Some row =>
      match row !! j with
      | Some c => Ok c
      | None => Raise IndexError
      end
  | None => Raise IndexError
  end.

(** [mask[i, j] = v] *)
Definition grid_set (g : Grid) (i j : nat) (v : nat) : result Grid :=
  match g !! i with
  | Some row =>
      if (j <? length row)%nat then Ok (<[i := <[j := v]> row]> g)
      else Raise IndexError
  | None => Raise IndexError
  end.

(** Lines 85-87: the body of the two nested loops. *)
Definition fill_cell (i : nat) (st : Grid * Z) (j : nat)
  : result (Grid * Z) :=
  let '(mask, delta) := st in
  c ← grid_get mask i j;
  if (c =? 0)%nat then
    mask' ← grid_set mask i j 1%nat;
    Ok (mask', delta + 1)
  else Ok (mask, delta).

(** Lines 83-87. *)
Definition fill_block (mask : Grid) (delta : Z) (top h left w : nat)
  : result (Grid * Z) :=
  for_each (seq top h)
    (fun st i => for_each (seq left w) (fill_cell i) st)
    (mask, delta).

(** Lines 71-90: the remaining [n] iterations of [for _attempt in
    range(10)], from the draw number [pos] on. *)
Fixpoint mask_attempts (G : MaskingGenerator) (rng : Rng) (n : nat)
    (mask : Grid) (max_mask_patches : Z) (delta : Z) (pos : nat)
  : result (Grid * Z * nat) :=
  match n with
  | O => Ok (mask, delta, pos)
  | S n' =>
      let h := d_h (rng pos) in
      let w := d_w (rng pos) in
      if (w <? width G)%nat && (h <? height G)%nat then
        let top := randint0 (d_top (rng pos)) (height G - h) in
        let left := randint0 (d_left (rng pos)) (width G - w) in
        let num_masked := block_sum mask top h left w in
        let free := Z.of_nat h * Z.of_nat w - Z.of_nat num_masked in
        '(mask', delta') ←
          (if (0 <? free) && (free <=? max_mask_patches)
           then fill_block mask delta top h left w
           else Ok (mask, delta));
        if 0 <? delta' then Ok (mask', delta', S pos)
        else mask_attempts G rng n' mask' max_mask_patches delta' (S pos)
      else mask_attempts G rng n' mask max_mask_patches delta (S pos)
  end.

(** [MaskingGenerator._mask]: the grid after the call (the array is
    updated in place), the returned [delta] and the position reached in
    the random source. *)
Definition _mask (G : MaskingGenerator) (rng : Rng) (mask : Grid)
    (max_mask_patches : Z) (pos : nat) : result (Grid * Z * nat) :=
  mask_attempts G rng 10 mask max_mask_patches 0 pos.

(** Lines 96-104: the [while] loop of [__call__].  [fuel] bounds the
    number of iterations; [None] means that it ran out. *)
Fixpoint call_loop (fuel : nat) (G : MaskingGenerator) (rng : Rng)
    (mask : Grid) (mask_count : Z) (pos : nat) : option (result Grid) :=
  if mask_count <? Z.of_nat (num_masking_patches G) then
    match fuel with
    | O => None
    | S fuel' =>
        let max_mask_patches :=
          Z.min (Z.of_nat (num_masking_patches G) - mask_count)
                (Z.of_nat (max_num_patches G)) in
        match _mask G rng mask max_mask_patches pos with
        | Raise e => Some (Raise e)
        | Ok (mask', delta, pos') =>
            if delta =? 0 then Some (Ok mask')
            else call_loop fuel' G rng mask' (mask_count + delta) pos'
        end
    end
  else Some (Ok mask).

(** [MaskingGenerator.__call__] *)
Definition MaskingGenerator_call (fuel : nat) (G : MaskingGenerator)
    (rng : Rng) : option (result Grid) :=
  call_loop fuel G rng (np_zeros (get_shape G)) 0 0.


(** ** Invariants of the grid *)

(** The grid has [H] rows of [W] cells. *)
Definition grid_shaped (H W : nat) (g : Grid) : Prop :=
  length g = H /\ Forall (fun row => length row = W) g.

(** Every cell is 0 or 1. *)
Definition grid_01 (g : Grid) : Prop :=
  Forall (Forall (fun c => (c <= 1)%nat)) g.

(** The state [(mask, delta)] of the loops of lines 83-87. *)
Definition fill_inv (H W : nat) (st : Grid * Z) : Prop :=
  grid_shaped H W st.1 /\ grid_01 st.1.

(** What the loops of lines 83-87 preserve: [delta] grows, and it grows
    exactly as the sum of the grid and as the sum of the block do. *)
Definition fill_rel (top h left w : nat) (st st' : Grid * Z) : Prop :=
  st.2 <= st'.2
  /\ Z.of_nat (grid_sum st'.1) - st'.2 = Z.of_nat (grid_sum st.1) - st.2
  /\ Z.of_nat (block_sum st'.1 top h left w) - st'.2
     = Z.of_nat (block_sum st.1 top h left w) - st.2.

(** ** Instances for examples *)

Global Instance Q_pixel_ops : PixelOps Q := {
  scalar_mul := Qmult;
  add_scalar := Qplus
}.

(** The generator of [MaskedImageModelingTransform] with
    [mask_min_patches = 16] and its other defaults. *)
Definition example_generator : MaskingGenerator :=
  MaskingGenerator_init (14, 14)%nat 75 16 None.

Definition example_rng : Rng := fun n =>
  {| d_h := 3 + n mod 4; d_w := 2 + n mod 5;
     d_top := 7 * n; d_left := 5 * n + 3 |}.

(** A one-cell window: no block is narrower than the window. *)
Definition one_cell_generator : MaskingGenerator :=
  MaskingGenerator_init (1, 1)%nat 1 1 None.


(** ** The cells that a call of [_mask] changes *)

(** [mask[i, j]] when it exists. *)
Definition cell (g : Grid) (i j : nat) : option nat :=
  match g !! i with
  | Some row => row !! j
  | None => None
  end.

(** The cell [(i, j)] lies in the block of [h] rows from [top] and [w]
    columns from [left]. *)
Definition in_block (top h left w i j : nat) : bool :=
  (top <=? i)%nat && (i <? top + h)%nat
  && (left <=? j)%nat && (j <? left + w)%nat.

(** The block [(top, h, left, w)] that an attempt of [_mask] derives from
    its draw (lines 74-78). *)
Definition block_of (G : MaskingGenerator) (d : Draw) : nat * nat * nat * nat :=
  (randint0 (d_top d) (height G - d_h d), d_h d,
   randint0 (d_left d) (width G - d_w d), d_w d).

(** Cells only move from 0 to 1, and only inside the block. *)
Definition cells_rel (top h left w : nat) (st st' : Grid * Z) : Prop :=
  (forall i j, in_block top h left w i j = false ->
     cell st'.1 i j = cell st.1 i j)
  /\ (forall i j, cell st.1 i j = Some 1%nat -> cell st'.1 i j = Some 1%nat).

(** What a call of [_mask] on [g] from the draw number [pos] may do:
    nothing, after ten rejected attempts, or place the block of one
    attempt [k] and stop there. *)
Definition mask_outcome (G : MaskingGenerator) (rng : Rng) (g : Grid)
    (max_mask_patches : Z) (pos : nat) (g' : Grid) (delta : Z) (pos' : nat)
  : Prop :=
  (delta = 0 /\ g' = g /\ pos' = (pos + 10)%nat)
  \/ exists k top h left w,
       (k < 10)%nat /\ pos' = S (pos + k)
       /\ block_of G (rng (pos + k)%nat) = (top, h, left, w)
       /\ (h < height G)%nat /\ (w < width G)%nat
       /\ 0 < delta <= max_mask_patches
       /\ delta = Z.of_nat h * Z.of_nat w - Z.of_nat (block_sum g top h left w)
       /\ Z.of_nat (grid_sum g') = Z.of_nat (grid_sum g) + delta
       /\ forall i j, cell g' i j
            = if in_block top h left w i j then Some 1%nat else cell g i j.

(** ** TwoWayResize and TwoWayRandomResizedCrop *)

(** The Python values that these constructors receive as sizes, scales
    and flags. *)
#[warnings="-register-all"]
Inductive pyobj : Type :=
| NoneVal
| IntVal (n : Z)
| FloatVal (q : Q)
| TupleVal (items : list pyobj)
| ListVal (items : list pyobj).

(** [isinstance(x, (list, tuple))] *)
Definition is_list_or_tuple (x : pyobj) : bool :=
  match x with
  | TupleVal _ | ListVal _ => true
  | _ => false
  end.

(** [x is None] *)
Definition is_None (x : pyobj) : bool :=
  match x with
  | NoneVal => true
  | _ => false
  end.

(** [transforms.InterpolationMode], an enumeration that is not a
    subclass of [int]. *)
Inductive InterpolationMode : Type :=
| NEAREST | NEAREST_EXACT | BILINEAR | BICUBIC | BOX | HAMMING | LANCZOS.

(** An interpolation argument: a mode, or an integer code of the older
    interface. *)
Inductive interpolation_arg : Type :=
| Mode (m : InterpolationMode)
| IntCode (n : Z).

(** The [interpolation] attribute of a [RandomResizedCrop]: a mode, or a
    tuple or a list of modes. *)
Inductive interpolation_attr : Type :=
| OneMode (m : InterpolationMode)
| ModeSeq (ms : list InterpolationMode).

(** Keyword arguments, passed on to the base class. *)
Inductive kwarg : Type :=
| ObjArg (x : pyobj)
| ModeArg (m : interpolation_arg).

Definition kwargs : Type := list (string * kwarg).

(** The attributes that [forward] and [__call__] read and that the base
    classes [transforms.Resize] and [transforms.RandomResizedCrop] set. *)
Record Resize : Type := {
  rs_size : pyobj;
  rs_interpolation : InterpolationMode;
  rs_max_size : pyobj;
  rs_antialias : pyobj
}.

Record RandomResizedCrop : Type := {
  rc_size : pyobj;
  rc_scale : pyobj;
  rc_ratio : pyobj;
  rc_interpolation : interpolation_attr
}.

(** What the two classes use of [torchvision] and of the random sources,
    whose state is [St]: the constructors of the base classes, [F.resize],
    [F.resized_crop], [RandomResizedCrop.get_params] and
    [random.choice]. *)
Class Torchvision (Image St : Type) : Type := {
  Resize_init : pyobj -> kwargs -> result Resize;
  RandomResizedCrop_init : pyobj -> kwargs -> result RandomResizedCrop;
  F_resize :
    Image -> pyobj -> InterpolationMode -> pyobj -> pyobj -> result Image;
  F_resized_crop :
    Image -> Z -> Z -> Z -> Z -> pyobj -> InterpolationMode -> result Image;
  get_params : Image -> pyobj -> pyobj -> St -> result (Z * Z * Z * Z * St);
  random_choice :
    list InterpolationMode -> St -> result (InterpolationMode * St)
}.

(** The outcome of a constructor.  Besides the exceptions of the
    library, the two constructors can fail on a global name that the
    module does not bind. *)
Inductive constructed (A : Type) : Type :=
| Built (a : A)
| LibraryRaise (e : exn)
| NameError (name : string).
Arguments Built {A} a.
Arguments LibraryRaise {A} e.
Arguments NameError {A} name.

Record TwoWayResize : Type := {
  twr_base : Resize;
  twr_second_size : pyobj;
  twr_second_interpolation : InterpolationMode
}.

(** [TwoWayResize.__init__].  The module imports no [warnings]: the
    branch of an integer [second_interpolation] stops at line 124. *)
Definition TwoWayResize_init `{Torchvision Image St} (size : pyobj)
    (second_size : pyobj) (second_interpolation : interpolation_arg)
    (kw : kwargs) : constructed TwoWayResize :=
  let size :=
    if negb (is_list_or_tuple size) then TupleVal [size; size] else size in
  match Resize_init size kw with
  | Raise e => LibraryRaise e
  | Ok base =>
      match second_interpolation with
      | IntCode _ => NameError "warnings"
      | Mode second_interpolation =>
          let second_size :=
            if negb (is_list_or_tuple second_size)
            then TupleVal [second_size; second_size] else second_size in
          Built {| twr_base := base;
                   twr_second_size := second_size;
                   twr_second_interpolation := second_interpolation |}
      end
  end.

(** [TwoWayResize.forward] *)
Definition TwoWayResize_forward `{Torchvision Image St} (R : TwoWayResize)
    (img : Image) : result (Image * Image) :=
  img ← F_resize img (rs_size (twr_base R)) (rs_interpolation (twr_base R))
          (rs_max_size (twr_base R)) (rs_antialias (twr_base R));
  second_img ← F_resize img (twr_second_size R) (twr_second_interpolation R)
                 (rs_max_size (twr_base R)) (rs_antialias (twr_base R));
  Ok (img, second_img).

Record TwoWayRandomResizedCrop : Type := {
  twc_base : RandomResizedCrop;
  twc_second_size : pyobj;
  twc_second_interpolation : InterpolationMode
}.

(** [TwoWayRandomResizedCrop.__init__] *)
Definition TwoWayRandomResizedCrop_init `{Torchvision Image St} (size : pyobj)
    (second_size : pyobj) (second_interpolation : interpolation_arg)
    (kw : kwargs) : constructed TwoWayRandomResizedCrop :=
  match RandomResizedCrop_init size kw with
  | Raise e => LibraryRaise e
  | Ok base =>
      match second_interpolation with
      | IntCode _ => NameError "warnings"
      | Mode second_interpolation =>
          let second_size :=
            if negb (is_list_or_tuple second_size)
            then TupleVal [second_size; second_size] else second_size in
          Built {| twc_base := base;
                   twc_second_size := second_size;
                   twc_second_interpolation := second_interpolation |}
      end
  end.

(** What [TwoWayRandomResizedCrop.__call__] returns: one image (line 192)
    or a pair (lines 194-199). *)
Inductive crops (Image : Type) : Type :=
| OneCrop (img : Image)
| TwoCrops (img second_img : Image).
Arguments OneCrop {Image} img.
Arguments TwoCrops {Image} img second_img.

(** [TwoWayRandomResizedCrop.__call__] *)
Definition TwoWayRandomResizedCrop_call `{Torchvision Image St}
    (C : TwoWayRandomResizedCrop) (img : Image) (s : St)
  : result (crops Image * St) :=
  '(i, j, h, w, s) ← get_params img (rc_scale (twc_base C))
                        (rc_ratio (twc_base C)) s;
  '(interpolation, s) ←
    match rc_interpolation (twc_base C) with
    | ModeSeq ms => random_choice ms s
    | OneMode m => Ok (m, s)
    end;
  if is_None (twc_second_size C) then
    a ← F_resized_crop img i j h w (rc_size (twc_base C)) interpolation;
    Ok (OneCrop a, s)
  else
    a ← F_resized_crop img i j h w (rc_size (twc_base C)) interpolation;
    b ← F_resized_crop img i j h w (twc_second_size C)
          (twc_second_interpolation C);
    Ok (TwoCrops a b, s).

(** ** MaskedImageModelingTransform *)

Definition IMAGE_PRETRAINING_MEAN : Q * Q * Q :=
  (48145466 # 100000000, 4578275 # 10000000, 40821073 # 100000000)%Q.

Definition IMAGE_PRETRAINING_STD : Q * Q * Q :=
  (26862954 # 100000000, 26130258 # 100000000, 27577711 # 100000000)%Q.

(** What the transform uses of PIL images and of [torchvision] besides
    the two resize classes: [img.mode], [img.convert], [ToTensor] and
    [Normalize]. *)
Class ImageOps (Image elem : Type) : Type := {
  image_mode : Image -> string;
  image_convert : Image -> string -> result Image;
  ToTensor : Image -> result (Tensor elem);
  Normalize : Q * Q * Q -> Q * Q * Q -> Tensor elem -> result (Tensor elem)
}.

(** A value of the dictionary that [transform] returns: a tensor of the
    image pipeline, or the mask grid behind [torch.from_numpy]. *)
Inductive value (elem : Type) : Type :=
| TensorVal (t : Tensor elem)
| MaskVal (g : Grid).
Arguments TensorVal {elem} t.
Arguments MaskVal {elem} g.

(** A Python dictionary with string keys, in insertion order. *)
Definition dict (V : Type) : Type := list (string * V).

Fixpoint dict_get {V} (key : string) (d : dict V) : option V :=
  match d with
  | [] => None
  | (k, v) :: d' => if String.eqb k key then Some v else dict_get key d'
  end.

(** [d[key] = v] *)
Fixpoint dict_set {V} (key : string) (v : V) (d : dict V) : dict V :=
  match d with
  | [] => [(key, v)]
  | (k, v0) :: d' =>
      if String.eqb k key then (k, v) :: d' else (k, v0) :: dict_set key v d'
  end.

Record MaskedImageModelingTransform (Image St elem : Type) : Type := {
  common_transform : Image -> St -> result (crops Image * St);
  image_transform : Image -> result (Tensor elem);
  codebook_transform : Image -> result (Tensor elem);
  masked_position_generator : MaskingGenerator
}.
Arguments common_transform {Image St elem} _.
Arguments image_transform {Image St elem} _.
Arguments codebook_transform {Image St elem} _.
Arguments masked_position_generator {Image St elem} _.

(** Lines 218-232: the resize function of the common pipeline, as a
    callable. *)
Definition resize_func_init {Image St} {tv : Torchvision Image St}
    (is_train : bool) (encoder_input_size codebook_input_size : Z)
    (scale : Q * Q)
    (encoder_interpolation codebook_interpolation : interpolation_arg)
  : constructed (Image -> St -> result (crops Image * St)) :=
  if is_train then
    match TwoWayRandomResizedCrop_init (IntVal encoder_input_size)
            (IntVal codebook_input_size) codebook_interpolation
            [("scale"%string,
              ObjArg (TupleVal [FloatVal scale.1; FloatVal scale.2]));
             ("interpolation"%string, ModeArg encoder_interpolation)] with
    | Built C => Built (TwoWayRandomResizedCrop_call C)
    | LibraryRaise e => LibraryRaise e
    | NameError name => NameError name
    end
  else
    match TwoWayResize_init (IntVal encoder_input_size)
            (IntVal codebook_input_size) codebook_interpolation
            [("interpolation"%string, ModeArg encoder_interpolation)] with
    | Built R =>
        Built (fun img s =>
                 '(a, b) ← TwoWayResize_forward R img;
                 Ok (TwoCrops a b, s))
    | LibraryRaise e => LibraryRaise e
    | NameError name => NameError name
    end.

(** [MaskedImageModelingTransform.__init__] *)
Definition MaskedImageModelingTransform_init {Image St elem}
    {tv : Torchvision Image St} {io : ImageOps Image elem}
    {po : PixelOps elem}
    (is_train : bool) (encoder_input_size codebook_input_size : Z)
    (scale : Q * Q)
    (encoder_interpolation codebook_interpolation : interpolation_arg)
    (image_mean image_std : Q * Q * Q)
    (mask_window_size mask_num_patches : nat)
    (mask_max_patches : option nat) (mask_min_patches : nat)
  : constructed (MaskedImageModelingTransform Image St elem) :=
  match resize_func_init is_train encoder_input_size codebook_input_size
          scale encoder_interpolation codebook_interpolation with
  | Built resize_func =>
      Built
        {| common_transform := fun img s =>
             img ← (if negb (String.eqb (image_mode img) "RGB")
                    then image_convert img "RGB" else Ok img);
             resize_func img s;
           image_transform := fun img =>
             t ← ToTensor img; Normalize image_mean image_std t;
           codebook_transform := fun img =>
             t ← ToTensor img; map_pixels t;
           masked_position_generator :=
             MaskingGenerator_init (mask_window_size, mask_window_size)
               mask_num_patches mask_min_patches mask_max_patches |}
  | LibraryRaise e => LibraryRaise e
  | NameError name => NameError name
  end.

(** Lines 266-269 of [transform]: the two crops of the common pipeline,
    unpacked, and their tensors. *)
Definition transform_images {Image St elem}
    (T : MaskedImageModelingTransform Image St elem) (image : Image) (s : St)
  : result (Tensor elem * Tensor elem * St) :=
  '(both, s) ← common_transform T image s;
  match both with
  | TwoCrops image image_for_codebook =>
      a ← image_transform T image;
      b ← codebook_transform T image_for_codebook;
      Ok (a, b, s)
  | OneCrop _ => Raise TypeError
  end.

(** [MaskedImageModelingTransform.transform].  [rng] is the stream of
    draws that this call of the mask generator sees, and [fuel] bounds
    the iterations of its loop. *)
Definition transform {Image St elem}
    (T : MaskedImageModelingTransform Image St elem) (fuel : nat) (rng : Rng)
    (image : Image) (s : St)
  : option (result (dict (value elem) * St)) :=
  match transform_images T image s with
  | Raise e => Some (Raise e)
  | Ok (a, b, s) =>
      match MaskingGenerator_call fuel (masked_position_generator T) rng with
      | None => None
      | Some (Raise e) => Some (Raise e)
      | Some (Ok g) =>
          Some (Ok ([("image"%string, TensorVal a);
                     ("image_for_codebook"%string, TensorVal b);
                     ("image_patches_mask"%string, MaskVal g)], s))
      end
  end.

(** Lines 278-281: the entries of one transformed image are appended to
    the lists of the output, a list being started for a new key. *)
Definition append_entries {V} (output : dict (list V))
    (transformed_output : dict V) : dict (list V) :=
  foldl (fun output '(key, v) =>
           let output :=
             if dict_get key output is Some _ then output
             else dict_set key [] output in
           dict_set key (default [] (dict_get key output) ++ [v]) output)
        output transformed_output.

(** Lines 275-281: the loop over the images; [rngs n] is the stream of
    draws of the call number [n] of the mask generator. *)
Fixpoint call_images {Image St elem}
    (T : MaskedImageModelingTransform Image St elem) (fuel : nat)
    (rngs : nat -> Rng) (images : list Image)
    (output : dict (list (value elem))) (s : St) (n : nat)
  : option (result (dict (list (value elem)) * St)) :=
  match images with
  | [] => Some (Ok (output, s))
  | image :: images' =>
      match transform T fuel (rngs n) image s with
      | None => None
      | Some (Raise e) => Some (Raise e)
      | Some (Ok (transformed_output, s')) =>
          call_images T fuel rngs images'
            (append_entries output transformed_output) s' (S n)
      end
  end.

(** The argument of [__call__]: a list of images, or one image. *)
Inductive images_arg (Image : Type) : Type :=
| ImageList (images : list Image)
| OneImage (image : Image).
Arguments ImageList {Image} images.
Arguments OneImage {Image} image.

Inductive call_output (V : Type) : Type :=
| Batch (output : dict (list V))
| Single (output : dict V).
Arguments Batch {V} output.
Arguments Single {V} output.

(** [MaskedImageModelingTransform.__call__] *)
Definition MaskedImageModelingTransform_call {Image St elem}
    (T : MaskedImageModelingTransform Image St elem) (fuel : nat)
    (rngs : nat -> Rng) (images : images_arg Image) (s : St)
  : option (result (call_output (value elem) * St)) :=
  match images with
  | ImageList images =>
      match call_images T fuel rngs images [] s 0 with
      | None => None
      | Some r => Some ('(output, s) ← r; Ok (Batch output, s))
      end
  | OneImage image =>
      match transform T fuel (rngs 0%nat) image s with
      | None => None
      | Some r => Some ('(output, s) ← r; Ok (Single output, s))
      end
  end.

(** The dictionary that [transform] builds from its three values. *)
Definition transformed {elem} (row : Tensor elem * Tensor elem * Grid)
  : dict (value elem) :=
  [("image"%string, TensorVal row.1.1);
   ("image_for_codebook"%string, TensorVal row.1.2);
   ("image_patches_mask"%string, MaskVal row.2)].

(** [rows] are the values that [transform] returns on the successive
    images, the state being threaded from [s] to [s_end] and the call
    number from [n] on. *)
Fixpoint transformed_rows {Image St elem}
    (T : MaskedImageModelingTransform Image St elem) (fuel : nat)
    (rngs : nat -> Rng) (images : list Image)
    (rows : list (Tensor elem * Tensor elem * Grid)) (s : St) (n : nat)
    (s_end : St) : Prop :=
  match images, rows with
  | [], [] => s = s_end
  | image :: images', row :: rows' =>
      exists s',
        transform T fuel (rngs n) image s = Some (Ok (transformed row, s'))
        /\ transformed_rows T fuel rngs images' rows' s' (S n) s_end
  | _, _ => False
  end.

(** The dictionary of lists with the columns of [rows]; it has no key
    when there is no row. *)
Definition batch_of {elem} (rows : list (Tensor elem * Tensor elem * Grid))
  : dict (list (value elem)) :=
  match rows with
  | [] => []
  | _ :: _ =>
      [("image"%string, (fun row => TensorVal row.1.1) <$> rows);
       ("image_for_codebook"%string, (fun row => TensorVal row.1.2) <$> rows);
       ("image_patches_mask"%string, (fun row => MaskVal row.2) <$> rows)]
  end.

(** ** A small instance of the image library, for examples *)

(** Images are numbered; a resize or a crop gives the next number. *)
Global Instance toy_torchvision : Torchvision nat nat := {|
  Resize_init := fun size _ =>
    Ok {| rs_size := size; rs_interpolation := BILINEAR;
          rs_max_size := NoneVal; rs_antialias := NoneVal |};
  RandomResizedCrop_init := fun size kw =>
    Ok {| rc_size := TupleVal [size; size];
          rc_scale := TupleVal [FloatVal (8 # 100); FloatVal 1];
          rc_ratio := TupleVal [FloatVal (3 # 4); FloatVal (4 # 3)];
          rc_interpolation := ModeSeq [BILINEAR; BICUBIC] |};
  F_resize := fun img _ _ _ _ => Ok (S img);
  F_resized_crop := fun img _ _ _ _ _ _ => Ok (S img);
  get_params := fun _ _ _ s => Ok (0, 0, 1, 1, S s);
  random_choice := fun ms s =>
    match ms with
    | [] => Raise IndexError
    | m :: _ => Ok (m, S s)
    end
|}.

Global Instance toy_image_ops : ImageOps nat Q := {|
  image_mode := fun _ => "RGB"%string;
  image_convert := fun img _ => Ok img;
  ToTensor := fun img =>
    Ok {| t_dtype := float32; t_shape := [3; 1; 1]%nat;
          t_data := [inject_Z (Z.of_nat img); 0; 1]%Q |};
  Normalize := fun _ _ t => Ok t
|}.

(** The transform with the defaults of its constructor. *)
Definition toy_transform (is_train : bool)
  : constructed (MaskedImageModelingTransform nat nat Q) :=
  @MaskedImageModelingTransform_init nat nat Q toy_torchvision toy_image_ops
    Q_pixel_ops is_train 224 112 (9 # 10, 1)%Q (Mode BICUBIC) (Mode LANCZOS)
    IMAGE_PRETRAINING_MEAN IMAGE_PRETRAINING_STD 14 75 None 16.

End ImageMasking.

(** * mdetr.py *)

Module Mdetr.

(** ** Modules of the tensor library

    [nn.MultiheadAttention], [nn.Linear], [nn.LayerNorm], [nn.Dropout] and
    the activation are callables of the tensor library.  During one
    forward pass every instance is a function of its arguments (a
    [Dropout] instance is entered once per pass).  They may raise on
    arguments they do not accept. *)

Definition Module1 (T : Type) : Type := T -> result T.

(** [self_attn(query, key, value=, attn_mask=, key_padding_mask=)[0]] *)
Definition Attention (T : Type) : Type :=
  T -> T -> T -> option T -> option T -> result T.

(** The two tensor operations that the layers and the stacks use
    directly: [a + b] and [torch.stack]. *)
Class TensorOps (T : Type) : Type := {
  t_add : T -> T -> result T;
  t_stack : list T -> result T
}.

(** The constructors of the library that the [__init__] methods call. *)
Class TorchNN (T : Type) : Type := {
  MultiheadAttention : nat -> nat -> Q -> Attention T;
  Linear : nat -> nat -> Module1 T;
  LayerNorm : nat -> Module1 T;
  Dropout : Q -> Module1 T
}.

(** ** TransformerEncoderLayer *)

Record TransformerEncoderLayer (T : Type) : Type := {
  enc_self_attn : Attention T;
  enc_linear1 : Module1 T;
  enc_dropout : Module1 T;
  enc_linear2 : Module1 T;
  enc_norm1 : Module1 T;
  enc_norm2 : Module1 T;
  enc_dropout1 : Module1 T;
  enc_dropout2 : Module1 T;
  enc_activation : Module1 T;
  normalize_before : bool
}.
Arguments enc_self_attn {T} _.
Arguments enc_linear1 {T} _.
Arguments enc_dropout {T} _.
Arguments enc_linear2 {T} _.
Arguments enc_norm1 {T} _.
Arguments enc_norm2 {T} _.
Arguments enc_dropout1 {T} _.
Arguments enc_dropout2 {T} _.
Arguments enc_activation {T} _.
Arguments normalize_before {T} _.

Definition TransformerEncoderLayer_init `{TorchNN T}
    (d_model nhead dim_feedforward : nat) (dropout : Q)
    (activation : Module1 T) (normalize_before : bool)
  : TransformerEncoderLayer T :=
  {| enc_self_attn := MultiheadAttention d_model nhead dropout;
     enc_linear1 := Linear d_model dim_feedforward;
     enc_dropout := Dropout dropout;
     enc_linear2 := Linear dim_feedforward d_model;
     enc_norm1 := LayerNorm d_model;
     enc_norm2 := LayerNorm d_model;
     enc_dropout1 := Dropout dropout;
     enc_dropout2 := Dropout dropout;
     enc_activation := activation;
     normalize_before := normalize_before |}.

(** [with_pos_embed], the same in both layer classes. *)
Definition with_pos_embed `{TensorOps T} (tensor : T) (pos : option T)
  : result T :=
  match pos with
  | None => Ok tensor
  | Some p => t_add tensor p
  end.

Definition enc_forward_post `{TensorOps T} (L : TransformerEncoderLayer T)
    (src : T) (src_mask src_key_padding_mask pos : option T) : result T :=
  q ← with_pos_embed src pos;
  src2 ← enc_self_attn L q q src src_mask src_key_padding_mask;
  d1 ← enc_dropout1 L src2;
  src ← t_add src d1;
  src ← enc_norm1 L src;
  l1 ← enc_linear1 L src;
  a ← enc_activation L l1;
  d ← enc_dropout L a;
  src2 ← enc_linear2 L d;
  d2 ← enc_dropout2 L src2;
  src ← t_add src d2;
  enc_norm2 L src.

Definition enc_forward_pre `{TensorOps T} (L : TransformerEncoderLayer T)
    (src : T) (src_mask src_key_padding_mask pos : option T) : result T :=
  src2 ← enc_norm1 L src;
  q ← with_pos_embed src2 pos;
  src2 ← enc_self_attn L q q src2 src_mask src_key_padding_mask;
  d1 ← enc_dropout1 L src2;
  src ← t_add src d1;
  src2 ← enc_norm2 L src;
  l1 ← enc_linear1 L src2;
  a ← enc_activation L l1;
  d ← enc_dropout L a;
  src2 ← enc_linear2 L d;
  d2 ← enc_dropout2 L src2;
  t_add src d2.

Definition TransformerEncoderLayer_forward `{TensorOps T}
    (L : TransformerEncoderLayer T)
    (src : T) (src_mask src_key_padding_mask pos : option T) : result T :=
  if normalize_before L
  then enc_forward_pre L src src_mask src_key_padding_mask pos
  else enc_forward_post L src src_mask src_key_padding_mask pos.

(** ** TransformerDecoderLayer *)

Record TransformerDecoderLayer (T : Type) : Type := {
  dec_self_attn : Attention T;
  dec_cross_attn_image : Attention T;
  dec_linear1 : Module1 T;
  dec_dropout : Module1 T;
  dec_linear2 : Module1 T;
  dec_norm1 : Module1 T;
  dec_norm3 : Module1 T;
  dec_norm4 : Module1 T;
  dec_dropout1 : Module1 T;
  dec_dropout3 : Module1 T;
  dec_dropout4 : Module1 T;
  dec_activation : Module1 T
}.
Arguments dec_self_attn {T} _.
Arguments dec_cross_attn_image {T} _.
Arguments dec_linear1 {T} _.
Arguments dec_dropout {T} _.
Arguments dec_linear2 {T} _.
Arguments dec_norm1 {T} _.
Arguments dec_norm3 {T} _.
Arguments dec_norm4 {T} _.
Arguments dec_dropout1 {T} _.
Arguments dec_dropout3 {T} _.
Arguments dec_dropout4 {T} _.
Arguments dec_activation {T} _.

Definition TransformerDecoderLayer_init `{TorchNN T}
    (d_model nhead dim_feedforward : nat) (dropout : Q)
    (activation : Module1 T) : TransformerDecoderLayer T :=
  {| dec_self_attn := MultiheadAttention d_model nhead dropout;
     dec_cross_attn_image := MultiheadAttention d_model nhead dropout;
     dec_linear1 := Linear d_model dim_feedforward;
     dec_dropout := Dropout dropout;
     dec_linear2 := Linear dim_feedforward d_model;
     dec_norm1 := LayerNorm d_model;
     dec_norm3 := LayerNorm d_model;
     dec_norm4 := LayerNorm d_model;
     dec_dropout1 := Dropout dropout;
     dec_dropout3 := Dropout dropout;
     dec_dropout4 := Dropout dropout;
     dec_activation := activation |}.

Definition TransformerDecoderLayer_forward `{TensorOps T}
    (L : TransformerDecoderLayer T) (tgt memory : T)
    (tgt_mask memory_mask tgt_key_padding_mask memory_key_padding_mask
       pos query_pos : option T) : result T :=
  q ← with_pos_embed tgt query_pos;
  tgt2 ← dec_self_attn L q q tgt tgt_mask tgt_key_padding_mask;
  d1 ← dec_dropout1 L tgt2;
  tgt ← t_add tgt d1;
  tgt ← dec_norm1 L tgt;
  query ← with_pos_embed tgt query_pos;
  key ← with_pos_embed memory pos;
  tgt2 ← dec_cross_attn_image L query key memory memory_mask
           memory_key_padding_mask;
  d3 ← dec_dropout3 L tgt2;
  tgt ← t_add tgt d3;
  tgt ← dec_norm3 L tgt;
  l1 ← dec_linear1 L tgt;
  a ← dec_activation L l1;
  d ← dec_dropout L a;
  tgt2 ← dec_linear2 L d;
  d4 ← dec_dropout4 L tgt2;
  tgt ← t_add tgt d4;
  dec_norm4 L tgt.

(** ** TransformerEncoder *)

(** [_get_clones]: deep copies of one layer. *)
Definition _get_clones {M : Type} (module : M) (N : nat) : list M :=
  replicate N module.

Record TransformerEncoder (T : Type) : Type := {
  encoder_layers : list (TransformerEncoderLayer T);
  encoder_num_layers : nat;
  encoder_norm : option (Module1 T)
}.
Arguments encoder_layers {T} _.
Arguments encoder_num_layers {T} _.
Arguments encoder_norm {T} _.

Definition TransformerEncoder_init {T} (encoder_layer : TransformerEncoderLayer T)
    (num_layers : nat) (norm : option (Module1 T)) : TransformerEncoder T :=
  {| encoder_layers := _get_clones encoder_layer num_layers;
     encoder_num_layers := num_layers;
     encoder_norm := norm |}.

Definition TransformerEncoder_forward `{TensorOps T} (E : TransformerEncoder T)
    (src : T) (mask src_key_padding_mask pos : option T) : result T :=
  output ← for_each (encoder_layers E)
             (fun output layer =>
                TransformerEncoderLayer_forward layer output mask
                  src_key_padding_mask pos)
             src;
  match encoder_norm E with
  | Some norm => norm output
  | None => Ok output
  end.

(** ** TransformerDecoder *)

Record TransformerDecoder (T : Type) : Type := {
  decoder_layers : list (TransformerDecoderLayer T);
  decoder_num_layers : nat;
  decoder_norm : option (Module1 T);
  return_intermediate : bool
}.
Arguments decoder_layers {T} _.
Arguments decoder_num_layers {T} _.
Arguments decoder_norm {T} _.
Arguments return_intermediate {T} _.

Definition TransformerDecoder_init {T} (decoder_layer : TransformerDecoderLayer T)
    (num_layers : nat) (norm : option (Module1 T))
    (return_intermediate : bool) : TransformerDecoder T :=
  {| decoder_layers := _get_clones decoder_layer num_layers;
     decoder_num_layers := num_layers;
     decoder_norm := norm;
     return_intermediate := return_intermediate |}.

(** Calling [self.norm]: [None] is not callable. *)
Definition call_norm {T} (norm : option (Module1 T)) (x : T) : result T :=
  match norm with
  | Some f => f x
  | None => Raise TypeError
  end.

(** [list.pop()] *)
Definition list_pop {A} (l : list A) : result (list A) :=
  match l with
  | [] => Raise IndexError
  | _ :: _ => Ok (removelast l)
  end.

(** Lines 270-282: one iteration of the loop over the layers; the state
    is [(output, intermediate)]. *)
Definition decoder_step `{TensorOps T} (D : TransformerDecoder T) (memory : T)
    (tgt_mask memory_mask tgt_key_padding_mask memory_key_padding_mask
       pos query_pos : option T)
    (st : T * list T) (layer : TransformerDecoderLayer T)
  : result (T * list T) :=
  output ← TransformerDecoderLayer_forward layer st.1 memory tgt_mask
             memory_mask tgt_key_padding_mask memory_key_padding_mask
             pos query_pos;
  if return_intermediate D then
    n ← call_norm (decoder_norm D) output;
    Ok (output, st.2 ++ [n])
  else Ok (output, st.2).

(** Lines 266-288: [output] and [intermediate] as they stand when line 290
    is reached. *)
Definition TransformerDecoder_collect `{TensorOps T} (D : TransformerDecoder T)
    (tgt memory : T)
    (tgt_mask memory_mask tgt_key_padding_mask memory_key_padding_mask
       pos query_pos : option T) : result (T * list T) :=
  st ← for_each (decoder_layers D)
         (decoder_step D memory tgt_mask memory_mask tgt_key_padding_mask
            memory_key_padding_mask pos query_pos)
         (tgt, []);
  match decoder_norm D with
  | Some norm =>
      output ← norm st.1;
      if return_intermediate D then
        intermediate ← list_pop st.2;
        Ok (output, intermediate ++ [output])
      else Ok (output, st.2)
  | None => Ok st
  end.

Definition TransformerDecoder_forward `{TensorOps T} (D : TransformerDecoder T)
    (tgt memory : T)
    (tgt_mask memory_mask tgt_key_padding_mask memory_key_padding_mask
       pos query_pos : option T) : result T :=
  st ← TransformerDecoder_collect D tgt memory tgt_mask memory_mask
         tgt_key_padding_mask memory_key_padding_mask pos query_pos;
  if return_intermediate D then t_stack st.2 else Ok st.1.

(** ** Tensors

    A tensor is its shape and its entries, read by a multi-index.  The
    scalar type and its arithmetic are those of the tensor library. *)

Class Scalar (elem : Type) : Type := {
  zero : elem;
  fadd : elem -> elem -> elem;
  fscale : Q -> elem -> elem
}.

Record Tensor (elem : Type) : Type := {
  shape : list nat;
  item : list nat -> elem
}.
Arguments shape {elem} _.
Arguments item {elem} _ _.
Arguments Build_Tensor {elem} _ _.

(** A Python value that is a tensor or [None]. *)
Inductive pyval (elem : Type) : Type :=
| PyNone
| PyTensor (t : Tensor elem).
Arguments PyNone {elem}.
Arguments PyTensor {elem} t.

Definition as_tensor {elem} (v : pyval elem) (e : exn) : result (Tensor elem) :=
  match v with
  | PyTensor t => Ok t
  | PyNone => Raise e
  end.

Definition as_optional {elem} (v : pyval elem) : option (Tensor elem) :=
  match v with
  | PyTensor t => Some t
  | PyNone => None
  end.

Definition ndim {elem} (t : Tensor elem) : nat := length (shape t).

Definition prod (dims : list nat) : nat := foldr Nat.mul 1%nat dims.

(** The row-major multi-index of the flat position [k] in an array of
    dimensions [dims]. *)
Fixpoint unravel (k : nat) (dims : list nat) : list nat :=
  match dims with
  | [] => []
  | _ :: ds => (k / prod ds)%nat :: unravel (k mod prod ds)%nat ds
  end.

(** [t.flatten(start_dim)] *)
Definition flatten {elem} (start_dim : nat) (t : Tensor elem)
  : result (Tensor elem) :=
  if (start_dim <? Nat.max 1 (ndim t))%nat then
    Ok {| shape := take start_dim (shape t) ++ [prod (drop start_dim (shape t))];
          item := fun idx =>
            item t (take start_dim idx
                    ++ unravel (nth start_dim idx 0%nat)
                               (drop start_dim (shape t))) |}
  else Raise IndexError.

(** The position of [a] in [dims]. *)
Fixpoint index_of (a : nat) (dims : list nat) : nat :=
  match dims with
  | [] => 0%nat
  | d :: ds => if (d =? a)%nat then 0%nat else S (index_of a ds)
  end.

Definition is_permutation (dims : list nat) (n : nat) : bool :=
  (length dims =? n)%nat
  && forallb (fun a => existsb (Nat.eqb a) dims) (seq 0 n).

(** [t.permute(d0, d1, ...)] *)
Definition permute {elem} (dims : list nat) (t : Tensor elem)
  : result (Tensor elem) :=
  if is_permutation dims (ndim t) then
    Ok {| shape := (fun d => nth d (shape t) 0%nat) <$> dims;
          item := fun idx =>
            item t ((fun a => nth (index_of a dims) idx 0%nat)
                      <$> seq 0 (ndim t)) |}
  else Raise RuntimeError.

(** [t.unsqueeze(dim)] *)
Definition unsqueeze {elem} (dim : nat) (t : Tensor elem)
  : result (Tensor elem) :=
  if (dim <=? ndim t)%nat then
    Ok {| shape := take dim (shape t) ++ 1%nat :: drop dim (shape t);
          item := fun idx => item t (take dim idx ++ drop (S dim) idx) |}
  else Raise IndexError.

(** [t.repeat(n0, n1, ...)] *)
Definition repeat {elem} (sizes : list nat) (t : Tensor elem)
  : result (Tensor elem) :=
  if (ndim t <=? length sizes)%nat then
    let pad := (length sizes - ndim t)%nat in
    let dims := replicate pad 1%nat ++ shape t in
    Ok {| shape := zip_with Nat.mul dims sizes;
          item := fun idx => item t (drop pad (zip_with Nat.modulo idx dims)) |}
  else Raise RuntimeError.

(** [torch.zeros_like(v)] *)
Definition zeros_like `{Scalar elem} (v : pyval elem) : result (Tensor elem) :=
  match v with
  | PyTensor t => Ok {| shape := shape t; item := fun _ => zero |}
  | PyNone => Raise TypeError
  end.

(** All sizes agree except possibly along [dim]. *)
Definition same_shape_except (dim : nat) (s1 s2 : list nat) : bool :=
  (length s1 =? length s2)%nat
  && forallb (fun i => (i =? dim)%nat
                       || (nth i s1 0 =? nth i s2 0)%nat)
             (seq 0 (length s1)).

(** Concatenation of two tensors along [dim]. *)
Definition cat2 {elem} (dim : nat) (a b : Tensor elem)
  : result (Tensor elem) :=
  if (dim <? ndim a)%nat && same_shape_except dim (shape a) (shape b) then
    let na := nth dim (shape a) 0%nat in
    let nb := nth dim (shape b) 0%nat in
    Ok {| shape := <[dim := (na + nb)%nat]> (shape a);
          item := fun idx =>
            let i := nth dim idx 0%nat in
            if (i <? na)%nat then item a idx
            else item b (<[dim := (i - na)%nat]> idx) |}
  else Raise RuntimeError.

(** [torch.cat(tensors, dim=dim)]: every element must be a tensor. *)
Fixpoint all_tensors {elem} (vs : list (pyval elem))
  : result (list (Tensor elem)) :=
  match vs with
  | [] => Ok []
  | v :: vs' =>
      t ← as_tensor v TypeError;
      ts ← all_tensors vs';
      Ok (t :: ts)
  end.

Definition torch_cat {elem} (vs : list (pyval elem)) (dim : nat)
  : result (Tensor elem) :=
  ts ← all_tensors vs;
  match ts with
  | [] => Raise RuntimeError
  | t :: ts' => for_each ts' (fun acc b => cat2 dim acc b) t
  end.

(** [torch.stack(tensors)]: a new leading axis. *)
Definition shape_eqb (s1 s2 : list nat) : bool :=
  bool_decide (s1 = s2).

Definition torch_stack `{Scalar elem} (ts : list (Tensor elem))
  : result (Tensor elem) :=
  match ts with
  | [] => Raise RuntimeError
  | t :: _ =>
      if forallb (fun u => shape_eqb (shape u) (shape t)) ts then
        Ok {| shape := length ts :: shape t;
              item := fun idx =>
                match idx with
                | [] => zero
                | i :: idx' =>
                    match ts !! i with
                    | Some u => item u idx'
                    | None => zero
                    end
                end |}
      else Raise RuntimeError
  end.

(** [len(v)] *)
Definition py_len {elem} (v : pyval elem) : result nat :=
  match v with
  | PyNone => Raise TypeError
  | PyTensor t =>
      match shape t with
      | [] => Raise TypeError
      | n :: _ => Ok n
      end
  end.

(** [t[start:]] for a Python integer [start]: a negative [start] counts
    from the end, and the bounds are clipped to [0..len]. *)
Definition slice_from {elem} (start : Z) (t : Tensor elem)
  : result (Tensor elem) :=
  match shape t with
  | [] => Raise IndexError
  | n :: rest =>
      let first :=
        if start <? 0 then Z.to_nat (Z.max (Z.of_nat n + start) 0)
        else Nat.min (Z.to_nat start) n in
      Ok {| shape := (n - first)%nat :: rest;
            item := fun idx =>
              match idx with
              | [] => item t []
              | i :: idx' => item t ((first + i)%nat :: idx')
              end |}
  end.

(** [t.shape[i]] *)
Definition shape_at {elem} (t : Tensor elem) (i : nat) : result nat :=
  match shape t !! i with
  | Some n => Ok n
  | None => Raise IndexError
  end.

(** Exchange of the entries [i] and [j] of a list. *)
Definition swap {A} (i j : nat) (d : A) (l : list A) : list A :=
  <[i := nth j l d]> (<[j := nth i l d]> l).

(** [t.transpose(dim0, dim1)] *)
Definition transpose {elem} (dim0 dim1 : nat) (t : Tensor elem)
  : result (Tensor elem) :=
  if (dim0 <? ndim t)%nat && (dim1 <? ndim t)%nat then
    Ok {| shape := swap dim0 dim1 0%nat (shape t);
          item := fun idx => item t (swap dim0 dim1 0%nat idx) |}
  else Raise IndexError.

(** Broadcasting: the shapes are aligned on their last axis and two
    sizes are compatible when they are equal or one of them is 1. *)
Fixpoint broadcast_rev (s1 s2 : list nat) : option (list nat) :=
  match s1, s2 with
  | [], _ => Some s2
  | _, [] => Some s1
  | a :: s1', b :: s2' =>
      if (a =? b)%nat then cons a <$> broadcast_rev s1' s2'
      else if (a =? 1)%nat then cons b <$> broadcast_rev s1' s2'
      else if (b =? 1)%nat then cons a <$> broadcast_rev s1' s2'
      else None
  end.

Definition broadcast_shapes (s1 s2 : list nat) : option (list nat) :=
  @rev nat <$> broadcast_rev (rev s1) (rev s2).

(** The index into an operand of shape [s] for the index [idx] of the
    broadcast result. *)
Definition broadcast_index (s idx : list nat) : list nat :=
  zip_with (fun d i => if (d =? 1)%nat then 0%nat else i) s
    (drop (length idx - length s) idx).

(** [a + b] on tensors. *)
Definition tensor_add `{Scalar elem} (a b : Tensor elem)
  : result (Tensor elem) :=
  match broadcast_shapes (shape a) (shape b) with
  | Some s =>
      Ok {| shape := s;
            item := fun idx =>
              fadd (item a (broadcast_index (shape a) idx))
                   (item b (broadcast_index (shape b) idx)) |}
  | None => Raise RuntimeError
  end.

(** [a + b] on Python values. *)
Definition py_add `{Scalar elem} (a b : pyval elem) : result (pyval elem) :=
  match a, b with
  | PyTensor x, PyTensor y => t ← tensor_add x y; Ok (PyTensor t)
  | _, _ => Raise TypeError
  end.

(** [c * v] for a Python float [c]. *)
Definition py_rmul `{Scalar elem} (c : Q) (v : pyval elem)
  : result (pyval elem) :=
  match v with
  | PyTensor t =>
      Ok (PyTensor {| shape := shape t; item := fun idx => fscale c (item t idx) |})
  | PyNone => Raise TypeError
  end.

Global Instance tensor_ops `{Scalar elem} : TensorOps (Tensor elem) := {
  t_add := tensor_add;
  t_stack := torch_stack
}.

(** ** Transformer *)

Record Transformer (elem : Type) : Type := {
  pass_pos_and_query : bool;
  encoder : TransformerEncoder (Tensor elem);
  decoder : TransformerDecoder (Tensor elem);
  d_model : nat
}.
Arguments pass_pos_and_query {elem} _.
Arguments encoder {elem} _.
Arguments decoder {elem} _.
Arguments d_model {elem} _.

(** [Transformer.__init__].  [_reset_parameters] redraws the weights and
    changes no callable's domain or result shape. *)
Definition Transformer_init {elem} `{TorchNN (Tensor elem)}
    (d_model nhead num_encoder_layers num_decoder_layers dim_feedforward : nat)
    (dropout : Q) (activation : Module1 (Tensor elem))
    (normalize_before return_intermediate_dec pass_pos_and_query : bool)
  : Transformer elem :=
  let encoder_layer :=
    TransformerEncoderLayer_init d_model nhead dim_feedforward dropout
      activation normalize_before in
  let encoder_norm :=
    if normalize_before then Some (LayerNorm d_model) else None in
  let decoder_layer :=
    TransformerDecoderLayer_init d_model nhead dim_feedforward dropout
      activation in
  let decoder_norm := LayerNorm d_model in
  {| pass_pos_and_query := pass_pos_and_query;
     encoder := TransformerEncoder_init encoder_layer num_encoder_layers
                  encoder_norm;
     decoder := TransformerDecoder_init decoder_layer num_decoder_layers
                  (Some decoder_norm) return_intermediate_dec;
     d_model := d_model |}.

(** [bs, _, _, _ = src.shape] *)
Definition unpack4 (s : list nat) : result nat :=
  match s with
  | [bs; _; _; _] => Ok bs
  | _ => Raise (ValueError "unpack"%string)
  end.

(** [assert a.shape[1] == b.shape[1] == c.shape[1]]: a chained
    comparison, which reads [c.shape[1]] only when the first two agree. *)
Definition assert_shape1 {elem} (a b : Tensor elem) (c : pyval elem)
  : result unit :=
  x ← shape_at a 1;
  y ← shape_at b 1;
  if (x =? y)%nat then
    c' ← as_tensor c AttributeError;
    z ← shape_at c' 1;
    if (y =? z)%nat then Ok tt else Raise AssertionError
  else Raise AssertionError.

(** Lines 170-178 and 194-202: the four variables
    [src, tgt, query_embed, pos_embed] after the branch. *)
Definition pos_and_query_branch `{Scalar elem} (pass_pos_and_query : bool)
    (src tgt query_embed pos_embed : pyval elem)
  : result (pyval elem * pyval elem * pyval elem * pyval elem) :=
  if pass_pos_and_query then
    tgt' ← zeros_like query_embed;
    Ok (src, PyTensor tgt', query_embed, pos_embed)
  else
    scaled ← py_rmul (1 # 10) pos_embed;
    src' ← py_add src scaled;
    Ok (src', query_embed, PyNone, PyNone).

(** The local variables of [Transformer.forward] when line 206 is
    reached; [loc_fused_src] is [src] as the encoder received it. *)
Record Locals (elem : Type) : Type := {
  loc_fused_src : Tensor elem;
  loc_tgt : pyval elem;
  loc_img_memory : Tensor elem;
  loc_text_memory : Tensor elem;
  loc_mask : Tensor elem;
  loc_pos_embed : pyval elem;
  loc_query_embed : pyval elem
}.
Arguments loc_fused_src {elem} _.
Arguments loc_tgt {elem} _.
Arguments loc_img_memory {elem} _.
Arguments loc_text_memory {elem} _.
Arguments loc_mask {elem} _.
Arguments loc_pos_embed {elem} _.
Arguments loc_query_embed {elem} _.

(** Lines 163-204 of [Transformer.forward]. *)
Definition forward_encode `{Scalar elem} (M : Transformer elem)
    (src mask query_embed pos_embed text_memory text_attention_mask
       : pyval elem) : result (Locals elem) :=
  src0 ← as_tensor src AttributeError;
  bs ← unpack4 (shape src0);
  src1 ← flatten 2 src0;
  src2 ← permute [2; 0; 1]%nat src1;
  pos0 ← as_tensor pos_embed AttributeError;
  pos1 ← flatten 2 pos0;
  pos2 ← permute [2; 0; 1]%nat pos1;
  qe0 ← as_tensor query_embed AttributeError;
  qe1 ← unsqueeze 1 qe0;
  qe2 ← repeat [1; bs; 1]%nat qe1;
  mask0 ← as_tensor mask AttributeError;
  mask1 ← flatten 1 mask0;
  '(src3, tgt, query_embed3, pos_embed3) ←
    pos_and_query_branch (pass_pos_and_query M) (PyTensor src2) PyNone
      (PyTensor qe2) (PyTensor pos2);
  src4 ← torch_cat [src3; text_memory] 0;
  mask2 ← torch_cat [PyTensor mask1; text_attention_mask] 1;
  zeros ← zeros_like text_memory;
  pos_embed4 ← torch_cat [pos_embed3; PyTensor zeros] 0;
  img_memory ← TransformerEncoder_forward (encoder M) src4 None (Some mask2)
                 (Some pos_embed4);
  n ← py_len text_memory;
  text_memory' ← slice_from (- Z.of_nat n) img_memory;
  _ ← assert_shape1 img_memory text_memory' tgt;
  '(src5, tgt', query_embed5, pos_embed5) ←
    pos_and_query_branch (pass_pos_and_query M) PyNone tgt query_embed3
      (PyTensor pos_embed4);
  _ ← assert_shape1 img_memory text_memory' tgt';
  Ok {| loc_fused_src := src4;
        loc_tgt := tgt';
        loc_img_memory := img_memory;
        loc_text_memory := text_memory';
        loc_mask := mask2;
        loc_pos_embed := pos_embed5;
        loc_query_embed := query_embed5 |}.

(** Lines 206-213: the decoder call on the local variables, and the final
    transposition. *)
Definition forward_decode `{Scalar elem} (M : Transformer elem)
    (loc : Locals elem) : result (Tensor elem) :=
  tgt ← as_tensor (loc_tgt loc) TypeError;
  hs ← TransformerDecoder_forward (decoder M) tgt (loc_img_memory loc)
         None None None (Some (loc_mask loc))
         (as_optional (loc_pos_embed loc))
         (as_optional (loc_query_embed loc));
  transpose 1 2 hs.

(** [Transformer.forward] *)
Definition Transformer_forward `{Scalar elem} (M : Transformer elem)
    (src mask query_embed pos_embed text_memory text_attention_mask
       : pyval elem) : result (Tensor elem) :=
  loc ← forward_encode M src mask query_embed pos_embed text_memory
          text_attention_mask;
  forward_decode M loc.

(** ** The data flow of a layer, read off a symbolic run

    Running a layer on the free algebra of the tensor operations gives
    the expression that the layer computes: which operation feeds which. *)

Inductive term : Type :=
| TVar (name : string)
| TNone
| TAdd (a b : term)
| TNil
| TCons (head tail : term)
| TStack (entries : term)
| TAttention (embed_dim num_heads : nat) (dropout : Q)
    (query key value attn_mask key_padding_mask : term)
| TLinear (in_features out_features : nat) (x : term)
| TLayerNorm (normalized_shape : nat) (x : term)
| TDropout (p : Q) (x : term)
| TActivation (name : string) (x : term).

Global Instance Q_eq_dec : EqDecision Q.
Proof.
  intros [a b] [c d]. unfold Decision.
  destruct (decide (a = c)), (decide (b = d)); [left|right..]; congruence.
Defined.

Global Instance term_eq_dec : EqDecision term.
Proof. solve_decision. Defined.

Definition term_of_option (o : option term) : term :=
  match o with
  | Some t => t
  | None => TNone
  end.

Global Instance term_ops : TensorOps term := {
  t_add := fun a b => Ok (TAdd a b);
  t_stack := fun l =>
    match l with
    | [] => Raise RuntimeError
    | _ :: _ => Ok (TStack (foldr TCons TNil l))
    end
}.

Global Instance term_nn : TorchNN term := {
  MultiheadAttention := fun embed_dim num_heads dropout q k v attn_mask kpm =>
    Ok (TAttention embed_dim num_heads dropout q k v
          (term_of_option attn_mask) (term_of_option kpm));
  Linear := fun n m x => Ok (TLinear n m x);
  LayerNorm := fun d x => Ok (TLayerNorm d x);
  Dropout := fun p x => Ok (TDropout p x)
}.

(** A layer made of [n] post-norm sub-blocks over [input] computes
    [norm (x + f x)] at each of them: [peel_post_norm n t] removes [n]
    such wrappers from [t] and returns what is left. *)
Fixpoint peel_post_norm (n : nat) (t : term) : option term :=
  match n with
  | O => Some t
  | S n' =>
      match t with
      | TLayerNorm _ (TAdd x _) => peel_post_norm n' x
      | _ => None
      end
  end.

(** [x] occurs in [t] somewhere else than directly under a layer
    normalization. *)
Fixpoint occurs_raw (x t : term) : bool :=
  bool_decide (t = x) ||
  match t with
  | TVar _ | TNone | TNil => false
  | TAdd a b | TCons a b => occurs_raw x a || occurs_raw x b
  | TStack a | TLinear _ _ a | TDropout _ a | TActivation _ a =>
      occurs_raw x a
  | TAttention _ _ _ q k v m kpm =>
      occurs_raw x q || occurs_raw x k || occurs_raw x v
      || occurs_raw x m || occurs_raw x kpm
  | TLayerNorm _ a => if bool_decide (a = x) then false else occurs_raw x a
  end.

(** [x] occurs in [t] directly under a layer normalization. *)
Fixpoint occurs_normalized (x t : term) : bool :=
  match t with
  | TVar _ | TNone | TNil => false
  | TAdd a b | TCons a b => occurs_normalized x a || occurs_normalized x b
  | TStack a | TLinear _ _ a | TDropout _ a | TActivation _ a =>
      occurs_normalized x a
  | TAttention _ _ _ q k v m kpm =>
      occurs_normalized x q || occurs_normalized x k || occurs_normalized x v
      || occurs_normalized x m || occurs_normalized x kpm
  | TLayerNorm _ a => bool_decide (a = x) || occurs_normalized x a
  end.

(** A pre-norm sub-block computes [x + f (norm x)]: the residual sum is
    the result and [f] reads [x] only through the normalization. *)
Fixpoint peel_pre_norm (n : nat) (t : term) : option term :=
  match n with
  | O => Some t
  | S n' =>
      match t with
      | TAdd x f =>
          if occurs_normalized x f && negb (occurs_raw x f)
          then peel_pre_norm n' x
          else None
      | _ => None
      end
  end.

Definition is_post_norm (blocks : nat) (input output : term) : bool :=
  bool_decide (peel_post_norm blocks output = Some input).

Definition is_pre_norm (blocks : nat) (input output : term) : bool :=
  bool_decide (peel_pre_norm blocks output = Some input).

(** A symbolic activation function. *)
Definition relu : Module1 term := fun x => Ok (TActivation "relu" x).

(** ** What the stacks assume of the library's modules

    The shapes the library documents for its modules, on non-empty
    batches and sequences. *)

(** [nn.Dropout] and the activation keep the shape of any input. *)
Definition shape_preserving {elem} (f : Module1 (Tensor elem)) : Prop :=
  forall t, exists o, f t = Ok o /\ shape o = shape t.

(** [nn.LayerNorm(d)] accepts an input whose last axis has size [d]. *)
Definition norm_ok {elem} (d : nat) (f : Module1 (Tensor elem)) : Prop :=
  forall t lead, shape t = lead ++ [d] ->
    exists o, f t = Ok o /\ shape o = shape t.

(** [nn.Linear(n, m)] maps a last axis of size [n] to one of size [m]. *)
Definition linear_ok {elem} (n m : nat) (f : Module1 (Tensor elem)) : Prop :=
  forall t lead, shape t = lead ++ [n] ->
    exists o, f t = Ok o /\ shape o = lead ++ [m].

Definition padding_mask_ok {elem} (B S : nat) (m : option (Tensor elem))
  : Prop :=
  match m with
  | Some m => shape m = [B; S]
  | None => True
  end.

(** [nn.MultiheadAttention(E, ...)] without [attn_mask]: a query
    [L; B; E], key and value [S; B; E], a key padding mask [B; S] or
    [None]; the attention output has the shape of the query. *)
Definition attention_ok {elem} (E : nat) (f : Attention (Tensor elem)) : Prop :=
  forall q k v kpm L S B,
    (0 < L)%nat -> (0 < S)%nat -> (0 < B)%nat ->
    shape q = [L; B; E] -> shape k = [S; B; E] -> shape v = [S; B; E] ->
    padding_mask_ok B S kpm ->
    exists o, f q k v None kpm = Ok o /\ shape o = [L; B; E].

Record EncoderLayer_ok {elem} (d dff : nat)
    (L : TransformerEncoderLayer (Tensor elem)) : Prop := {
  enc_self_attn_ok : attention_ok d (enc_self_attn L);
  enc_linear1_ok : linear_ok d dff (enc_linear1 L);
  enc_dropout_ok : shape_preserving (enc_dropout L);
  enc_linear2_ok : linear_ok dff d (enc_linear2 L);
  enc_norm1_ok : norm_ok d (enc_norm1 L);
  enc_norm2_ok : norm_ok d (enc_norm2 L);
  enc_dropout1_ok : shape_preserving (enc_dropout1 L);
  enc_dropout2_ok : shape_preserving (enc_dropout2 L);
  enc_activation_ok : shape_preserving (enc_activation L)
}.

Record DecoderLayer_ok {elem} (d dff : nat)
    (L : TransformerDecoderLayer (Tensor elem)) : Prop := {
  dec_self_attn_ok : attention_ok d (dec_self_attn L);
  dec_cross_attn_image_ok : attention_ok d (dec_cross_attn_image L);
  dec_linear1_ok : linear_ok d dff (dec_linear1 L);
  dec_dropout_ok : shape_preserving (dec_dropout L);
  dec_linear2_ok : linear_ok dff d (dec_linear2 L);
  dec_norm1_ok : norm_ok d (dec_norm1 L);
  dec_norm3_ok : norm_ok d (dec_norm3 L);
  dec_norm4_ok : norm_ok d (dec_norm4 L);
  dec_dropout1_ok : shape_preserving (dec_dropout1 L);
  dec_dropout3_ok : shape_preserving (dec_dropout3 L);
  dec_dropout4_ok : shape_preserving (dec_dropout4 L);
  dec_activation_ok : shape_preserving (dec_activation L)
}.

Definition optional_norm_ok {elem} (d : nat)
    (norm : option (Module1 (Tensor elem))) : Prop :=
  match norm with
  | Some f => norm_ok d f
  | None => True
  end.

(** What [Transformer.__init__] establishes: every layer is built for
    [d_model], and the decoder has a final normalization. *)
Record Transformer_ok {elem} (dff : nat) (M : Transformer elem) : Prop := {
  d_model_pos : (0 < d_model M)%nat;
  encoder_layers_ok :
    Forall (EncoderLayer_ok (d_model M) dff) (encoder_layers (encoder M));
  encoder_norm_ok : optional_norm_ok (d_model M) (encoder_norm (encoder M));
  decoder_layers_ok :
    Forall (DecoderLayer_ok (d_model M) dff) (decoder_layers (decoder M));
  decoder_count_ok :
    length (decoder_layers (decoder M)) = decoder_num_layers (decoder M);
  decoder_has_norm : is_Some (decoder_norm (decoder M));
  decoder_norm_ok : optional_norm_ok (d_model M) (decoder_norm (decoder M))
}.

Record TorchNN_ok {elem} (nn : TorchNN (Tensor elem)) : Prop := {
  MultiheadAttention_ok : forall E h p, attention_ok E (MultiheadAttention E h p);
  Linear_ok : forall n m, linear_ok n m (Linear n m);
  LayerNorm_ok : forall d, norm_ok d (LayerNorm d);
  Dropout_ok : forall p, shape_preserving (Dropout p)
}.

(** The inputs of [Transformer.forward] that the callers pass: an image
    feature map [B; C; H; W] with [C = d_model], its mask [B; H; W], the
    query table [Nq; C], the positional embedding [B; C; H; W], the text
    memory [Tx; B; C] and its mask [B; Tx]. *)
Record valid_inputs {elem} (B C H W Nq Tx : nat)
    (src mask query_embed pos_embed text_memory text_attention_mask
       : Tensor elem) : Prop := {
  batch_pos : (0 < B)%nat;
  image_pos : (0 < H * W)%nat;
  queries_pos : (0 < Nq)%nat;
  src_shape : shape src = [B; C; H; W];
  mask_shape : shape mask = [B; H; W];
  query_embed_shape : shape query_embed = [Nq; C];
  pos_embed_shape : shape pos_embed = [B; C; H; W];
  text_memory_shape : shape text_memory = [Tx; B; C];
  text_attention_mask_shape : shape text_attention_mask = [B; Tx]
}.

(** ** A small instance of the library, for examples *)

Global Instance Q_scalar : Scalar Q := {
  zero := 0%Q;
  fadd := Qplus;
  fscale := Qmult
}.

Definition last_axis_is (d : nat) (s : list nat) : bool :=
  match rev s with
  | n :: _ => (n =? d)%nat
  | [] => false
  end.

Definition toy_linear (n m : nat) : Module1 (Tensor Q) := fun t =>
  if last_axis_is n (shape t)
  then Ok {| shape := removelast (shape t) ++ [m]; item := fun _ => 0%Q |}
  else Raise RuntimeError.

Definition toy_norm (d : nat) : Module1 (Tensor Q) := fun t =>
  if last_axis_is d (shape t) then Ok t else Raise RuntimeError.

Definition toy_attention (E : nat) : Attention (Tensor Q) :=
  fun q k v attn_mask kpm =>
    match shape q, shape k with
    | [L; B; E1], [Sk; B2; E2] =>
        if bool_decide (E1 = E /\ E2 = E /\ B2 = B /\ shape v = shape k
                        /\ (shape <$> kpm) ∈ [None; Some [B; Sk]])
        then Ok {| shape := shape q; item := fun _ => 0%Q |}
        else Raise RuntimeError
    | _, _ => Raise RuntimeError
    end.

Definition toy_nn : TorchNN (Tensor Q) := {|
  MultiheadAttention := fun E _ _ => toy_attention E;
  Linear := toy_linear;
  LayerNorm := toy_norm;
  Dropout := fun _ t => Ok t
|}.

Definition toy_activation : Module1 (Tensor Q) := fun t => Ok t.

(** [d_model = 2], one head, one encoder layer, two decoder layers. *)
Definition toy_transformer (return_intermediate_dec pass_pos_and_query : bool)
  : Transformer Q :=
  @Transformer_init Q toy_nn 2 1 1 2 4 (1 # 10) toy_activation false
    return_intermediate_dec pass_pos_and_query.

(** A tensor whose entry at a multi-index is the sum of its components. *)
Definition ramp (s : list nat) : Tensor Q :=
  {| shape := s; item := fun idx => inject_Z (Z.of_nat (sum_list idx)) |}.

(** A batch of one image with a 2 by 2 feature map, three queries and
    [Tx] text tokens. *)
Definition toy_src : Tensor Q := ramp [1; 2; 2; 2]%nat.
Definition toy_mask : Tensor Q := ramp [1; 2; 2]%nat.
Definition toy_query_embed : Tensor Q := ramp [3; 2]%nat.
Definition toy_pos_embed : Tensor Q := ramp [1; 2; 2; 2]%nat.
Definition toy_text_memory (Tx : nat) : Tensor Q := ramp [Tx; 1; 2]%nat.
Definition toy_text_attention_mask (Tx : nat) : Tensor Q := ramp [1; Tx]%nat.

Definition toy_forward (return_intermediate_dec pass_pos_and_query : bool)
    (Tx : nat) : result (Tensor Q) :=
  Transformer_forward (toy_transformer return_intermediate_dec pass_pos_and_query)
    (PyTensor toy_src) (PyTensor toy_mask) (PyTensor toy_query_embed)
    (PyTensor toy_pos_embed) (PyTensor (toy_text_memory Tx))
    (PyTensor (toy_text_attention_mask Tx)).

Definition toy_forward_encode (pass_pos_and_query : bool) (Tx : nat)
  : result (Locals Q) :=
  forward_encode (toy_transformer true pass_pos_and_query)
    (PyTensor toy_src) (PyTensor toy_mask) (PyTensor toy_query_embed)
    (PyTensor toy_pos_embed) (PyTensor (toy_text_memory Tx))
    (PyTensor (toy_text_attention_mask Tx)).

Definition result_map {A B} (f : A -> B) (r : result A) : result B :=
  x ← r; Ok (f x).

(** ** Auxiliary notions for the statements *)

Definition raises {A} (r : result A) : Prop := exists e, r = Raise e.

Definition same_shape_or_none {elem} (s : list nat) (p : option (Tensor elem))
  : Prop :=
  match p with
  | Some p => shape p = s
  | None => True
  end.

Definition py_shape {elem} (v : pyval elem) : list nat :=
  match v with
  | PyTensor t => shape t
  | PyNone => []
  end.

(** The outputs of the successive decoder layers, each fed with the
    output of the one before. *)
Fixpoint decoder_layer_outputs `{TensorOps T}
    (layers : list (TransformerDecoderLayer T)) (tgt memory : T)
    (tgt_mask memory_mask tgt_key_padding_mask memory_key_padding_mask
       pos query_pos : option T) : result (list T) :=
  match layers with
  | [] => Ok []
  | layer :: layers' =>
      output ← TransformerDecoderLayer_forward layer tgt memory tgt_mask
                 memory_mask tgt_key_padding_mask memory_key_padding_mask
                 pos query_pos;
      outputs ← decoder_layer_outputs layers' output memory tgt_mask
                  memory_mask tgt_key_padding_mask memory_key_padding_mask
                  pos query_pos;
      Ok (output :: outputs)
  end.

Fixpoint map_result {A B} (f : A -> result B) (l : list A) : result (list B) :=
  match l with
  | [] => Ok []
  | a :: l' => b ← f a; bs ← map_result f l'; Ok (b :: bs)
  end.

(** A symbolic decoder of two layers that captures the intermediate
    outputs, as [Transformer.__init__] builds it. *)
Definition symbolic_decoder : TransformerDecoder term :=
  TransformerDecoder_init
    (TransformerDecoderLayer_init 256 8 2048 (1 # 10) relu) 2
    (Some (LayerNorm 256)) true.

Definition symbolic_outputs : list term :=
  match decoder_layer_outputs (decoder_layers symbolic_decoder)
          (TVar "tgt") (TVar "memory") None None None (Some (TVar "mask"))
          (Some (TVar "pos")) (Some (TVar "query_pos")) with
  | Ok outs => outs
  | Raise _ => []
  end.

Definition symbolic_normalized : list term :=
  TLayerNorm 256 <$> symbolic_outputs.


(** ** Element-wise operations and indexing *)

(** [F.relu], [Tensor.sigmoid] and [Tensor.ne(1).bool()] act entry by
    entry; the scalar functions are those of the tensor library. *)
Class ElemOps (elem : Type) : Type := {
  relu_elem : elem -> elem;
  sigmoid_elem : elem -> elem;
  ne_one_elem : elem -> elem
}.

Definition tensor_map {elem} (f : elem -> elem) (t : Tensor elem) : Tensor elem :=
  {| shape := shape t; item := fun idx => f (item t idx) |}.

(** [F.relu] for the feed-forward heads, on any carrier. *)
Class TorchF (T : Type) : Type := {
  F_relu : Module1 T
}.

Global Instance tensor_F `{ElemOps elem} : TorchF (Tensor elem) := {
  F_relu := fun t => Ok (tensor_map relu_elem t)
}.

Global Instance term_F : TorchF term := {
  F_relu := fun x => Ok (TActivation "relu" x)
}.

(** [l[-1]] on a Python list. *)
Definition list_last {A} (l : list A) : result A :=
  match List.last (Some <$> l) None with
  | Some a => Ok a
  | None => Raise IndexError
  end.

(** [t[-1]]: the last slice along the first axis. *)
Definition index_last {elem} (t : Tensor elem) : result (Tensor elem) :=
  match shape t with
  | [] => Raise IndexError
  | O :: _ => Raise IndexError
  | S n :: rest =>
      Ok {| shape := rest; item := fun idx => item t (n :: idx) |}
  end.

(** ** FeatureResizer *)

Record FeatureResizer (T : Type) : Type := {
  do_ln : bool;
  fr_fc : Module1 T;
  fr_layer_norm : Module1 T;
  fr_dropout : Module1 T
}.
Arguments do_ln {T} _.
Arguments fr_fc {T} _.
Arguments fr_layer_norm {T} _.
Arguments fr_dropout {T} _.

(** [FeatureResizer.__init__]; the [eps] of the normalization changes
    values only. *)
Definition FeatureResizer_init `{TorchNN T}
    (input_feat_size output_feat_size : nat) (dropout : Q) (do_ln : bool)
  : FeatureResizer T :=
  {| do_ln := do_ln;
     fr_fc := Linear input_feat_size output_feat_size;
     fr_layer_norm := LayerNorm output_feat_size;
     fr_dropout := Dropout dropout |}.

Definition FeatureResizer_forward {T} (R : FeatureResizer T)
    (encoder_features : T) : result T :=
  x ← fr_fc R encoder_features;
  x ← (if do_ln R then fr_layer_norm R x else Ok x);
  fr_dropout R x.

(** ** MLP *)

Record MLP (T : Type) : Type := {
  mlp_num_layers : Z;
  mlp_layers : list (Module1 T)
}.
Arguments mlp_num_layers {T} _.
Arguments mlp_layers {T} _.

(** [[hidden_dim] * (num_layers - 1)]: a list repeated a negative number
    of times is empty. *)
Definition MLP_hidden (hidden_dim : nat) (num_layers : Z) : list nat :=
  replicate (Z.to_nat (num_layers - 1)) hidden_dim.

(** [zip([input_dim] + h, h + [output_dim])]: the sizes [(n, k)] of the
    linear layers. *)
Definition MLP_dims (input_dim hidden_dim output_dim : nat) (num_layers : Z)
  : list (nat * nat) :=
  let h := MLP_hidden hidden_dim num_layers in
  zip (input_dim :: h) (h ++ [output_dim]).

Definition MLP_init `{TorchNN T} (input_dim hidden_dim output_dim : nat)
    (num_layers : Z) : MLP T :=
  {| mlp_num_layers := num_layers;
     mlp_layers :=
       (fun nk => Linear nk.1 nk.2)
         <$> MLP_dims input_dim hidden_dim output_dim num_layers |}.

(** [enumerate(l)] *)
Definition enumerate {A} (l : list A) : list (nat * A) :=
  zip (seq 0 (length l)) l.

Definition MLP_forward `{TorchF T} (M : MLP T) (x : T) : result T :=
  for_each (enumerate (mlp_layers M))
    (fun x il =>
       y ← il.2 x;
       if Z.of_nat il.1 <? mlp_num_layers M - 1 then F_relu y else Ok y)
    x.

(** The number of activations in an expression. *)
Fixpoint count_activations (t : term) : nat :=
  match t with
  | TVar _ | TNone | TNil => 0
  | TAdd a b | TCons a b => count_activations a + count_activations b
  | TStack a | TLinear _ _ a | TDropout _ a | TLayerNorm _ a =>
      count_activations a
  | TAttention _ _ _ q k v m kpm =>
      count_activations q + count_activations k + count_activations v
      + count_activations m + count_activations kpm
  | TActivation _ a => S (count_activations a)
  end.

(** The sizes [(n, k)] compose: they lead from [a] to [b]. *)
Fixpoint chained (a : nat) (dims : list (nat * nat)) (b : nat) : Prop :=
  match dims with
  | [] => a = b
  | (n, k) :: dims' => n = a /\ chained k dims' b
  end.

(** ** MDETR *)

(** The images and the feature maps of the backbone are [NestedTensor]s
    of [torchmultimodal.utils.common], a class defined outside this file
    and kept abstract as [NT].  [MDETR.forward] uses two things of one:
    [decompose()], which it unpacks into a pair, and [x.tensors.dtype],
    the target of an entry-wise conversion [Tensor.to]. *)
Class NestedTensorOps (elem NT : Type) : Type := {
  decompose : NT -> result (Tensor elem * Tensor elem);
  to_dtype_of : NT -> elem -> elem
}.

(** [nn.Embedding]: only its table is read. *)
Record Embedding (elem : Type) : Type := {
  weight : Tensor elem
}.
Arguments weight {elem} _.

(** The backbone, the text encoder and the position embedding are
    modules defined outside this file. *)
Record MDETR (elem NT : Type) : Type := {
  image_backbone : NT -> result (list NT);
  text_encoder : Tensor elem -> Tensor elem -> result (Tensor elem);
  resizer : FeatureResizer (Tensor elem);
  transformer : Transformer elem;
  pos_embed : NT -> result (Tensor elem);
  input_proj : Module1 (Tensor elem);
  class_embed : Module1 (Tensor elem);
  bbox_embed : MLP (Tensor elem);
  query_embed : Embedding elem
}.
Arguments image_backbone {elem NT} _.
Arguments text_encoder {elem NT} _.
Arguments resizer {elem NT} _.
Arguments transformer {elem NT} _.
Arguments pos_embed {elem NT} _.
Arguments input_proj {elem NT} _.
Arguments class_embed {elem NT} _.
Arguments bbox_embed {elem NT} _.
Arguments query_embed {elem NT} _.

(** The dictionary that [MDETR.forward] returns. *)
Record Predictions (elem : Type) : Type := {
  pred_logits : Tensor elem;
  pred_boxes : Tensor elem
}.
Arguments pred_logits {elem} _.
Arguments pred_boxes {elem} _.

(** [MDETR.forward] *)
Definition MDETR_forward `{Scalar elem} `{ElemOps elem}
    `{NestedTensorOps elem NT} (M : MDETR elem NT)
    (images : NT) (text text_attention_mask : Tensor elem)
  : result (Predictions elem) :=
  encoded_text ← text_encoder M text text_attention_mask;
  text_memory ← transpose 0 1 encoded_text;
  let text_attention_mask := tensor_map ne_one_elem text_attention_mask in
  features ← image_backbone M images;
  pos ← map_result
          (fun x => p ← pos_embed M x; Ok (tensor_map (to_dtype_of x) p))
          features;
  last_feature ← list_last features;
  '(src, mask) ← decompose last_feature;
  let query_embed := weight (query_embed M) in
  text_memory_resized ← FeatureResizer_forward (resizer M) text_memory;
  projected ← input_proj M src;
  pos_last ← list_last pos;
  hs ← Transformer_forward (transformer M) (PyTensor projected)
         (PyTensor mask) (PyTensor query_embed) (PyTensor pos_last)
         (PyTensor text_memory_resized) (PyTensor text_attention_mask);
  outputs_class ← class_embed M hs;
  boxes ← MLP_forward (bbox_embed M) hs;
  let outputs_coord := tensor_map sigmoid_elem boxes in
  logits ← index_last outputs_class;
  coords ← index_last outputs_coord;
  Ok {| pred_logits := logits; pred_boxes := coords |}.

(** [mdetr_transformer]; the activation is the default
    [nn.functional.relu] and [normalize_before] the default [False]. *)
Definition mdetr_transformer {elem} `{TorchNN (Tensor elem)} `{ElemOps elem}
  : Transformer elem :=
  Transformer_init 256 8 6 6 2048 (1 # 10) F_relu false true true.

(** The constructors of the library that [mdetr_resnet101] calls besides
    those of [TorchNN]: [nn.Conv2d(in, out, kernel_size=k)] and
    [nn.Embedding(n, d)]. *)
Class TorchNN2 (elem : Type) : Type := {
  Conv2d : nat -> nat -> nat -> Module1 (Tensor elem);
  Embedding_init : nat -> nat -> Embedding elem
}.

(** The encoders that [mdetr_resnet101] imports from other modules of
    the package, with the [embedding_dim] of the text encoder. *)
Class MdetrEncoders (elem NT : Type) : Type := {
  mdetr_resnet101_backbone : NT -> result (list NT);
  PositionEmbeddingSine : nat -> bool -> NT -> result (Tensor elem);
  mdetr_text_encoder : Tensor elem -> Tensor elem -> result (Tensor elem);
  embedding_dim : nat
}.

(** [mdetr_resnet101] *)
Definition mdetr_resnet101 {elem NT} `{TorchNN (Tensor elem)}
    `{TorchNN2 elem} `{ElemOps elem} `{MdetrEncoders elem NT}
    (num_queries num_classes : nat) : MDETR elem NT :=
  let image_backbone := mdetr_resnet101_backbone in
  let pos_embed := PositionEmbeddingSine 128 true in
  let num_channels := 2048%nat in
  let text_encoder := mdetr_text_encoder in
  let transformer := mdetr_transformer (elem := elem) in
  let hidden_dim := d_model transformer in
  {| image_backbone := image_backbone;
     text_encoder := text_encoder;
     resizer := FeatureResizer_init embedding_dim hidden_dim (1 # 10) true;
     transformer := transformer;
     pos_embed := pos_embed;
     input_proj := Conv2d num_channels hidden_dim 1;
     class_embed := Linear hidden_dim (num_classes + 1);
     bbox_embed := MLP_init hidden_dim hidden_dim 4 3;
     query_embed := Embedding_init num_queries hidden_dim |}.

(** ** What [MDETR.forward] assumes of its modules *)

(** [nn.Conv2d(c_in, c_out, kernel_size=1)] keeps the batch and the
    spatial sizes of a non-empty feature map. *)
Definition conv_ok {elem} (c_in c_out : nat) (f : Module1 (Tensor elem))
  : Prop :=
  forall t B H W, (0 < H * W)%nat -> shape t = [B; c_in; H; W] ->
    exists o, f t = Ok o /\ shape o = [B; c_out; H; W].

Record TorchNN2_ok {elem} (nn2 : TorchNN2 elem) : Prop := {
  Conv2d_ok : forall c_in c_out, conv_ok c_in c_out (Conv2d c_in c_out 1);
  Embedding_ok : forall n d, shape (weight (Embedding_init n d)) = [n; d]
}.

(** What the modules of an [MDETR] must agree on: the text width [Ct],
    the backbone width [Cb], the model width of the transformer, which
    collects the outputs of its decoder layers, [Nq] queries, [K] class
    logits and [Kb] box coordinates. *)
Record MDETR_ok {elem NT} `{ElemOps elem} (dff Ct Cb Nq K Kb : nat)
    (M : MDETR elem NT) : Prop := {
  resizer_fc_ok : linear_ok Ct (d_model (transformer M)) (fr_fc (resizer M));
  resizer_norm_ok :
    norm_ok (d_model (transformer M)) (fr_layer_norm (resizer M));
  resizer_dropout_ok : shape_preserving (fr_dropout (resizer M));
  input_proj_ok : conv_ok Cb (d_model (transformer M)) (input_proj M);
  transformer_ok : Transformer_ok dff (transformer M);
  transformer_passes : pass_pos_and_query (transformer M) = true;
  transformer_collects : return_intermediate (decoder (transformer M)) = true;
  transformer_layers :
    (0 < decoder_num_layers (decoder (transformer M)))%nat;
  query_embed_ok :
    shape (weight (query_embed M)) = [Nq; d_model (transformer M)];
  queries_positive : (0 < Nq)%nat;
  class_embed_ok : linear_ok (d_model (transformer M)) K (class_embed M);
  bbox_embed_ok :
    forall t lead, shape t = lead ++ [d_model (transformer M)] ->
      exists o, MLP_forward (bbox_embed M) t = Ok o /\ shape o = lead ++ [Kb]
}.

(** What a call of [MDETR.forward] assumes of the encoders on its
    arguments: a text encoding [B; Tx; Ct], and a last feature map
    [B; Cb; H; W] with its mask [B; H; W] and a position embedding of the
    model width. *)
Record encoders_ok {elem NT} `{NestedTensorOps elem NT} (M : MDETR elem NT)
    (B Tx Ct Cb H W : nat) (images : NT)
    (text text_attention_mask : Tensor elem) : Prop := {
  enc_batch_pos : (0 < B)%nat;
  enc_image_pos : (0 < H * W)%nat;
  enc_mask_shape : shape text_attention_mask = [B; Tx];
  enc_text :
    exists encoded_text,
      text_encoder M text text_attention_mask = Ok encoded_text
      /\ shape encoded_text = [B; Tx; Ct];
  enc_features :
    exists features last_feature src mask p,
      image_backbone M images = Ok (features ++ [last_feature])
      /\ Forall (fun x => is_ok (pos_embed M x) = true) features
      /\ decompose last_feature = Ok (src, mask)
      /\ shape src = [B; Cb; H; W]
      /\ shape mask = [B; H; W]
      /\ pos_embed M last_feature = Ok p
      /\ shape p = [B; d_model (transformer M); H; W]
}.

(** Lines 71-95 of [MDETR.forward]: the transformer is called on the
    projection of the last feature map, its mask, the query table, the
    position embedding of the last feature map, the resized text memory
    (sequence first) and the inverted attention mask, and returns [hs]. *)
Definition transformer_call {elem NT} `{Scalar elem} `{ElemOps elem}
    `{NestedTensorOps elem NT} (M : MDETR elem NT) (images : NT)
    (text text_attention_mask : Tensor elem) (hs : Tensor elem) : Prop :=
  exists encoded_text text_memory features last_feature src mask p
         text_memory_resized projected,
    text_encoder M text text_attention_mask = Ok encoded_text
    /\ transpose 0 1 encoded_text = Ok text_memory
    /\ image_backbone M images = Ok (features ++ [last_feature])
    /\ decompose last_feature = Ok (src, mask)
    /\ pos_embed M last_feature = Ok p
    /\ FeatureResizer_forward (resizer M) text_memory
       = Ok text_memory_resized
    /\ input_proj M src = Ok projected
    /\ Transformer_forward (transformer M) (PyTensor projected)
         (PyTensor mask) (PyTensor (weight (query_embed M)))
         (PyTensor (tensor_map (to_dtype_of last_feature) p))
         (PyTensor text_memory_resized)
         (PyTensor (tensor_map ne_one_elem text_attention_mask)) = Ok hs.

(** ** A small instance of the encoders, for examples *)

Global Instance Q_elem_ops : ElemOps Q := {
  relu_elem := fun q => if Qle_bool 0 q then q else 0%Q;
  sigmoid_elem := fun q =>
    if Qle_bool 0 q then ((1 + q) / (2 + q))%Q else (1 / (2 - q))%Q;
  ne_one_elem := fun q => if Qeq_bool q 1 then 0%Q else 1%Q
}.

Definition toy_conv (c_in c_out k : nat) : Module1 (Tensor Q) := fun t =>
  match shape t with
  | [B; c; H; W] =>
      if (c =? c_in)%nat && (k <=? H)%nat && (k <=? W)%nat
      then Ok (ramp [B; c_out; H + 1 - k; W + 1 - k]%nat)
      else Raise RuntimeError
  | _ => Raise RuntimeError
  end.

Definition toy_nn2 : TorchNN2 Q := {|
  Conv2d := toy_conv;
  Embedding_init := fun n d => {| weight := ramp [n; d] |}
|}.

(** A feature map with its mask, as a pair. *)
Global Instance pair_nested : NestedTensorOps Q (Tensor Q * Tensor Q) := {
  decompose := fun x => Ok x;
  to_dtype_of := fun _ q => q
}.

(** A backbone that returns its input as the only feature map, a
    position embedding of [2 * n] channels and a text encoder of width 3. *)
Definition toy_encoders : MdetrEncoders Q (Tensor Q * Tensor Q) := {|
  mdetr_resnet101_backbone := fun images => Ok [images];
  PositionEmbeddingSine := fun n _ x =>
    match shape x.1 with
    | [B; _; H; W] => Ok (ramp [B; 2 * n; H; W]%nat)
    | _ => Raise RuntimeError
    end;
  mdetr_text_encoder := fun text _ => Ok (ramp (shape text ++ [3%nat]));
  embedding_dim := 3
|}.

(** The model of [mdetr_resnet101] over these, with 5 queries and 7
    classes. *)
Definition toy_mdetr : MDETR Q (Tensor Q * Tensor Q) :=
  @mdetr_resnet101 Q _ toy_nn toy_nn2 Q_elem_ops toy_encoders 5 7.

(** One image with a 2 by 3 feature map and a text of 4 tokens. *)
Definition toy_images : Tensor Q * Tensor Q :=
  (ramp [1; 2048; 2; 3]%nat, ramp [1; 2; 3]%nat).
Definition toy_text : Tensor Q := ramp [1; 4]%nat.

End Mdetr.

(** * Facts *)

(** ** Loops and results *)

Section ForEach.
Context {A S : Type} (P : A -> Prop) (I : S -> Prop) (R : S -> S -> Prop).
Context (body : S -> A -> result S).
Hypothesis R_refl : forall s, R s s.
Hypothesis R_trans : forall s1 s2 s3, R s1 s2 -> R s2 s3 -> R s1 s3.
Hypothesis body_ok :
  forall s x, P x -> I s -> exists s', body s x = Ok s' /\ I s' /\ R s s'.

Lemma for_each_invariant xs :
  Forall P xs -> forall s, I s ->
  exists s', for_each xs body s = Ok s' /\ I s' /\ R s s'.
Proof using R_refl R_trans body_ok.
  induction 1 as [|x xs Hx _ IH]; intros s Hs; simpl.
  - eauto.
  - destruct (body_ok s x Hx Hs) as (s1 & -> & Hs1 & HR1). simpl.
    destruct (IH s1 Hs1) as (s2 & -> & Hs2 & HR2). eauto.
Qed.
End ForEach.

(** * Facts about image_masking_transform.py *)

Module ImageMaskingFacts.
Import ImageMasking.

(** ** Sums over the grid *)


Lemma sum_list_insert (l : list nat) i c v :
  l !! i = Some c -> (sum_list (<[i:=v]> l) + c = sum_list l + v)%nat.
Proof.
  revert i. induction l as [|x l IH]; intros [|i]; simpl; try done.
  - intros [= ->]. lia.
  - intros H. specialize (IH _ H). lia.
Qed.

Lemma sum_list_window_insert (l : list nat) a n i c v :
  (a <= i < a + n)%nat -> l !! i = Some c ->
  (sum_list (take n (drop a (<[i:=v]> l))) + c
   = sum_list (take n (drop a l)) + v)%nat.
Proof.
  intros Hi Hl.
  rewrite drop_insert_ge by lia. rewrite take_insert_lt by lia.
  apply sum_list_insert.
  rewrite lookup_take_lt by lia. rewrite lookup_drop.
  replace (a + (i - a))%nat with i by lia. done.
Qed.

Lemma block_sum_fmap g top h left w :
  block_sum g top h left w
  = sum_list (take h (drop top
      ((fun row => sum_list (take w (drop left row))) <$> g))).
Proof. unfold block_sum. by rewrite fmap_take, fmap_drop. Qed.

Lemma block_sum_set g top h left w i j row c v :
  (top <= i < top + h)%nat -> (left <= j < left + w)%nat ->
  g !! i = Some row -> row !! j = Some c ->
  (block_sum (<[i := <[j := v]> row]> g) top h left w + c
   = block_sum g top h left w + v)%nat.
Proof.
  intros Hi Hj Hg Hrow. rewrite !block_sum_fmap, list_fmap_insert.
  pose proof (sum_list_window_insert row left w j c v Hj Hrow) as Hr.
  set (f := fun row => sum_list (take w (drop left row))) in *.
  assert (Hf : (f <$> g) !! i = Some (f row)) by (by rewrite list_lookup_fmap, Hg).
  pose proof (sum_list_window_insert _ top h i _ (f (<[j:=v]> row)) Hi Hf).
  subst f. simpl in *. lia.
Qed.

Lemma grid_sum_set g i j row c v :
  g !! i = Some row -> row !! j = Some c ->
  (grid_sum (<[i := <[j := v]> row]> g) + c = grid_sum g + v)%nat.
Proof.
  intros Hg Hrow. unfold grid_sum. rewrite list_fmap_insert.
  pose proof (sum_list_insert row j c v Hrow) as Hr.
  assert (Hf : (sum_list <$> g) !! i = Some (sum_list row))
    by (by rewrite list_lookup_fmap, Hg).
  pose proof (sum_list_insert _ i _ (sum_list (<[j:=v]> row)) Hf).
  lia.
Qed.

Lemma sum_list_01 (l : list nat) :
  Forall (fun c => (c <= 1)%nat) l -> (sum_list l <= length l)%nat.
Proof. induction 1; simpl; lia. Qed.

Lemma sum_list_bounded (l : list nat) b :
  Forall (fun c => (c <= b)%nat) l -> (sum_list l <= length l * b)%nat.
Proof. induction 1; simpl; lia. Qed.

Lemma block_sum_le g top h left w :
  grid_01 g -> (block_sum g top h left w <= h * w)%nat.
Proof.
  intros Hg. unfold block_sum.
  etrans; [apply (sum_list_bounded _ w)|].
  - apply Forall_fmap, Forall_take, Forall_drop.
    eapply Forall_impl; [exact Hg|]. intros row Hrow. simpl.
    etrans; [apply sum_list_01; by apply Forall_take, Forall_drop|].
    rewrite length_take. lia.
  - rewrite length_fmap, length_take. nia.
Qed.

Lemma grid_shaped_set H W g i j row v :
  grid_shaped H W g -> g !! i = Some row ->
  grid_shaped H W (<[i := <[j := v]> row]> g).
Proof.
  intros [Hlen Hrows] Hg. split.
  - by rewrite length_insert.
  - apply Forall_insert; [done|]. rewrite length_insert.
    eapply Forall_lookup_1 in Hrows; eauto.
Qed.

Lemma grid_01_set g i j row v :
  grid_01 g -> g !! i = Some row -> (v <= 1)%nat ->
  grid_01 (<[i := <[j := v]> row]> g).
Proof.
  intros Hg Hi Hv. apply Forall_insert; [done|].
  apply Forall_insert; [|done]. eapply Forall_lookup_1 in Hg; eauto.
Qed.

Lemma np_zeros_shaped H W : grid_shaped H W (np_zeros (H, W)).
Proof.
  split; simpl.
  - apply length_replicate.
  - apply Forall_replicate, length_replicate.
Qed.

Lemma np_zeros_01 shape : grid_01 (np_zeros shape).
Proof. apply Forall_replicate, Forall_replicate. lia. Qed.

Lemma np_zeros_sum shape : grid_sum (np_zeros shape) = 0%nat.
Proof.
  unfold grid_sum, np_zeros. rewrite fmap_replicate.
  rewrite !sum_list_replicate. lia.
Qed.

Lemma grid_shape_is_true H W g :
  grid_shape_is (H, W) g = true <-> grid_shaped H W g.
Proof.
  unfold grid_shape_is, grid_shaped. simpl.
  rewrite andb_true_iff, Nat.eqb_eq, forallb_forall, Forall_forall.
  split; intros [? Hr]; split; try done; intros row Hin.
  - apply Nat.eqb_eq, Hr. by apply list_elem_of_In.
  - apply Nat.eqb_eq, Hr. by apply list_elem_of_In.
Qed.

Lemma grid_binary_true g : grid_binary g = true <-> grid_01 g.
Proof.
  unfold grid_binary, grid_01.
  rewrite forallb_forall, Forall_forall. split; intros Hg row Hin.
  - apply list_elem_of_In in Hin. specialize (Hg _ Hin).
    rewrite forallb_forall in Hg. apply Forall_forall. intros c Hc.
    apply list_elem_of_In in Hc. specialize (Hg _ Hc).
    apply orb_true_iff in Hg as [?%Nat.eqb_eq|?%Nat.eqb_eq]; lia.
  - apply list_elem_of_In in Hin. specialize (Hg _ Hin).
    rewrite Forall_forall in Hg. apply forallb_forall. intros c Hc.
    apply list_elem_of_In in Hc. specialize (Hg _ Hc).
    apply orb_true_iff. rewrite !Nat.eqb_eq. lia.
Qed.

Section Fill.
Context (H W top h left w : nat).

Lemma fill_rel_refl st : fill_rel top h left w st st.
Proof. unfold fill_rel. lia. Qed.

Lemma fill_rel_trans s1 s2 s3 :
  fill_rel top h left w s1 s2 -> fill_rel top h left w s2 s3 ->
  fill_rel top h left w s1 s3.
Proof. unfold fill_rel. lia. Qed.

Lemma fill_cell_ok i j st :
  (top <= i < top + h)%nat -> (i < H)%nat ->
  (left <= j < left + w)%nat -> (j < W)%nat ->
  fill_inv H W st ->
  exists st', fill_cell i st j = Ok st' /\ fill_inv H W st'
              /\ fill_rel top h left w st st'.
Proof.
  destruct st as [g d]. intros Hi HiH Hj HjW [Hsh H01]. simpl in *.
  destruct Hsh as [Hlen Hrows].
  destruct (lookup_lt_is_Some_2 g i) as [row Hrow]; [lia|].
  assert (Hrl : length row = W) by (eapply Forall_lookup_1 in Hrows; eauto).
  destruct (lookup_lt_is_Some_2 row j) as [c Hc]; [lia|].
  unfold fill_cell, grid_get. rewrite Hrow, Hc. simpl.
  destruct (Nat.eqb_spec c 0) as [->|Hne].
  - unfold grid_set. rewrite Hrow.
    destruct (Nat.ltb_spec j (length row)); [|lia]. simpl.
    eexists; split; [reflexivity|]. split.
    + split; simpl; [by eapply grid_shaped_set|by eapply grid_01_set; eauto].
    + pose proof (grid_sum_set g i j row 0 1 Hrow Hc).
      pose proof (block_sum_set g top h left w i j row 0 1 Hi Hj Hrow Hc).
      unfold fill_rel; simpl. lia.
  - eexists; split; [reflexivity|]. split; [by split|apply fill_rel_refl].
Qed.

Lemma fill_block_ok g d :
  (top + h <= H)%nat -> (left + w <= W)%nat ->
  grid_shaped H W g -> grid_01 g ->
  exists g' d', fill_block g d top h left w = Ok (g', d')
    /\ grid_shaped H W g' /\ grid_01 g'
    /\ d <= d'
    /\ Z.of_nat (grid_sum g') = Z.of_nat (grid_sum g) + (d' - d)
    /\ d' - d <= Z.of_nat h * Z.of_nat w - Z.of_nat (block_sum g top h left w).
Proof.
  intros Hh Hw Hsh H01. unfold fill_block.
  destruct (for_each_invariant
              (fun i => (top <= i < top + h)%nat) (fill_inv H W)
              (fill_rel top h left w)
              (fun st i => for_each (seq left w) (fill_cell i) st)
              fill_rel_refl fill_rel_trans) with (xs := seq top h) (s := (g, d))
    as ([g' d'] & -> & [Hsh' H01'] & Hd & Hsum & Hblk).
  - intros st i Hi Hst.
    apply (for_each_invariant (fun j => (left <= j < left + w)%nat)
             (fill_inv H W) (fill_rel top h left w) (fill_cell i)
             fill_rel_refl fill_rel_trans);
      [|apply Forall_forall; intros j Hj%elem_of_seq; lia|done].
    intros st' j Hj Hst'. apply fill_cell_ok; (done || lia).
  - apply Forall_forall. intros i Hi%elem_of_seq. lia.
  - by split.
  - simpl in *. exists g', d'.
    pose proof (block_sum_le g' top h left w H01').
    split_and!; try done; lia.
Qed.
End Fill.

Lemma randint0_le r n : (randint0 r n <= n)%nat.
Proof. unfold randint0. pose proof (Nat.mod_upper_bound r (S n)). lia. Qed.

Lemma mask_attempts_ok G rng mmp n : forall g pos,
  grid_shaped (height G) (width G) g -> grid_01 g ->
  exists g' d pos',
    mask_attempts G rng n g mmp 0 pos = Ok (g', d, pos')
    /\ grid_shaped (height G) (width G) g' /\ grid_01 g'
    /\ 0 <= d /\ (d = 0 \/ d <= mmp)
    /\ Z.of_nat (grid_sum g') = Z.of_nat (grid_sum g) + d.
Proof.
  induction n as [|n IH]; intros g pos Hsh H01; simpl.
  { exists g, 0, pos. split_and!; try done; lia. }
  destruct (Nat.ltb_spec (d_w (rng pos)) (width G)) as [Hw|Hw]; simpl;
    [|by apply IH].
  destruct (Nat.ltb_spec (d_h (rng pos)) (height G)) as [Hh|Hh]; simpl;
    [|by apply IH].
  set (h := d_h (rng pos)) in *. set (w := d_w (rng pos)) in *.
  set (top := randint0 _ (height G - h)).
  set (left := randint0 _ (width G - w)).
  pose proof (randint0_le (d_top (rng pos)) (height G - h)) as Htop.
  pose proof (randint0_le (d_left (rng pos)) (width G - w)) as Hleft.
  fold top in Htop. fold left in Hleft.
  set (free := Z.of_nat h * Z.of_nat w - Z.of_nat (block_sum g top h left w)).
  destruct ((0 <? free) && (free <=? mmp)) eqn:Hfree.
  - apply andb_true_iff in Hfree as [Hf1%Z.ltb_lt Hf2%Z.leb_le].
    destruct (fill_block_ok (height G) (width G) top h left w g 0)
      as (g1 & d1 & -> & Hsh1 & H011 & Hd1 & Hsum1 & Hle1); try done; try lia.
    simpl. destruct (Z.ltb_spec 0 d1) as [Hpos|Hzero].
    + exists g1, d1, (S pos). fold free in Hle1. split_and!; try done; lia.
    + assert (d1 = 0) as -> by lia.
      destruct (IH g1 (S pos) Hsh1 H011)
        as (g' & d & pos' & -> & ? & ? & ? & ? & ?).
      exists g', d, pos'. split_and!; try done; lia.
  - simpl. by apply IH.
Qed.

Lemma _mask_ok G rng mmp g pos :
  grid_shaped (height G) (width G) g -> grid_01 g ->
  exists g' d pos',
    _mask G rng g mmp pos = Ok (g', d, pos')
    /\ grid_shaped (height G) (width G) g' /\ grid_01 g'
    /\ 0 <= d /\ (d = 0 \/ d <= mmp)
    /\ Z.of_nat (grid_sum g') = Z.of_nat (grid_sum g) + d.
Proof. apply mask_attempts_ok. Qed.

Lemma call_loop_ok G rng fuel : forall g mc pos,
  grid_shaped (height G) (width G) g -> grid_01 g ->
  Z.of_nat (grid_sum g) = mc ->
  mc <= Z.of_nat (num_masking_patches G) ->
  (Z.to_nat (Z.of_nat (num_masking_patches G) - mc) <= fuel)%nat ->
  exists g',
    call_loop fuel G rng g mc pos = Some (Ok g')
    /\ grid_shaped (height G) (width G) g' /\ grid_01 g'
    /\ (grid_sum g' <= num_masking_patches G)%nat.
Proof.
  induction fuel as [|fuel IH]; intros g mc pos Hsh H01 Hsum Hmc Hfuel.
  - simpl. destruct (Z.ltb_spec mc (Z.of_nat (num_masking_patches G))); [lia|].
    exists g. split_and!; try done; lia.
  - simpl. destruct (Z.ltb_spec mc (Z.of_nat (num_masking_patches G))) as [Hlt|Hge].
    + destruct (_mask_ok G rng
                  (Z.min (Z.of_nat (num_masking_patches G) - mc)
                         (Z.of_nat (max_num_patches G)))
                  g pos Hsh H01)
        as (g1 & d & pos1 & -> & Hsh1 & H011 & Hd & Hbound & Hsum1).
      destruct (Z.eqb_spec d 0) as [->|Hne].
      * exists g1. split_and!; try done; lia.
      * apply IH; try done; lia.
    + exists g. split_and!; try done; lia.
Qed.

Lemma call_loop_fuel_mono G rng fuel : forall g mc pos r,
  call_loop fuel G rng g mc pos = Some r ->
  forall fuel', (fuel <= fuel')%nat ->
  call_loop fuel' G rng g mc pos = Some r.
Proof.
  induction fuel as [|fuel IH]; intros g mc pos r Hr fuel' Hle.
  - simpl in Hr. destruct fuel'; simpl;
      destruct (mc <? Z.of_nat (num_masking_patches G)); try done.
  - destruct fuel' as [|fuel']; [lia|]. simpl in *.
    destruct (mc <? Z.of_nat (num_masking_patches G)); [|done].
    destruct (_mask G rng g _ pos) as [[[g1 d] pos1]|e]; [|done].
    destruct (d =? 0); [done|]. apply IH; [done|lia].
Qed.

(** ** map_pixels *)

Lemma dtype_eqb_eq a b : dtype_eqb a b = true <-> a = b.
Proof.
  split; [destruct a, b; simpl; congruence | intros ->; by destruct b].
Qed.

(** C9: given a tensor of an integer dtype, whatever its shape and its
    entries, and whatever the scalar arithmetic of the library,
    [map_pixels] raises [ValueError] and returns nothing. *)
Theorem map_pixels_rejects_integer_tensors {elem} {ops : PixelOps elem}
    (dt : dtype) (shape : list nat) (data : list elem) :
  is_integer_dtype dt = true ->
  map_pixels (Build_Tensor dt shape data)
  = Raise (ValueError "expected input to have type float").
Proof. by destruct dt. Qed.

Lemma map_pixels_rejects_integer_tensors_witness :
  map_pixels (Build_Tensor int64 [2; 3]%nat [0; 1; 2; 3; 4; 5]%Q)
  = Raise (ValueError "expected input to have type float").
Proof.
  apply (map_pixels_rejects_integer_tensors int64 [2; 3]%nat
           [0; 1; 2; 3; 4; 5]%Q).
  reflexivity.
Defined.

(** C10: [map_pixels] raises its [ValueError] for every tensor whose dtype
    is not [torch.float32], other floating-point dtypes included, and
    maps the tensors of dtype [torch.float32]. *)
Theorem map_pixels_accepts_float32_only {elem} {ops : PixelOps elem}
    (x : Tensor elem) :
  (t_dtype x <> float32 ->
   map_pixels x = Raise (ValueError "expected input to have type float"))
  /\ (t_dtype x = float32 -> map_pixels x = Ok (affine x)).
Proof.
  unfold map_pixels, torch_float. split; intros Hd.
  - destruct (dtype_eqb (t_dtype x) float32) eqn:E; [|done].
    by apply dtype_eqb_eq in E.
  - by rewrite Hd.
Qed.

Lemma map_pixels_accepts_float32_only_witness :
  is_floating_point float64 = true
  /\ is_floating_point float16 = true
  /\ map_pixels (Build_Tensor float64 [2]%nat [0; 1]%Q)
     = Raise (ValueError "expected input to have type float")
  /\ map_pixels (Build_Tensor float16 [2]%nat [0; 1]%Q)
     = Raise (ValueError "expected input to have type float")
  /\ map_pixels (Build_Tensor float32 [2]%nat [0; 1]%Q)
     = Ok (affine (Build_Tensor float32 [2]%nat [0; 1]%Q)).
Proof.
  split; [reflexivity|]. split; [reflexivity|]. split; [|split].
  - apply (proj1 (map_pixels_accepts_float32_only
                    (Build_Tensor float64 [2]%nat [0; 1]%Q))).
    simpl. discriminate.
  - apply (proj1 (map_pixels_accepts_float32_only
                    (Build_Tensor float16 [2]%nat [0; 1]%Q))).
    simpl. discriminate.
  - apply (proj2 (map_pixels_accepts_float32_only
                    (Build_Tensor float32 [2]%nat [0; 1]%Q))).
    reflexivity.
Defined.

(** ** MaskingGenerator.__call__ *)

Lemma MaskingGenerator_call_ok G rng fuel :
  (num_masking_patches G <= fuel)%nat ->
  exists g,
    MaskingGenerator_call fuel G rng = Some (Ok g)
    /\ grid_shaped (height G) (width G) g /\ grid_01 g
    /\ (grid_sum g <= num_masking_patches G)%nat.
Proof.
  intros Hfuel. unfold MaskingGenerator_call, get_shape.
  apply call_loop_ok.
  - apply np_zeros_shaped.
  - apply np_zeros_01.
  - by rewrite np_zeros_sum.
  - lia.
  - lia.
Qed.

(** C5: for every configuration and every sequence of random draws, a
    call returns a grid of the configured [(height, width)], whose cells
    are 0 or 1 and whose number of set cells lies between 0 and
    [num_masking_patches]. *)
Theorem MaskingGenerator_call_invariants (G : MaskingGenerator) (rng : Rng)
    (fuel : nat) :
  (num_masking_patches G <= fuel)%nat ->
  exists g,
    MaskingGenerator_call fuel G rng = Some (Ok g)
    /\ grid_shape_is (get_shape G) g = true
    /\ grid_binary g = true
    /\ (0 <= grid_sum g <= num_masking_patches G)%nat.
Proof.
  intros Hfuel.
  destruct (MaskingGenerator_call_ok G rng fuel Hfuel)
    as (g & Hcall & Hshape & H01 & Hsum).
  exists g. split_and!; try done; try lia.
  - by apply grid_shape_is_true.
  - by apply grid_binary_true.
Qed.

Lemma MaskingGenerator_call_invariants_witness :
  exists g,
    MaskingGenerator_call 75 example_generator example_rng = Some (Ok g)
    /\ grid_shape_is (14, 14)%nat g = true
    /\ grid_binary g = true
    /\ (0 <= grid_sum g <= 75)%nat.
Proof.
  apply (MaskingGenerator_call_invariants example_generator example_rng 75).
  simpl. lia.
Defined.

(** C6: the loop of [__call__] terminates, for every configuration and
    every sequence of random draws: at most [num_masking_patches]
    iterations are run.  [_mask] sets exactly [delta] new cells; an
    iteration with [delta = 0] leaves the loop, and any other iteration
    has [delta > 0] and moves the count strictly towards
    [num_masking_patches], which it does not pass. *)
Theorem MaskingGenerator_call_terminates (G : MaskingGenerator) (rng : Rng) :
  (exists g, forall fuel, (num_masking_patches G <= fuel)%nat ->
     MaskingGenerator_call fuel G rng = Some (Ok g))
  /\ (forall fuel g mask_count pos,
        grid_shape_is (get_shape G) g = true -> grid_binary g = true ->
        mask_count < Z.of_nat (num_masking_patches G) ->
        exists g' delta pos',
          _mask G rng g
            (Z.min (Z.of_nat (num_masking_patches G) - mask_count)
                   (Z.of_nat (max_num_patches G))) pos
          = Ok (g', delta, pos')
          /\ grid_shape_is (get_shape G) g' = true
          /\ grid_binary g' = true
          /\ Z.of_nat (grid_sum g') = Z.of_nat (grid_sum g) + delta
          /\ ((delta = 0
               /\ call_loop (S fuel) G rng g mask_count pos = Some (Ok g'))
              \/ (0 < delta
                  /\ mask_count + delta <= Z.of_nat (num_masking_patches G)
                  /\ call_loop (S fuel) G rng g mask_count pos
                     = call_loop fuel G rng g' (mask_count + delta) pos'))).
Proof.
  split.
  - destruct (MaskingGenerator_call_ok G rng (num_masking_patches G))
      as (g & Hcall & _); [done|].
    exists g. intros fuel Hfuel.
    eapply call_loop_fuel_mono; [exact Hcall|done].
  - intros fuel g mc pos Hshape%grid_shape_is_true H01%grid_binary_true Hlt.
    destruct (_mask_ok G rng
                (Z.min (Z.of_nat (num_masking_patches G) - mc)
                       (Z.of_nat (max_num_patches G))) g pos Hshape H01)
      as (g' & d & pos' & Hmask & Hshape' & H01' & Hd & Hbound & Hsum).
    exists g', d, pos'. split; [done|].
    split; [by apply grid_shape_is_true|]. split; [by apply grid_binary_true|].
    split; [done|].
    cbn [call_loop]. destruct (Z.ltb_spec mc (Z.of_nat (num_masking_patches G)));
      [|lia].
    rewrite Hmask. destruct (Z.eqb_spec d 0) as [->|Hne].
    + by left.
    + right. split_and!; [lia|lia|done].
Qed.

Lemma MaskingGenerator_call_terminates_witness :
  exists g,
    MaskingGenerator_call 75 example_generator example_rng = Some (Ok g).
Proof.
  destruct (proj1 (MaskingGenerator_call_terminates example_generator
                     example_rng)) as [g Hg].
  exists g. apply Hg. simpl. lia.
Defined.

(** On a window of one cell no block is ever placed: the call returns
    with no cell set although one was requested. *)
Example MaskingGenerator_may_return_fewer (rng : Rng) :
  MaskingGenerator_call 1 one_cell_generator rng = Some (Ok [[0%nat]])
  /\ (grid_sum [[0%nat]] < num_masking_patches one_cell_generator)%nat.
Proof.
  split; [|vm_compute; lia].
  assert (Hstall : forall n pos, exists pos',
    mask_attempts one_cell_generator rng n [[0%nat]] 1 0 pos
    = Ok ([[0%nat]], 0, pos')).
  { induction n as [|n IH]; intros pos; cbn [mask_attempts]; [eauto|].
    change (width one_cell_generator) with 1%nat.
    change (height one_cell_generator) with 1%nat.
    destruct (d_w (rng pos)) as [|w]; [|apply IH].
    destruct (d_h (rng pos)) as [|h]; [|apply IH].
    simpl. apply IH. }
  unfold MaskingGenerator_call. cbn [call_loop].
  change (0 <? Z.of_nat (num_masking_patches one_cell_generator)) with true.
  change (np_zeros (get_shape one_cell_generator)) with [[0%nat]].
  change (Z.min _ _) with 1. unfold _mask.
  by destruct (Hstall 10%nat 0%nat) as [pos' ->].
Qed.


Lemma result_bind_ret {A B} (a : A) (k : A -> result B) :
  (Ok a ≫= k) = k a.
Proof. reflexivity. Qed.

(** ** Which cells a call changes *)


Section ForEachVisits.
Context {A S : Type} (P : A -> Prop) (I : S -> Prop) (R : S -> S -> Prop).
Context (Visited : A -> S -> Prop) (body : S -> A -> result S).
Hypothesis R_trans : forall s1 s2 s3, R s1 s2 -> R s2 s3 -> R s1 s3.
Hypothesis R_refl : forall s, R s s.
Hypothesis body_ok :
  forall s x, P x -> I s ->
    exists s', body s x = Ok s' /\ I s' /\ R s s' /\ Visited x s'.
Hypothesis Visited_stable :
  forall x s s', Visited x s -> R s s' -> I s' -> Visited x s'.

Lemma for_each_visits xs :
  Forall P xs -> forall s, I s ->
  exists s', for_each xs body s = Ok s' /\ I s' /\ R s s'
             /\ forall x, x ∈ xs -> Visited x s'.
Proof using R_trans R_refl body_ok Visited_stable.
  induction 1 as [|x xs Hx _ IH]; intros s Hs; simpl.
  - exists s. split_and!; try done. intros x Hx. by apply elem_of_nil in Hx.
  - destruct (body_ok s x Hx Hs) as (s1 & -> & Hs1 & HR1 & Hv1). simpl.
    destruct (IH s1 Hs1) as (s2 & -> & Hs2 & HR2 & Hv2).
    exists s2. split_and!; try done; [by eapply R_trans|].
    intros y [->|Hy]%elem_of_cons; [by eapply Visited_stable|by apply Hv2].
Qed.
End ForEachVisits.

Lemma cell_set_eq (g : Grid) i j row v :
  g !! i = Some row -> (j < length row)%nat ->
  cell (<[i := <[j := v]> row]> g) i j = Some v.
Proof.
  intros Hrow Hj. unfold cell.
  rewrite list_lookup_insert_eq by (by eapply lookup_lt_Some).
  by rewrite list_lookup_insert_eq.
Qed.

Lemma cell_set_ne (g : Grid) i j row v i' j' :
  g !! i = Some row -> (i', j') <> (i, j) ->
  cell (<[i := <[j := v]> row]> g) i' j' = cell g i' j'.
Proof.
  intros Hrow Hne. unfold cell.
  destruct (decide (i' = i)) as [->|Hi].
  - rewrite list_lookup_insert_eq by (by eapply lookup_lt_Some).
    rewrite Hrow. apply list_lookup_insert_ne. congruence.
  - by rewrite list_lookup_insert_ne.
Qed.

Lemma in_block_true top h left w i j :
  in_block top h left w i j = true
  <-> (top <= i < top + h)%nat /\ (left <= j < left + w)%nat.
Proof.
  unfold in_block. rewrite !andb_true_iff, !Nat.leb_le, !Nat.ltb_lt. lia.
Qed.

Lemma cells_rel_refl top h left w st : cells_rel top h left w st st.
Proof. by split. Qed.

Lemma cells_rel_trans top h left w s1 s2 s3 :
  cells_rel top h left w s1 s2 -> cells_rel top h left w s2 s3 ->
  cells_rel top h left w s1 s3.
Proof.
  intros [Ho1 Hm1] [Ho2 Hm2]. split.
  - intros i j Hij. by rewrite Ho2, Ho1.
  - auto.
Qed.

Section FillCells.
Context (H W top h left w : nat).

Lemma fill_cell_cells i j st :
  (top <= i < top + h)%nat -> (i < H)%nat ->
  (left <= j < left + w)%nat -> (j < W)%nat ->
  fill_inv H W st ->
  exists st', fill_cell i st j = Ok st' /\ fill_inv H W st'
              /\ cells_rel top h left w st st'
              /\ cell st'.1 i j = Some 1%nat.
Proof.
  destruct st as [g d]. intros Hi HiH Hj HjW [Hsh H01]. simpl in *.
  destruct Hsh as [Hlen Hrows].
  destruct (lookup_lt_is_Some_2 g i) as [row Hrow]; [lia|].
  assert (Hrl : length row = W) by (eapply Forall_lookup_1 in Hrows; eauto).
  destruct (lookup_lt_is_Some_2 row j) as [c Hc]; [lia|].
  assert (Hc1 : (c <= 1)%nat).
  { eapply Forall_lookup_1 in H01; [|exact Hrow].
    eapply Forall_lookup_1 in H01; [|exact Hc]. done. }
  unfold fill_cell, grid_get. rewrite Hrow, Hc. simpl.
  destruct (Nat.eqb_spec c 0) as [->|Hne].
  - unfold grid_set. rewrite Hrow.
    destruct (Nat.ltb_spec j (length row)); [|lia]. simpl.
    eexists; split; [reflexivity|]. split_and!; simpl.
    + split; simpl; [by eapply grid_shaped_set|by eapply grid_01_set; eauto].
    + split; simpl.
      * intros i' j' Hout. apply cell_set_ne; [done|].
        intros [= -> ->]. apply not_true_iff_false in Hout. apply Hout.
        apply in_block_true. lia.
      * intros i' j' Hone.
        destruct (decide ((i', j') = (i, j))) as [[= -> ->]|Hne].
        -- apply cell_set_eq; [done|lia].
        -- by rewrite cell_set_ne.
    + apply cell_set_eq; [done|lia].
  - eexists; split; [reflexivity|]. split_and!; simpl.
    + by split.
    + apply cells_rel_refl.
    + unfold cell. rewrite Hrow, Hc. f_equal. lia.
Qed.

Lemma fill_block_cells g d :
  (top + h <= H)%nat -> (left + w <= W)%nat ->
  grid_shaped H W g -> grid_01 g ->
  exists g' d', fill_block g d top h left w = Ok (g', d')
    /\ grid_shaped H W g' /\ grid_01 g'
    /\ (forall i j, cell g' i j
                    = if in_block top h left w i j then Some 1%nat
                      else cell g i j).
Proof.
  intros Hh Hw Hsh H01. unfold fill_block.
  destruct (for_each_visits
              (fun i => (top <= i < top + h)%nat) (fill_inv H W)
              (cells_rel top h left w)
              (fun i st => forall j, (left <= j < left + w)%nat ->
                                     cell st.1 i j = Some 1%nat)
              (fun st i => for_each (seq left w) (fill_cell i) st)
              (cells_rel_trans top h left w) (cells_rel_refl top h left w))
    with (xs := seq top h) (s := (g, d))
    as ([g' d'] & -> & [Hsh' H01'] & [Hout Hmono] & Hin).
  - intros st i Hi Hst.
    destruct (for_each_visits
                (fun j => (left <= j < left + w)%nat) (fill_inv H W)
                (cells_rel top h left w)
                (fun j st => cell st.1 i j = Some 1%nat)
                (fill_cell i)
                (cells_rel_trans top h left w) (cells_rel_refl top h left w))
      with (xs := seq left w) (s := st)
      as (st' & -> & Hst' & Hrel & Hvis).
    + intros st' j Hj Hst'. apply fill_cell_cells; (done || lia).
    + intros j s s' Hone [_ Hm] _. by apply Hm.
    + apply Forall_forall. intros j Hj%elem_of_seq. lia.
    + done.
    + exists st'. split_and!; try done.
      intros j Hj. apply Hvis, elem_of_seq. lia.
  - intros i s s' Hone [_ Hm] _ j Hj. by apply Hm, Hone.
  - apply Forall_forall. intros i Hi%elem_of_seq. lia.
  - by split.
  - simpl in *. exists g', d'. split_and!; try done.
    intros i j. destruct (in_block top h left w i j) eqn:E.
    + apply in_block_true in E as [Hi Hj]. apply Hin; [|done].
      apply elem_of_seq. lia.
    + by apply Hout.
Qed.
End FillCells.

Lemma sum_list_ones (l : list nat) :
  Forall (fun c => c = 1%nat) l -> sum_list l = length l.
Proof. induction 1 as [|c l -> _ IH]; simpl; [done|]. by rewrite IH. Qed.

Lemma block_sum_full H W g top h left w :
  grid_shaped H W g -> (top + h <= H)%nat -> (left + w <= W)%nat ->
  (forall i j, in_block top h left w i j = true -> cell g i j = Some 1%nat) ->
  block_sum g top h left w = (h * w)%nat.
Proof.
  intros [Hlen Hrows] Hh Hw Hones. unfold block_sum.
  rewrite (sum_list_fmap_same w).
  - rewrite length_take, length_drop. f_equal. lia.
  - apply Forall_lookup. intros k row Hk.
    apply lookup_take_Some in Hk as [Hk Hkh]. rewrite lookup_drop in Hk.
    assert (Hrl : length row = W) by (eapply Forall_lookup_1 in Hrows; eauto).
    rewrite sum_list_ones.
    + rewrite length_take, length_drop. lia.
    + apply Forall_lookup. intros m c Hm.
      apply lookup_take_Some in Hm as [Hm Hmw]. rewrite lookup_drop in Hm.
      specialize (Hones (top + k)%nat (left + m)%nat).
      unfold cell in Hones. rewrite Hk, Hm in Hones.
      assert (Some c = Some 1%nat) as [= ->]; [|done].
      apply Hones, in_block_true. lia.
Qed.

Lemma fill_block_rel H W top h left w g d :
  (top + h <= H)%nat -> (left + w <= W)%nat ->
  grid_shaped H W g -> grid_01 g ->
  exists st', fill_block g d top h left w = Ok st'
    /\ fill_rel top h left w (g, d) st'.
Proof.
  intros Hh Hw Hsh H01. unfold fill_block.
  destruct (for_each_invariant
              (fun i => (top <= i < top + h)%nat) (fill_inv H W)
              (fill_rel top h left w)
              (fun st i => for_each (seq left w) (fill_cell i) st)
              (fill_rel_refl top h left w) (fill_rel_trans top h left w))
    with (xs := seq top h) (s := (g, d))
    as (st' & -> & _ & Hrel).
  - intros st i Hi Hst.
    apply (for_each_invariant (fun j => (left <= j < left + w)%nat)
             (fill_inv H W) (fill_rel top h left w) (fill_cell i)
             (fill_rel_refl top h left w) (fill_rel_trans top h left w));
      [|apply Forall_forall; intros j Hj%elem_of_seq; lia|done].
    intros st' j Hj Hst'. apply fill_cell_ok; (done || lia).
  - apply Forall_forall. intros i Hi%elem_of_seq. lia.
  - by split.
  - eauto.
Qed.

(** The two loops of lines 83-87 set every cell of the block, touch no
    other cell and add to [delta] the number of cells that were 0. *)
Lemma fill_block_spec H W top h left w g d :
  (top + h <= H)%nat -> (left + w <= W)%nat ->
  grid_shaped H W g -> grid_01 g ->
  exists g' d', fill_block g d top h left w = Ok (g', d')
    /\ grid_shaped H W g' /\ grid_01 g'
    /\ (forall i j, cell g' i j
                    = if in_block top h left w i j then Some 1%nat
                      else cell g i j)
    /\ d' - d = Z.of_nat h * Z.of_nat w - Z.of_nat (block_sum g top h left w)
    /\ Z.of_nat (grid_sum g') = Z.of_nat (grid_sum g) + (d' - d).
Proof.
  intros Hh Hw Hsh H01.
  destruct (fill_block_cells H W top h left w g d Hh Hw Hsh H01)
    as (g' & d' & E & Hsh' & H01' & Hcells).
  destruct (fill_block_rel H W top h left w g d Hh Hw Hsh H01)
    as (st' & E' & Hd & Hsum & Hblk).
  rewrite E in E'. injection E' as <-. simpl in *.
  exists g', d'. split_and!; try done; [|lia].
  rewrite (block_sum_full H W g' top h left w) in Hblk; try done; [lia|].
  intros i j Hin. by rewrite Hcells, Hin.
Qed.

(** [mask_attempts] started with [delta = 0]: either no attempt places a
    block, or the first attempt that places one ends the loop. *)
Lemma mask_attempts_spec G rng mmp n : forall g pos,
  grid_shaped (height G) (width G) g -> grid_01 g ->
  exists g' d pos',
    mask_attempts G rng n g mmp 0 pos = Ok (g', d, pos')
    /\ grid_shaped (height G) (width G) g' /\ grid_01 g'
    /\ ((d = 0 /\ g' = g /\ pos' = (pos + n)%nat)
        \/ exists k top h left w,
             (k < n)%nat /\ pos' = S (pos + k)
             /\ block_of G (rng (pos + k)%nat) = (top, h, left, w)
             /\ (h < height G)%nat /\ (w < width G)%nat
             /\ 0 < d <= mmp
             /\ d = Z.of_nat h * Z.of_nat w
                    - Z.of_nat (block_sum g top h left w)
             /\ Z.of_nat (grid_sum g') = Z.of_nat (grid_sum g) + d
             /\ forall i j, cell g' i j
                  = if in_block top h left w i j then Some 1%nat
                    else cell g i j).
Proof.
  induction n as [|n IH]; intros g pos Hsh H01; cbn [mask_attempts].
  { exists g, 0, pos. split_and!; try done. left. split_and!; [done..|lia]. }
  assert (Hrec : exists g' d pos',
    mask_attempts G rng n g mmp 0 (S pos) = Ok (g', d, pos')
    /\ grid_shaped (height G) (width G) g' /\ grid_01 g'
    /\ ((d = 0 /\ g' = g /\ pos' = (pos + S n)%nat)
        \/ exists k top h left w,
             (k < S n)%nat /\ pos' = S (pos + k)
             /\ block_of G (rng (pos + k)%nat) = (top, h, left, w)
             /\ (h < height G)%nat /\ (w < width G)%nat
             /\ 0 < d <= mmp
             /\ d = Z.of_nat h * Z.of_nat w
                    - Z.of_nat (block_sum g top h left w)
             /\ Z.of_nat (grid_sum g') = Z.of_nat (grid_sum g) + d
             /\ forall i j, cell g' i j
                  = if in_block top h left w i j then Some 1%nat
                    else cell g i j)).
  { destruct (IH g (S pos) Hsh H01) as (g' & d & pos' & E & ? & ? & Hcase).
    exists g', d, pos'. split_and!; try done.
    destruct Hcase as [(-> & -> & ->)|(k & top & h & left & w & Hk & -> & Hb & ?)].
    - left. split_and!; [done..|lia].
    - right. exists (S k), top, h, left, w.
      replace (pos + S k)%nat with (S pos + k)%nat by lia.
      destruct_and!. split_and!; try done; lia. }
  destruct (Nat.ltb_spec (d_w (rng pos)) (width G)) as [Hw|Hw]; simpl;
    [|exact Hrec].
  destruct (Nat.ltb_spec (d_h (rng pos)) (height G)) as [Hh|Hh]; simpl;
    [|exact Hrec].
  set (h := d_h (rng pos)) in *. set (w := d_w (rng pos)) in *.
  set (top := randint0 _ (height G - h)).
  set (left := randint0 _ (width G - w)).
  pose proof (randint0_le (d_top (rng pos)) (height G - h)) as Htop.
  pose proof (randint0_le (d_left (rng pos)) (width G - w)) as Hleft.
  fold top in Htop. fold left in Hleft.
  set (free := Z.of_nat h * Z.of_nat w - Z.of_nat (block_sum g top h left w)).
  destruct ((0 <? free) && (free <=? mmp)) eqn:Hfree.
  - apply andb_true_iff in Hfree as [Hf1%Z.ltb_lt Hf2%Z.leb_le].
    destruct (fill_block_spec (height G) (width G) top h left w g 0)
      as (g1 & d1 & -> & Hsh1 & H011 & Hcells & Hd1 & Hsum1);
      try done; try lia.
    fold free in Hd1. simpl.
    destruct (Z.ltb_spec 0 d1) as [Hpos|Hzero]; [|lia].
    exists g1, d1, (S pos). split_and!; try done. right.
    exists 0%nat, top, h, left, w. rewrite Nat.add_0_r.
    split_and!; try done; try lia.
  - simpl. exact Hrec.
Qed.



(** X1: a call of [_mask] on a well-formed grid never raises and places
    at most one block.  Either its ten attempts are all rejected and the
    grid is unchanged with [delta = 0]; or the first accepted attempt
    ends the call: the block of that attempt, which is strictly smaller
    than the window in both directions, is set to 1 in full, no cell
    outside it changes, and [delta] is the number of cells of the block
    that were 0, between 1 and [max_mask_patches]. *)
Theorem _mask_places_at_most_one_block (G : MaskingGenerator) (rng : Rng)
    (g : Grid) (max_mask_patches : Z) (pos : nat) :
  grid_shape_is (get_shape G) g = true -> grid_binary g = true ->
  exists g' delta pos',
    _mask G rng g max_mask_patches pos = Ok (g', delta, pos')
    /\ mask_outcome G rng g max_mask_patches pos g' delta pos'.
Proof.
  intros Hshape%grid_shape_is_true H01%grid_binary_true.
  destruct (mask_attempts_spec G rng max_mask_patches 10 g pos Hshape H01)
    as (g' & d & pos' & E & _ & _ & Hcase).
  exists g', d, pos'. split; [exact E|exact Hcase].
Qed.

Lemma _mask_places_at_most_one_block_witness :
  exists g' delta pos',
    _mask example_generator example_rng (np_zeros (14, 14)%nat) 75 0
    = Ok (g', delta, pos')
    /\ mask_outcome example_generator example_rng (np_zeros (14, 14)%nat) 75 0
         g' delta pos'.
Proof.
  apply (_mask_places_at_most_one_block example_generator example_rng
           (np_zeros (14, 14)%nat) 75 0); vm_compute; reflexivity.
Defined.

Lemma grid_sum_le_window H W g :
  grid_shaped H W g -> grid_01 g -> (grid_sum g <= H * W)%nat.
Proof.
  intros [Hlen Hrows] H01. unfold grid_sum.
  etrans; [apply (sum_list_bounded _ W)|].
  - apply Forall_fmap. apply Forall_forall. intros row Hrow. simpl.
    unfold grid_01 in H01. rewrite Forall_forall in Hrows, H01.
    rewrite <- (Hrows row Hrow). apply sum_list_01. by apply H01.
  - rewrite length_fmap, Hlen. lia.
Qed.

(** X2: [__call__] never sets more cells than the window has, even when
    [num_masking_patches] asks for more: the number of masked cells is at
    most [min(num_masking_patches, height * width)]. *)
Theorem MaskingGenerator_call_within_window (G : MaskingGenerator) (rng : Rng)
    (fuel : nat) :
  (num_masking_patches G <= fuel)%nat ->
  exists g,
    MaskingGenerator_call fuel G rng = Some (Ok g)
    /\ (grid_sum g <= Nat.min (num_masking_patches G) (height G * width G))%nat.
Proof.
  intros Hfuel.
  destruct (MaskingGenerator_call_ok G rng fuel Hfuel)
    as (g & Hcall & Hshape & H01 & Hsum).
  exists g. split; [done|].
  pose proof (grid_sum_le_window _ _ g Hshape H01). lia.
Qed.

Lemma MaskingGenerator_call_within_window_witness :
  exists g,
    MaskingGenerator_call 300
      (MaskingGenerator_init (3, 4)%nat 300 1 None) example_rng = Some (Ok g)
    /\ (grid_sum g <= Nat.min 300 (3 * 4))%nat.
Proof.
  apply (MaskingGenerator_call_within_window
           (MaskingGenerator_init (3, 4)%nat 300 1 None) example_rng 300).
  simpl. lia.
Defined.

(** X3: a window of at most one row or of at most one column cannot be
    masked, and neither can any window when [max_num_patches = 0]: no
    block is strictly smaller than such a window (or small enough), and
    [__call__] returns the all-zero grid after one call of [_mask],
    whatever [num_masking_patches] is. *)
Theorem MaskingGenerator_call_unmaskable (G : MaskingGenerator) (rng : Rng)
    (fuel : nat) :
  (height G <= 1)%nat \/ (width G <= 1)%nat \/ max_num_patches G = 0%nat ->
  (1 <= fuel)%nat ->
  MaskingGenerator_call fuel G rng = Some (Ok (np_zeros (get_shape G))).
Proof.
  intros Hdeg Hfuel. destruct fuel as [|fuel]; [lia|].
  unfold MaskingGenerator_call. cbn [call_loop].
  destruct (Z.ltb_spec 0 (Z.of_nat (num_masking_patches G))); [|done].
  unfold _mask, get_shape.
  destruct (mask_attempts_spec G rng
              (Z.min (Z.of_nat (num_masking_patches G) - 0)
                     (Z.of_nat (max_num_patches G)))
              10 (np_zeros (height G, width G)) 0)
    as (g' & d & pos' & -> & _ & _ & Hcase).
  { apply np_zeros_shaped. }
  { apply np_zeros_01. }
  destruct Hcase as [(-> & -> & _)|(k & top & h & left & w & _ & _ & _ & Hh
                                      & Hw & Hd & Hfree & _)].
  - done.
  - exfalso. destruct Hdeg as [?|[?|?]]; nia.
Qed.

Lemma MaskingGenerator_call_unmaskable_witness :
  MaskingGenerator_call 1
    (MaskingGenerator_init (14, 14)%nat 75 16 (Some 0%nat)) example_rng
  = Some (Ok (np_zeros (14, 14)%nat)).
Proof.
  apply (MaskingGenerator_call_unmaskable
           (MaskingGenerator_init (14, 14)%nat 75 16 (Some 0%nat))
           example_rng 1).
  - right. right. reflexivity.
  - lia.
Defined.

Lemma call_loop_exit G rng fuel : forall g mc pos,
  grid_shaped (height G) (width G) g -> grid_01 g ->
  Z.of_nat (grid_sum g) = mc ->
  mc <= Z.of_nat (num_masking_patches G) ->
  (Z.to_nat (Z.of_nat (num_masking_patches G) - mc) <= fuel)%nat ->
  exists g',
    call_loop fuel G rng g mc pos = Some (Ok g')
    /\ (grid_sum g' = num_masking_patches G
        \/ ((grid_sum g' < num_masking_patches G)%nat
            /\ exists pos',
                 _mask G rng g'
                   (Z.min (Z.of_nat (num_masking_patches G)
                           - Z.of_nat (grid_sum g'))
                          (Z.of_nat (max_num_patches G))) pos'
                 = Ok (g', 0, (pos' + 10)%nat))).
Proof.
  induction fuel as [|fuel IH]; intros g mc pos Hsh H01 Hsum Hmc Hfuel.
  - simpl. destruct (Z.ltb_spec mc (Z.of_nat (num_masking_patches G))); [lia|].
    exists g. split; [done|]. left. lia.
  - simpl.
    destruct (Z.ltb_spec mc (Z.of_nat (num_masking_patches G))) as [Hlt|Hge];
      [|exists g; split; [done|]; left; lia].
    unfold _mask.
    destruct (mask_attempts_spec G rng
                (Z.min (Z.of_nat (num_masking_patches G) - mc)
                       (Z.of_nat (max_num_patches G))) 10 g pos Hsh H01)
      as (g1 & d & pos1 & E & Hsh1 & H011 & Hcase).
    rewrite E.
    destruct Hcase as [(-> & -> & ->)|(k & top & h & left & w & _ & _ & _ & _
                                        & _ & Hd & _ & Hsum1 & _)].
    + exists g. split; [done|]. right. split; [lia|].
      exists pos. unfold _mask. by rewrite Hsum.
    + destruct (Z.eqb_spec d 0) as [->|Hne]; [lia|].
      apply IH; try done; lia.
Qed.

(** X4: [__call__] returns fewer masked cells than [num_masking_patches]
    only when it is stuck: either the returned grid has exactly
    [num_masking_patches] cells set, or a call of [_mask] on the returned
    grid itself had its ten attempts all rejected and left it
    unchanged. *)
Theorem MaskingGenerator_call_full_or_stalled (G : MaskingGenerator)
    (rng : Rng) (fuel : nat) :
  (num_masking_patches G <= fuel)%nat ->
  exists g,
    MaskingGenerator_call fuel G rng = Some (Ok g)
    /\ (grid_sum g = num_masking_patches G
        \/ ((grid_sum g < num_masking_patches G)%nat
            /\ exists pos,
                 _mask G rng g
                   (Z.min (Z.of_nat (num_masking_patches G)
                           - Z.of_nat (grid_sum g))
                          (Z.of_nat (max_num_patches G))) pos
                 = Ok (g, 0, (pos + 10)%nat))).
Proof.
  intros Hfuel. unfold MaskingGenerator_call, get_shape.
  apply call_loop_exit.
  - apply np_zeros_shaped.
  - apply np_zeros_01.
  - by rewrite np_zeros_sum.
  - lia.
  - lia.
Qed.

Lemma MaskingGenerator_call_full_or_stalled_witness :
  exists g,
    MaskingGenerator_call 75 example_generator example_rng = Some (Ok g)
    /\ (grid_sum g = 75%nat
        \/ ((grid_sum g < 75)%nat
            /\ exists pos,
                 _mask example_generator example_rng g
                   (Z.min (75 - Z.of_nat (grid_sum g)) 75) pos
                 = Ok (g, 0, (pos + 10)%nat))).
Proof.
  apply (MaskingGenerator_call_full_or_stalled example_generator example_rng
           75).
  simpl. lia.
Defined.

(** ** TwoWayResize and TwoWayRandomResizedCrop *)

(** X5: an integer [second_interpolation], which both constructors mean
    to accept for backward compatibility, never gives an object: once the
    base class is initialised, the call of [warnings.warn] raises
    [NameError], because the module does not import [warnings]. *)
Theorem int_second_interpolation_raises_NameError {Image St : Type}
    {tv : Torchvision Image St} (size second_size : pyobj) (n : Z)
    (kw : kwargs) :
  (forall R, TwoWayResize_init size second_size (IntCode n) kw <> Built R)
  /\ (forall C,
        TwoWayRandomResizedCrop_init size second_size (IntCode n) kw
        <> Built C)
  /\ (is_ok (Resize_init
               (if negb (is_list_or_tuple size) then TupleVal [size; size]
                else size) kw) = true ->
      TwoWayResize_init size second_size (IntCode n) kw
      = NameError "warnings")
  /\ (is_ok (RandomResizedCrop_init size kw) = true ->
      TwoWayRandomResizedCrop_init size second_size (IntCode n) kw
      = NameError "warnings").
Proof.
  unfold TwoWayResize_init, TwoWayRandomResizedCrop_init. split_and!.
  - intros R. by destruct (Resize_init _ kw).
  - intros C. by destruct (RandomResizedCrop_init size kw).
  - by destruct (Resize_init _ kw).
  - by destruct (RandomResizedCrop_init size kw).
Qed.

(** X6: [TwoWayRandomResizedCrop.__call__] never returns a single
    image.  The constructor turns every [second_size] that is not a list
    or a tuple, [None] included, into a pair, so that the branch of line
    192 is dead; the two images returned are crops of the same region
    [(i, j, h, w)] of the same input. *)
Theorem TwoWayRandomResizedCrop_call_returns_two_crops {Image St : Type}
    {tv : Torchvision Image St} (size second_size : pyobj)
    (second_interpolation : interpolation_arg) (kw : kwargs)
    (C : TwoWayRandomResizedCrop) (img : Image) (s s' : St)
    (out : crops Image) :
  TwoWayRandomResizedCrop_init size second_size second_interpolation kw
  = Built C ->
  TwoWayRandomResizedCrop_call C img s = Ok (out, s') ->
  is_list_or_tuple (twc_second_size C) = true
  /\ (second_size = NoneVal ->
      twc_second_size C = TupleVal [NoneVal; NoneVal])
  /\ exists i j h w interpolation a b,
       out = TwoCrops a b
       /\ F_resized_crop img i j h w (rc_size (twc_base C)) interpolation
          = Ok a
       /\ F_resized_crop img i j h w (twc_second_size C)
            (twc_second_interpolation C) = Ok b.
Proof.
  unfold TwoWayRandomResizedCrop_init.
  destruct (RandomResizedCrop_init size kw) as [base|e]; [|done].
  destruct second_interpolation as [m|code]; [|done].
  intros [= <-]. cbn [twc_base twc_second_size twc_second_interpolation].
  assert (Hseq : is_list_or_tuple
                   (if negb (is_list_or_tuple second_size)
                    then TupleVal [second_size; second_size]
                    else second_size) = true).
  { by destruct second_size. }
  intros Hcall. split; [done|]. split; [by intros ->|].
  unfold TwoWayRandomResizedCrop_call in Hcall.
  cbn [twc_base twc_second_size twc_second_interpolation] in Hcall.
  destruct (get_params img (rc_scale base) (rc_ratio base) s)
    as [[[[[i j] h] w] s1]|e]; [|done].
  rewrite result_bind_ret in Hcall.
  destruct (match rc_interpolation base with
            | OneMode m0 => Ok (m0, s1)
            | ModeSeq ms => random_choice ms s1
            end) as [[interpolation s2]|e]; [|done].
  rewrite result_bind_ret in Hcall.
  destruct (is_None _) eqn:Hnone.
  { exfalso. by destruct second_size. }
  destruct (F_resized_crop img i j h w (rc_size base) interpolation)
    as [a|e] eqn:Ea; [|done].
  rewrite result_bind_ret in Hcall.
  destruct (F_resized_crop img i j h w _ m) as [b|e] eqn:Eb; [|done].
  rewrite result_bind_ret in Hcall. injection Hcall as <- <-.
  by exists i, j, h, w, interpolation, a, b.
Qed.

Lemma int_second_interpolation_raises_NameError_witness :
  @TwoWayResize_init nat nat toy_torchvision (IntVal 224) (IntVal 112)
    (IntCode 1) [] = NameError "warnings"
  /\ @TwoWayRandomResizedCrop_init nat nat toy_torchvision (IntVal 224)
       (IntVal 112) (IntCode 1) [] = NameError "warnings".
Proof.
  destruct (int_second_interpolation_raises_NameError (tv := toy_torchvision)
              (IntVal 224) (IntVal 112) 1 []) as (_ & _ & H1 & H2).
  split; [apply H1|apply H2]; reflexivity.
Defined.

Lemma TwoWayRandomResizedCrop_call_returns_two_crops_witness :
  exists C out s',
    @TwoWayRandomResizedCrop_init nat nat toy_torchvision (IntVal 224)
      NoneVal (Mode LANCZOS) [] = Built C
    /\ TwoWayRandomResizedCrop_call C 7%nat 0%nat = Ok (out, s')
    /\ twc_second_size C = TupleVal [NoneVal; NoneVal]
    /\ exists a b, out = TwoCrops a b.
Proof.
  eexists _, _, _. split; [reflexivity|]. split; [reflexivity|].
  destruct (TwoWayRandomResizedCrop_call_returns_two_crops
              (tv := toy_torchvision) (IntVal 224) NoneVal (Mode LANCZOS) []
              _ 7%nat 0%nat _ _ eq_refl eq_refl)
    as (_ & Hnone & i & j & h & w & m & a & b & Hout & _).
  split; [by apply Hnone|]. by exists a, b.
Defined.

(** ** MaskedImageModelingTransform *)

(** X7: the dictionary that [transform] returns.  For a transform built
    by the constructor, in training or in evaluation mode, a call
    returns (or raises), and what it returns has exactly the keys
    ["image"], ["image_for_codebook"] and ["image_patches_mask"], in this
    order; the codebook image is a [torch.float] tensor and the mask is a
    square grid of the window size whose cells are 0 or 1, at most
    [mask_num_patches] of them being 1. *)
Theorem transform_output {Image St elem : Type} {tv : Torchvision Image St}
    {io : ImageOps Image elem} {po : PixelOps elem}
    (is_train : bool) (encoder_input_size codebook_input_size : Z)
    (scale : Q * Q)
    (encoder_interpolation codebook_interpolation : interpolation_arg)
    (image_mean image_std : Q * Q * Q)
    (mask_window_size mask_num_patches : nat)
    (mask_max_patches : option nat) (mask_min_patches : nat)
    (T : MaskedImageModelingTransform Image St elem)
    (fuel : nat) (rng : Rng) (image : Image) (s : St) :
  MaskedImageModelingTransform_init is_train encoder_input_size
    codebook_input_size scale encoder_interpolation codebook_interpolation
    image_mean image_std mask_window_size mask_num_patches mask_max_patches
    mask_min_patches = Built T ->
  (mask_num_patches <= fuel)%nat ->
  exists r,
    transform T fuel rng image s = Some r
    /\ forall output s', r = Ok (output, s') ->
         exists a b g,
           output = [("image"%string, TensorVal a);
                     ("image_for_codebook"%string, TensorVal b);
                     ("image_patches_mask"%string, MaskVal g)]
           /\ t_dtype b = torch_float
           /\ grid_shape_is (mask_window_size, mask_window_size) g = true
           /\ grid_binary g = true
           /\ (grid_sum g <= mask_num_patches)%nat.
Proof.
  unfold MaskedImageModelingTransform_init.
  destruct (resize_func_init _ _ _ _ _ _) as [resize_func| |]; [|done..].
  intros [= <-] Hfuel. unfold transform, transform_images.
  cbn [common_transform image_transform codebook_transform
       masked_position_generator].
  set (G := MaskingGenerator_init _ _ _ _).
  destruct (MaskingGenerator_call_ok G rng fuel Hfuel)
    as (g & -> & Hshape & H01 & Hsum).
  match goal with |- context [match ?x with Ok _ => _ | Raise _ => _ end] =>
    destruct x as [[[a b] s1]|e] eqn:E end; [|by eexists].
  eexists. split; [reflexivity|]. intros output s' [= <- <-].
  exists a, b, g. split_and!; try done.
  - revert E.
    destruct (if negb (String.eqb (image_mode image) "RGB")
              then image_convert image "RGB" else Ok image) as [img|e];
      simpl; [|done].
    destruct (resize_func img s) as [[[c|c1 c2] s2]|e]; simpl; try done.
    destruct (ToTensor c1) as [t1|]; simpl; [|done].
    destruct (Normalize image_mean image_std t1) as [a'|]; simpl; [|done].
    destruct (ToTensor c2) as [t|]; simpl; [|done].
    unfold map_pixels. destruct (dtype_eqb (t_dtype t) torch_float) eqn:Hd;
      simpl; [|done].
    intros [= _ <- _]. simpl. by apply dtype_eqb_eq.
  - by apply grid_shape_is_true.
  - by apply grid_binary_true.
Qed.

Lemma transform_output_witness :
  exists T r,
    toy_transform true = Built T
    /\ transform T 75 example_rng 7%nat 0%nat = Some r
    /\ forall output s', r = Ok (output, s') ->
         exists a b g,
           output = [("image"%string, TensorVal a);
                     ("image_for_codebook"%string, TensorVal b);
                     ("image_patches_mask"%string, MaskVal g)]
           /\ t_dtype b = torch_float
           /\ grid_shape_is (14, 14)%nat g = true
           /\ grid_binary g = true
           /\ (grid_sum g <= 75)%nat.
Proof.
  eexists. 
  destruct (transform_output (tv := toy_torchvision) (io := toy_image_ops)
              (po := Q_pixel_ops) true 224 112 (9 # 10, 1)%Q (Mode BICUBIC)
              (Mode LANCZOS) IMAGE_PRETRAINING_MEAN IMAGE_PRETRAINING_STD
              14 75 None 16 _ 75 example_rng 7%nat 0%nat eq_refl)
    as (r & Hr & Hout); [lia|].
  exists r. split; [reflexivity|]. split; [exact Hr|exact Hout].
Defined.

Lemma append_entries_batch {elem}
    (rows : list (Tensor elem * Tensor elem * Grid)) row :
  append_entries (batch_of rows) (transformed row) = batch_of (rows ++ [row]).
Proof.
  destruct rows as [|row0 rows]; [reflexivity|].
  unfold append_entries, batch_of, transformed. simpl.
  by rewrite !fmap_app.
Qed.

Lemma transform_inv {Image St elem}
    (T : MaskedImageModelingTransform Image St elem) fuel rng image s
    output s' :
  transform T fuel rng image s = Some (Ok (output, s')) ->
  exists row, output = transformed row.
Proof.
  unfold transform.
  destruct (transform_images T image s) as [[[a b] s1]|e]; [|done].
  destruct (MaskingGenerator_call _ _ _) as [[g|e]|]; [|done..].
  intros [= <- <-]. by exists (a, b, g).
Qed.

Lemma call_images_rows {Image St elem}
    (T : MaskedImageModelingTransform Image St elem) fuel rngs images :
  forall rows0 s n output s',
  call_images T fuel rngs images (batch_of rows0) s n
  = Some (Ok (output, s')) ->
  exists rows,
    output = batch_of (rows0 ++ rows)
    /\ length rows = length images
    /\ transformed_rows T fuel rngs images rows s n s'.
Proof.
  induction images as [|image images IH]; intros rows0 s n output s';
    cbn [call_images].
  - intros [= <- <-]. exists []. by rewrite app_nil_r.
  - destruct (transform T fuel (rngs n) image s)
      as [[[transformed_output s1]|e]|] eqn:E; [|done..].
    destruct (transform_inv _ _ _ _ _ _ _ E) as (row & ->).
    rewrite append_entries_batch. intros Hrest.
    destruct (IH _ _ _ _ _ Hrest) as (rows & -> & Hlen & Hrows).
    exists (row :: rows). rewrite <- app_assoc. split_and!; [done|simpl; lia|].
    simpl. eauto.
Qed.

Lemma transform_returns {Image St elem}
    (T : MaskedImageModelingTransform Image St elem) fuel rng image s :
  (num_masking_patches (masked_position_generator T) <= fuel)%nat ->
  exists r, transform T fuel rng image s = Some r.
Proof.
  intros Hfuel. unfold transform.
  destruct (transform_images T image s) as [[[a b] s1]|e]; [|by eexists].
  destruct (MaskingGenerator_call_ok (masked_position_generator T) rng fuel
              Hfuel) as (g & -> & _).
  by eexists.
Qed.

Lemma call_images_returns {Image St elem}
    (T : MaskedImageModelingTransform Image St elem) fuel rngs images :
  (num_masking_patches (masked_position_generator T) <= fuel)%nat ->
  forall output s n,
  exists r, call_images T fuel rngs images output s n = Some r.
Proof.
  intros Hfuel. induction images as [|image images IH]; intros output s n;
    cbn [call_images]; [by eexists|].
  destruct (transform_returns T fuel (rngs n) image s Hfuel) as (r & ->).
  destruct r as [[transformed_output s1]|e]; [apply IH|by eexists].
Qed.

(** X8: on a list of images [__call__] returns or raises, and a returned
    dictionary holds lists that are aligned: entry [i] of each of the
    three lists is the value that [transform] returned for image [i], the
    images being transformed one after the other.  On an empty list it
    returns a dictionary that has no key at all. *)
Theorem call_batches_rows {Image St elem : Type}
    (T : MaskedImageModelingTransform Image St elem) (fuel : nat)
    (rngs : nat -> Rng) (images : list Image) (s : St) :
  (num_masking_patches (masked_position_generator T) <= fuel)%nat ->
  exists r,
    MaskedImageModelingTransform_call T fuel rngs (ImageList images) s
    = Some r
    /\ (images = [] -> r = Ok (Batch [], s))
    /\ forall out s', r = Ok (out, s') ->
         exists rows,
           out = Batch (batch_of rows)
           /\ length rows = length images
           /\ transformed_rows T fuel rngs images rows s 0 s'.
Proof.
  intros Hfuel. unfold MaskedImageModelingTransform_call.
  destruct (call_images_returns T fuel rngs images Hfuel [] s 0%nat)
    as (r & E).
  rewrite E. eexists. split; [reflexivity|]. split.
  - intros ->. cbn [call_images] in E. by injection E as <-.
  - intros out s' Hr. destruct r as [[output s1]|e]; [|done].
    injection Hr as <- <-.
    destruct (call_images_rows T fuel rngs images [] s 0%nat output s1 E)
      as (rows & -> & Hlen & Hrows).
    by exists rows.
Qed.

Lemma call_batches_rows_witness :
  exists T r,
    toy_transform false = Built T
    /\ MaskedImageModelingTransform_call T 75 (fun _ => example_rng)
         (ImageList [3; 5]%nat) 0%nat = Some r
    /\ forall out s', r = Ok (out, s') ->
         exists rows, out = Batch (batch_of rows) /\ length rows = 2%nat.
Proof.
  pose (T := ltac:(let T := eval vm_compute in (toy_transform false) in
                   match T with Built ?T => exact T end)
             : MaskedImageModelingTransform nat nat Q).
  destruct (call_batches_rows T 75 (fun _ => example_rng) [3; 5]%nat 0%nat)
    as (r & E & _ & Hrows).
  { vm_compute. lia. }
  exists T, r. split; [vm_compute; reflexivity|]. split; [exact E|].
  intros out s' Hr. destruct (Hrows out s' Hr) as (rows & Hout & Hlen & _).
  exists rows. split; [exact Hout|exact Hlen].
Defined.

End ImageMaskingFacts.

(** * Facts about mdetr.py *)

Module MdetrFacts.
Import Mdetr.

Lemma result_bind_Ok {A B} (k : A -> result B) (a : A) : (Ok a ≫= k) = k a.
Proof. reflexivity. Qed.

Ltac run lem :=
  let o := fresh "x" in
  let E := fresh "E" in
  let Ho := fresh "Hx" in
  destruct lem as (o & E & Ho);
  [..|rewrite E; clear E; rewrite !result_bind_Ok; cbv beta].

Lemma list_pop_snoc {A} (l : list A) x : list_pop (l ++ [x]) = Ok l.
Proof.
  unfold list_pop. destruct (l ++ [x]) as [|v l'] eqn:E; [by destruct l|].
  by rewrite <- E, removelast_last.
Qed.

Section Shapes.
Context {elem : Type} {scalar : Scalar elem}.
Implicit Types (t a b : Tensor elem).

Lemma broadcast_rev_same s : broadcast_rev s s = Some s.
Proof. induction s as [|n s IH]; simpl; [done|]. by rewrite Nat.eqb_refl, IH. Qed.

Lemma broadcast_shapes_same s : broadcast_shapes s s = Some s.
Proof.
  unfold broadcast_shapes. rewrite broadcast_rev_same. simpl.
  by rewrite rev_involutive.
Qed.

Lemma tensor_add_shape a b :
  shape b = shape a -> exists o, tensor_add a b = Ok o /\ shape o = shape a.
Proof.
  intros Hb. unfold tensor_add. rewrite Hb, broadcast_shapes_same. eauto.
Qed.

Lemma with_pos_embed_shape t pos :
  same_shape_or_none (shape t) pos ->
  exists o, with_pos_embed t pos = Ok o /\ shape o = shape t.
Proof.
  destruct pos as [p|]; simpl; intros Hp; [|eauto].
  by apply tensor_add_shape.
Qed.

Lemma t_add_shape a b :
  shape b = shape a -> exists o, t_add a b = Ok o /\ shape o = shape a.
Proof. apply tensor_add_shape. Qed.

Lemma encoder_layer_shape d dff (L : TransformerEncoderLayer (Tensor elem))
    src kpm pos S B :
  EncoderLayer_ok d dff L ->
  (0 < S)%nat -> (0 < B)%nat ->
  shape src = [S; B; d] -> padding_mask_ok B S kpm ->
  same_shape_or_none [S; B; d] pos ->
  exists o, TransformerEncoderLayer_forward L src None kpm pos = Ok o
            /\ shape o = [S; B; d].
Proof.
  intros [] HS HB Hsrc Hkpm Hpos.
  unfold TransformerEncoderLayer_forward.
  destruct (normalize_before L).
  - unfold enc_forward_pre.
    run (enc_norm1_ok0 src [S; B] Hsrc).
    run (with_pos_embed_shape x pos); [by rewrite Hx, Hsrc|].
    run (enc_self_attn_ok0 x0 x0 x kpm S S B); try done; try congruence.
    run (enc_dropout1_ok0 x1).
    run (t_add_shape src x2); [simpl in *; congruence|].
    run (enc_norm2_ok0 x3 [S; B]); [simpl in *; congruence|].
    run (enc_linear1_ok0 x4 [S; B]); [simpl in *; congruence|].
    run (enc_activation_ok0 x5).
    run (enc_dropout_ok0 x6).
    run (enc_linear2_ok0 x7 [S; B]); [simpl in *; congruence|].
    run (enc_dropout2_ok0 x8).
    destruct (t_add_shape x3 x9) as (o & -> & Ho); [simpl in *; congruence|].
    exists o. split; [done|congruence].
  - unfold enc_forward_post.
    run (with_pos_embed_shape src pos); [by rewrite Hsrc|].
    run (enc_self_attn_ok0 x x src kpm S S B); try done; try congruence.
    run (enc_dropout1_ok0 x0).
    run (t_add_shape src x1); [simpl in *; congruence|].
    run (enc_norm1_ok0 x2 [S; B]); [simpl in *; congruence|].
    run (enc_linear1_ok0 x3 [S; B]); [simpl in *; congruence|].
    run (enc_activation_ok0 x4).
    run (enc_dropout_ok0 x5).
    run (enc_linear2_ok0 x6 [S; B]); [simpl in *; congruence|].
    run (enc_dropout2_ok0 x7).
    run (t_add_shape x3 x8); [simpl in *; congruence|].
    destruct (enc_norm2_ok0 x9 [S; B]) as (o & -> & Ho); [simpl in *; congruence|].
    exists o. split; [done|congruence].
Qed.

Lemma decoder_layer_shape d dff (L : TransformerDecoderLayer (Tensor elem))
    tgt memory kpm pos query_pos Nq S B :
  DecoderLayer_ok d dff L ->
  (0 < Nq)%nat -> (0 < S)%nat -> (0 < B)%nat ->
  shape tgt = [Nq; B; d] -> shape memory = [S; B; d] ->
  padding_mask_ok B S kpm ->
  same_shape_or_none [S; B; d] pos ->
  same_shape_or_none [Nq; B; d] query_pos ->
  exists o, TransformerDecoderLayer_forward L tgt memory None None None kpm
              pos query_pos = Ok o
            /\ shape o = [Nq; B; d].
Proof.
  intros [] HN HS HB Htgt Hmem Hkpm Hpos Hqp.
  unfold TransformerDecoderLayer_forward.
  run (with_pos_embed_shape tgt query_pos); [by rewrite Htgt|].
  run (dec_self_attn_ok0 x x tgt None Nq Nq B); try done; try congruence.
  run (dec_dropout1_ok0 x0).
  run (t_add_shape tgt x1); [simpl in *; congruence|].
  run (dec_norm1_ok0 x2 [Nq; B]); [simpl in *; congruence|].
  run (with_pos_embed_shape x3 query_pos); [by rewrite Hx3, Hx2, Htgt|].
  run (with_pos_embed_shape memory pos); [by rewrite Hmem|].
  run (dec_cross_attn_image_ok0 x4 x5 memory kpm Nq S B);
    try done; try congruence.
  run (dec_dropout3_ok0 x6).
  run (t_add_shape x3 x7); [simpl in *; congruence|].
  run (dec_norm3_ok0 x8 [Nq; B]); [simpl in *; congruence|].
  run (dec_linear1_ok0 x9 [Nq; B]); [simpl in *; congruence|].
  run (dec_activation_ok0 x10).
  run (dec_dropout_ok0 x11).
  run (dec_linear2_ok0 x12 [Nq; B]); [simpl in *; congruence|].
  run (dec_dropout4_ok0 x13).
  run (t_add_shape x9 x14); [simpl in *; congruence|].
  destruct (dec_norm4_ok0 x15 [Nq; B]) as (o & -> & Ho); [simpl in *; congruence|].
  exists o. split; [done|congruence].
Qed.

Lemma encoder_forward_shape d dff (E : TransformerEncoder (Tensor elem))
    src kpm pos S B :
  Forall (EncoderLayer_ok d dff) (encoder_layers E) ->
  optional_norm_ok d (encoder_norm E) ->
  (0 < S)%nat -> (0 < B)%nat ->
  shape src = [S; B; d] -> padding_mask_ok B S kpm ->
  same_shape_or_none [S; B; d] pos ->
  exists o, TransformerEncoder_forward E src None kpm pos = Ok o
            /\ shape o = [S; B; d].
Proof.
  intros Hlayers Hnorm HS HB Hsrc Hkpm Hpos.
  unfold TransformerEncoder_forward.
  assert (exists o, for_each (encoder_layers E)
            (fun output layer =>
               TransformerEncoderLayer_forward layer output None kpm pos) src
            = Ok o /\ shape o = [S; B; d]) as (o & -> & Ho).
  { revert src Hsrc. induction Hlayers as [|L Ls HL _ IH]; intros src Hsrc.
    - simpl. eauto.
    - cbn [for_each].
      run (encoder_layer_shape d dff L src kpm pos S B); try done.
      by apply IH. }
  rewrite result_bind_Ok. destruct (encoder_norm E) as [f|]; [|eauto].
  destruct (Hnorm o [S; B]) as (o' & -> & Ho'); [done|].
  exists o'. split; [done|congruence].
Qed.

(** Shapes of the tensor operations of [Transformer.forward]. *)

Lemma flatten2_shape t n1 n2 n3 n4 :
  shape t = [n1; n2; n3; n4] ->
  exists o, flatten 2 t = Ok o /\ shape o = [n1; n2; (n3 * n4)%nat].
Proof.
  intros Ht. unfold flatten, ndim. rewrite Ht. simpl.
  eexists; split; [reflexivity|]. simpl. do 3 f_equal. lia.
Qed.

Lemma flatten1_shape t n1 n2 n3 :
  shape t = [n1; n2; n3] ->
  exists o, flatten 1 t = Ok o /\ shape o = [n1; (n2 * n3)%nat].
Proof.
  intros Ht. unfold flatten, ndim. rewrite Ht. simpl.
  eexists; split; [reflexivity|]. simpl. do 2 f_equal. lia.
Qed.

Lemma permute201_shape t n1 n2 n3 :
  shape t = [n1; n2; n3] ->
  exists o, permute [2; 0; 1]%nat t = Ok o /\ shape o = [n3; n1; n2].
Proof.
  intros Ht. unfold permute, ndim. rewrite Ht. simpl.
  eexists; split; reflexivity.
Qed.

Lemma unsqueeze1_shape t n1 n2 :
  shape t = [n1; n2] ->
  exists o, unsqueeze 1 t = Ok o /\ shape o = [n1; 1%nat; n2].
Proof.
  intros Ht. unfold unsqueeze, ndim. rewrite Ht. simpl.
  eexists; split; reflexivity.
Qed.

Lemma repeat_batch_shape t n1 n2 bs :
  shape t = [n1; 1%nat; n2] ->
  exists o, repeat [1; bs; 1]%nat t = Ok o /\ shape o = [n1; bs; n2].
Proof.
  intros Ht. unfold repeat, ndim. rewrite Ht. simpl.
  eexists; split; [reflexivity|]. simpl. f_equal; [lia|]. f_equal; [lia|].
  f_equal. lia.
Qed.

Lemma cat_seq_shape a b n m B D :
  shape a = [n; B; D] -> shape b = [m; B; D] ->
  exists o, torch_cat [PyTensor a; PyTensor b] 0 = Ok o
            /\ shape o = [(n + m)%nat; B; D].
Proof.
  intros Ha Hb. unfold torch_cat. simpl. unfold cat2, ndim, same_shape_except.
  rewrite Ha, Hb. simpl. rewrite !Nat.eqb_refl. simpl.
  eexists; split; reflexivity.
Qed.

Lemma cat_mask_shape a b n m B :
  shape a = [B; n] -> shape b = [B; m] ->
  exists o, torch_cat [PyTensor a; PyTensor b] 1 = Ok o
            /\ shape o = [B; (n + m)%nat].
Proof.
  intros Ha Hb. unfold torch_cat. simpl. unfold cat2, ndim, same_shape_except.
  rewrite Ha, Hb. simpl. rewrite !Nat.eqb_refl. simpl.
  eexists; split; reflexivity.
Qed.

Lemma slice_last_shape t n m rest :
  shape t = n :: rest -> (0 < m <= n)%nat ->
  exists o, slice_from (- Z.of_nat m) t = Ok o
    /\ shape o = m :: rest
    /\ forall i idx, item o (i :: idx) = item t ((n - m + i)%nat :: idx).
Proof.
  intros Ht Hm. unfold slice_from. rewrite Ht.
  destruct (Z.ltb_spec (- Z.of_nat m) 0) as [_|?]; [|lia].
  replace (Z.to_nat (Z.max (Z.of_nat n + - Z.of_nat m) 0)) with (n - m)%nat
    by lia.
  eexists; split; [reflexivity|]. simpl. split; [f_equal; lia|done].
Qed.

Lemma slice_minus_zero t n rest :
  shape t = n :: rest ->
  exists o, slice_from (- Z.of_nat 0) t = Ok o
    /\ shape o = shape t
    /\ forall i idx, item o (i :: idx) = item t (i :: idx).
Proof.
  intros Ht. unfold slice_from. rewrite Ht. simpl.
  eexists; split; [reflexivity|]. simpl. split; [f_equal; lia|done].
Qed.

Lemma assert_shape1_pass a b c n1 n2 n3 B r1 r2 r3 :
  shape a = n1 :: B :: r1 -> shape b = n2 :: B :: r2 ->
  shape c = n3 :: B :: r3 ->
  assert_shape1 a b (PyTensor c) = Ok tt.
Proof.
  intros Ha Hb Hc. unfold assert_shape1, shape_at. rewrite Ha, Hb. simpl.
  rewrite Nat.eqb_refl. simpl. rewrite Hc. simpl. by rewrite Nat.eqb_refl.
Qed.

Lemma torch_stack_shape (ts : list (Tensor elem)) s :
  ts <> [] -> Forall (fun u => shape u = s) ts ->
  exists o, torch_stack ts = Ok o /\ shape o = length ts :: s.
Proof.
  intros Hne Hall. destruct ts as [|t ts]; [done|]. unfold torch_stack.
  assert (forallb (fun u => shape_eqb (shape u) (shape t)) (t :: ts) = true)
    as ->.
  { apply forallb_forall. intros u Hu%list_elem_of_In.
    rewrite Forall_forall in Hall. unfold shape_eqb. apply bool_decide_eq_true.
    rewrite (Hall u Hu). symmetry. apply Hall. left. }
  eexists; split; [reflexivity|]. simpl. f_equal.
  apply (Forall_inv Hall).
Qed.

Lemma transpose12_shape4 t n1 n2 n3 n4 :
  shape t = [n1; n2; n3; n4] ->
  exists o, transpose 1 2 t = Ok o /\ shape o = [n1; n3; n2; n4].
Proof.
  intros Ht. unfold transpose, ndim. rewrite Ht. simpl.
  eexists; split; reflexivity.
Qed.

Lemma transpose12_shape3 t n1 n2 n3 :
  shape t = [n1; n2; n3] ->
  exists o, transpose 1 2 t = Ok o /\ shape o = [n1; n3; n2].
Proof.
  intros Ht. unfold transpose, ndim. rewrite Ht. simpl.
  eexists; split; reflexivity.
Qed.

Lemma decoder_loop_shape d dff (D : TransformerDecoder (Tensor elem))
    nrm memory kpm pos query_pos Nq S B :
  decoder_norm D = Some nrm -> norm_ok d nrm ->
  (0 < Nq)%nat -> (0 < S)%nat -> (0 < B)%nat ->
  shape memory = [S; B; d] -> padding_mask_ok B S kpm ->
  same_shape_or_none [S; B; d] pos ->
  same_shape_or_none [Nq; B; d] query_pos ->
  forall layers, Forall (DecoderLayer_ok d dff) layers ->
  forall tgt acc,
    shape tgt = [Nq; B; d] -> Forall (fun u => shape u = [Nq; B; d]) acc ->
    exists o acc',
      for_each layers
        (decoder_step D memory None None None kpm pos query_pos) (tgt, acc)
      = Ok (o, acc')
      /\ shape o = [Nq; B; d]
      /\ Forall (fun u => shape u = [Nq; B; d]) acc'
      /\ length acc'
         = (length acc + if return_intermediate D then length layers else 0)%nat.
Proof.
  intros Hnorm Hnrm HN HS HB Hmem Hkpm Hpos Hqp layers Hlayers.
  induction Hlayers as [|L Ls HL _ IH]; intros tgt acc Htgt Hacc.
  - simpl. exists tgt, acc. split_and!; try done. destruct (return_intermediate D); lia.
  - cbn [for_each]. unfold decoder_step at 2. cbn [fst snd].
    run (decoder_layer_shape d dff L tgt memory kpm pos query_pos Nq S B);
      try done.
    destruct (return_intermediate D) eqn:Hri.
    + rewrite Hnorm. cbn [call_norm].
      run (Hnrm x [Nq; B]); [by rewrite Hx|].
      destruct (IH x (acc ++ [x0])) as (o & acc' & -> & Ho & Hacc' & Hlen);
        [done| |].
      { apply Forall_app. split; [done|]. apply Forall_singleton. congruence. }
      exists o, acc'. split_and!; try done.
      rewrite Hlen, length_app. simpl. lia.
    + rewrite result_bind_Ok.
      destruct (IH x acc) as (o & acc' & -> & Ho & Hacc' & Hlen); try done.
      exists o, acc'. split_and!; try done.
Qed.

Lemma decoder_forward_shape d dff (D : TransformerDecoder (Tensor elem))
    tgt memory kpm pos query_pos Nq S B :
  Forall (DecoderLayer_ok d dff) (decoder_layers D) ->
  is_Some (decoder_norm D) -> optional_norm_ok d (decoder_norm D) ->
  (return_intermediate D = true -> decoder_layers D <> []) ->
  (0 < Nq)%nat -> (0 < S)%nat -> (0 < B)%nat ->
  shape tgt = [Nq; B; d] -> shape memory = [S; B; d] ->
  padding_mask_ok B S kpm ->
  same_shape_or_none [S; B; d] pos ->
  same_shape_or_none [Nq; B; d] query_pos ->
  exists o,
    TransformerDecoder_forward D tgt memory None None None kpm pos query_pos
    = Ok o
    /\ shape o = if return_intermediate D
                 then [length (decoder_layers D); Nq; B; d]
                 else [Nq; B; d].
Proof.
  intros Hlayers [nrm Hnorm] Hnrm Hne HN HS HB Htgt Hmem Hkpm Hpos Hqp.
  rewrite Hnorm in Hnrm. simpl in Hnrm.
  unfold TransformerDecoder_forward, TransformerDecoder_collect.
  destruct (decoder_loop_shape d dff D nrm memory kpm pos query_pos Nq S B
              Hnorm Hnrm HN HS HB Hmem Hkpm Hpos Hqp _ Hlayers tgt [] Htgt)
    as (o & acc & -> & Ho & Hacc & Hlen); [done|].
  rewrite result_bind_Ok, Hnorm. cbn [fst snd].
  run (Hnrm o [Nq; B]); [done|].
  destruct (return_intermediate D) eqn:Hri.
  - destruct acc as [|u acc] using rev_ind.
    { simpl in Hlen. specialize (Hne eq_refl).
      destruct (decoder_layers D); [done|simpl in Hlen; lia]. }
    clear IHacc. rewrite list_pop_snoc, !result_bind_Ok. cbn [fst snd].
    apply Forall_app in Hacc as [Hacc _].
    destruct (torch_stack_shape (acc ++ [x]) [Nq; B; d])
      as (st & Hst & Hshape).
    { by destruct acc. }
    { apply Forall_app. split; [done|]. apply Forall_singleton. congruence. }
    exists st. split; [exact Hst|]. rewrite Hshape. f_equal.
    rewrite length_app in *. simpl in *. lia.
  - rewrite !result_bind_Ok. cbn [fst snd]. exists x. split; [done|congruence].
Qed.
End Shapes.

Section ForwardEncode.
Context {elem : Type} {scalar : Scalar elem}.

Lemma pos_and_query_branch_pass src tgt (q : Tensor elem) pos :
  pos_and_query_branch true src tgt (PyTensor q) pos
  = Ok (src, PyTensor {| shape := shape q; item := fun _ => zero |},
        PyTensor q, pos).
Proof. reflexivity. Qed.

Lemma forward_encode_pass dff (M : Transformer elem)
    B H W Nq Tx src mask query_embed pos_embed text_memory text_attention_mask :
  Transformer_ok dff M -> pass_pos_and_query M = true ->
  valid_inputs B (d_model M) H W Nq Tx src mask query_embed pos_embed
    text_memory text_attention_mask ->
  exists loc pos q tgt,
    forward_encode M (PyTensor src) (PyTensor mask) (PyTensor query_embed)
      (PyTensor pos_embed) (PyTensor text_memory)
      (PyTensor text_attention_mask) = Ok loc
    /\ shape (loc_fused_src loc) = [(H * W + Tx)%nat; B; d_model M]
    /\ shape (loc_mask loc) = [B; (H * W + Tx)%nat]
    /\ loc_pos_embed loc = PyTensor pos
    /\ shape pos = [(H * W + Tx)%nat; B; d_model M]
    /\ TransformerEncoder_forward (encoder M) (loc_fused_src loc) None
         (Some (loc_mask loc)) (Some pos) = Ok (loc_img_memory loc)
    /\ shape (loc_img_memory loc) = [(H * W + Tx)%nat; B; d_model M]
    /\ slice_from (- Z.of_nat Tx) (loc_img_memory loc)
       = Ok (loc_text_memory loc)
    /\ loc_query_embed loc = PyTensor q
    /\ shape q = [Nq; B; d_model M]
    /\ loc_tgt loc = PyTensor tgt
    /\ shape tgt = [Nq; B; d_model M].
Proof.
  intros [Hd Hel Hen Hdl Hdc Hdn Hdno] Hpass [HB HHW HNq Hsrc Hmask Hqe Hpe Htm Htam].
  unfold forward_encode. rewrite Hpass. cbn [as_tensor]. rewrite ?result_bind_Ok.
  rewrite Hsrc. cbn [unpack4]. rewrite ?result_bind_Ok.
  run (flatten2_shape src _ _ _ _ Hsrc).
  run (permute201_shape x _ _ _ Hx).
  run (flatten2_shape pos_embed _ _ _ _ Hpe).
  run (permute201_shape x1 _ _ _ Hx1).
  run (unsqueeze1_shape query_embed _ _ Hqe).
  run (repeat_batch_shape x3 _ _ B Hx3).
  run (flatten1_shape mask _ _ _ Hmask).
  rewrite pos_and_query_branch_pass, ?result_bind_Ok. cbv beta iota.
  run (cat_seq_shape x0 text_memory _ _ _ _ Hx0 Htm).
  run (cat_mask_shape x5 text_attention_mask _ _ _ Hx5 Htam).
  cbn [zeros_like]. rewrite ?result_bind_Ok.
  match goal with |- context [torch_cat [PyTensor x2; PyTensor ?z] 0] =>
    destruct (cat_seq_shape x2 z _ _ _ _ Hx2 Htm)
      as (pos & Epos & Hpos) end.
  rewrite Epos, ?result_bind_Ok.
  destruct (encoder_forward_shape (d_model M) dff (encoder M) x6 (Some x7)
              (Some pos) (H * W + Tx) B) as (img & Eimg & Himg);
    try done; try lia.
  rewrite Eimg, ?result_bind_Ok. cbn [py_len]. rewrite Htm.
  rewrite ?result_bind_Ok.
  assert (exists tm, slice_from (- Z.of_nat Tx) img = Ok tm
                     /\ exists n, shape tm = n :: [B; d_model M])
    as (tm & Etm & n & Htm').
  { destruct Tx as [|Tx].
    - destruct (slice_minus_zero img _ _ Himg) as (tm & ? & Hs & _).
      exists tm. split; [done|]. rewrite Hs, Himg. eauto.
    - destruct (slice_last_shape img _ (S Tx) _ Himg) as (tm & ? & Hs & _);
        [lia|]. eauto. }
  rewrite Etm, ?result_bind_Ok.
  erewrite assert_shape1_pass; [|done..]. rewrite ?result_bind_Ok.
  rewrite pos_and_query_branch_pass, ?result_bind_Ok. cbv beta iota.
  erewrite assert_shape1_pass; [|done..]. rewrite ?result_bind_Ok.
  eexists _, pos, x4, _. split; [reflexivity|]. simpl. split_and!; done.
Qed.
End ForwardEncode.

Lemma raises_bind {A B} (r : result A) (k : A -> result B) :
  (forall a, r = Ok a -> raises (k a)) -> raises (r ≫= k).
Proof. destruct r as [a|e]; simpl; [auto|]. intros _. by exists e. Qed.

Section ForwardShape.
Context {elem : Type} {scalar : Scalar elem}.

Lemma pos_and_query_branch_alt src tgt q pos r :
  pos_and_query_branch false src tgt q pos = Ok r ->
  exists src', r = (src', q, PyNone, PyNone).
Proof.
  unfold pos_and_query_branch.
  destruct (py_rmul (1 # 10) pos) as [scaled|]; simpl; [|done].
  destruct (py_add src scaled) as [src'|]; simpl; [|done].
  intros [= <-]. eauto.
Qed.

Lemma pos_and_query_branch_alt_ok (src : Tensor elem) tgt q pos :
  shape pos = shape src ->
  exists s, pos_and_query_branch false (PyTensor src) tgt q (PyTensor pos)
            = Ok (PyTensor s, q, PyNone, PyNone)
            /\ shape s = shape src.
Proof.
  intros Hpos. unfold pos_and_query_branch. cbn [py_rmul py_add].
  rewrite result_bind_Ok.
  destruct (tensor_add_shape src {| shape := shape pos;
              item := fun idx => fscale (1 # 10) (item pos idx) |} Hpos)
    as (s & -> & Hs).
  exists s. split; [reflexivity|done].
Qed.

Lemma forward_encode_alt_raises (M : Transformer elem)
    src mask query_embed pos_embed text_memory text_attention_mask :
  pass_pos_and_query M = false ->
  raises (forward_encode M src mask query_embed pos_embed text_memory
            text_attention_mask).
Proof.
  intros Hpass. unfold forward_encode. rewrite Hpass.
  do 12 (apply raises_bind; intros ? _).
  apply raises_bind. intros [[[src3 tgt] q3] p3] Hbranch.
  apply pos_and_query_branch_alt in Hbranch as (src' & [= -> -> -> ->]).
  do 3 (apply raises_bind; intros ? _).
  by exists TypeError.
Qed.

Lemma forward_alt_raises (M : Transformer elem)
    src mask query_embed pos_embed text_memory text_attention_mask :
  pass_pos_and_query M = false ->
  raises (Transformer_forward M src mask query_embed pos_embed text_memory
            text_attention_mask).
Proof.
  intros Hpass. unfold Transformer_forward.
  destruct (forward_encode_alt_raises M src mask query_embed pos_embed
              text_memory text_attention_mask Hpass) as [e ->].
  by exists e.
Qed.

(** C1 fails on the code: with [pass_pos_and_query = False], for every
    valid input set, [Transformer.forward] raises [TypeError] (line 185
    concatenates [pos_embed], which line 177 has set to [None]). *)
Theorem forward_alternate_mode_raises (M : Transformer elem)
    B H W Nq Tx src mask query_embed pos_embed text_memory text_attention_mask :
  pass_pos_and_query M = false ->
  valid_inputs B (d_model M) H W Nq Tx src mask query_embed pos_embed
    text_memory text_attention_mask ->
  Transformer_forward M (PyTensor src) (PyTensor mask) (PyTensor query_embed)
    (PyTensor pos_embed) (PyTensor text_memory) (PyTensor text_attention_mask)
  = Raise TypeError.
Proof.
  intros Hpass [HB HHW HNq Hsrc Hmask Hqe Hpe Htm Htam].
  unfold Transformer_forward, forward_encode. rewrite Hpass.
  cbn [as_tensor]. rewrite ?result_bind_Ok.
  rewrite Hsrc. cbn [unpack4]. rewrite ?result_bind_Ok.
  run (flatten2_shape src _ _ _ _ Hsrc).
  run (permute201_shape x _ _ _ Hx).
  run (flatten2_shape pos_embed _ _ _ _ Hpe).
  run (permute201_shape x1 _ _ _ Hx1).
  run (unsqueeze1_shape query_embed _ _ Hqe).
  run (repeat_batch_shape x3 _ _ B Hx3).
  run (flatten1_shape mask _ _ _ Hmask).
  destruct (pos_and_query_branch_alt_ok x0 PyNone (PyTensor x4) x2)
    as (x6 & -> & Hx6); [congruence|].
  rewrite result_bind_Ok. cbv beta iota.
  run (cat_seq_shape x6 text_memory _ _ _ _
         ltac:(rewrite Hx6; exact Hx0) Htm).
  run (cat_mask_shape x5 text_attention_mask _ _ _ Hx5 Htam).
  cbn [zeros_like]. rewrite ?result_bind_Ok. reflexivity.
Qed.

Lemma forward_pass_shape dff (M : Transformer elem)
    B H W Nq Tx src mask query_embed pos_embed text_memory text_attention_mask :
  Transformer_ok dff M -> pass_pos_and_query M = true ->
  (return_intermediate (decoder M) = true ->
   (0 < decoder_num_layers (decoder M))%nat) ->
  valid_inputs B (d_model M) H W Nq Tx src mask query_embed pos_embed
    text_memory text_attention_mask ->
  exists hs,
    Transformer_forward M (PyTensor src) (PyTensor mask) (PyTensor query_embed)
      (PyTensor pos_embed) (PyTensor text_memory)
      (PyTensor text_attention_mask) = Ok hs
    /\ shape hs = if return_intermediate (decoder M)
                  then [decoder_num_layers (decoder M); B; Nq; d_model M]
                  else [Nq; d_model M; B].
Proof.
  intros HM Hpass Hlayers Hvalid.
  destruct (forward_encode_pass dff M B H W Nq Tx src mask query_embed
              pos_embed text_memory text_attention_mask HM Hpass Hvalid)
    as (loc & pos & q & tgt & Eloc & Hfused & Hmask & Epos & Hpos & Eenc
        & Himg & Eslice & Eq & Hq & Etgt & Htgt).
  destruct HM as [Hd Hel Hen Hdl Hdc Hdn Hdno].
  destruct Hvalid as [HB HHW HNq _ _ _ _ _ _].
  unfold Transformer_forward. rewrite Eloc, result_bind_Ok.
  unfold forward_decode. rewrite Etgt, Epos, Eq. cbn [as_tensor as_optional].
  rewrite result_bind_Ok.
  run (decoder_forward_shape (d_model M) dff (decoder M) tgt
         (loc_img_memory loc) (Some (loc_mask loc)) (Some pos) (Some q)
         Nq (H * W + Tx) B); try done; try lia.
  { intros Hri Hnil. specialize (Hlayers Hri). rewrite <- Hdc, Hnil in Hlayers.
    simpl in Hlayers. lia. }
  destruct (return_intermediate (decoder M)).
  - destruct (transpose12_shape4 x _ _ _ _ Hx) as (hs & -> & Hhs).
    exists hs. split; [done|]. by rewrite Hhs, Hdc.
  - destruct (transpose12_shape3 x _ _ _ Hx) as (hs & -> & Hhs).
    exists hs. split; done.
Qed.
End ForwardShape.



Lemma bind_Ok_inv {A B} (r : result A) (k : A -> result B) b :
  (r ≫= k) = Ok b -> exists a, r = Ok a /\ k a = Ok b.
Proof. destruct r as [a|e]; simpl; [eauto|discriminate]. Qed.

Lemma map_result_length {A B} (f : A -> result B) l l' :
  map_result f l = Ok l' -> length l' = length l.
Proof.
  revert l'. induction l as [|a l IH]; intros l'; simpl.
  - by intros [= <-].
  - intros (b & Hb & (bs & Hbs & [= <-])%bind_Ok_inv)%bind_Ok_inv.
    simpl. f_equal. by apply IH.
Qed.

Lemma map_result_lookup {A B} (f : A -> result B) l l' i a :
  map_result f l = Ok l' -> l !! i = Some a ->
  exists b, f a = Ok b /\ l' !! i = Some b.
Proof.
  revert l' i. induction l as [|x l IH]; intros l' i; simpl; [done|].
  intros (b & Hb & (bs & Hbs & [= <-])%bind_Ok_inv)%bind_Ok_inv.
  destruct i as [|i]; simpl.
  - intros [= ->]. eauto.
  - by apply IH.
Qed.

Lemma map_result_snoc {A B} (f : A -> result B) l a l' :
  map_result f (l ++ [a]) = Ok l' ->
  exists bs b, map_result f l = Ok bs /\ f a = Ok b /\ l' = bs ++ [b].
Proof.
  revert l'. induction l as [|x l IH]; intros l'; simpl.
  - intros (b & Hb & [= <-])%bind_Ok_inv. exists [], b. done.
  - intros (b & Hb & (bs & Hbs & [= <-])%bind_Ok_inv)%bind_Ok_inv.
    destruct (IH _ Hbs) as (bs' & b' & -> & Hb' & ->).
    exists (b :: bs'), b'. rewrite Hb. done.
Qed.

Lemma last_cons_default {A} (l : list A) a d d' :
  List.last (a :: l) d = List.last (a :: l) d'.
Proof. revert a. induction l as [|b l IH]; intros a; [done|]. apply (IH b). Qed.

Section DecoderStack.
Context {T : Type} {ops : TensorOps T}.
Context (D : TransformerDecoder T) (nrm : Module1 T) (memory : T).
Context (tgt_mask memory_mask tgt_key_padding_mask memory_key_padding_mask
           pos query_pos : option T).
Hypothesis Hri : return_intermediate D = true.
Hypothesis Hnorm : decoder_norm D = Some nrm.

Lemma decoder_loop_intermediate layers : forall tgt acc outs normed,
  decoder_layer_outputs layers tgt memory tgt_mask memory_mask
    tgt_key_padding_mask memory_key_padding_mask pos query_pos = Ok outs ->
  map_result nrm outs = Ok normed ->
  for_each layers
    (decoder_step D memory tgt_mask memory_mask tgt_key_padding_mask
       memory_key_padding_mask pos query_pos) (tgt, acc)
  = Ok (List.last outs tgt, acc ++ normed).
Proof using Hri Hnorm.
  induction layers as [|L Ls IH]; intros tgt acc outs normed;
    cbn [for_each decoder_layer_outputs].
  - intros [= <-]. simpl. intros [= <-]. by rewrite app_nil_r.
  - intros (o & Ho & (os & Hos & [= <-])%bind_Ok_inv)%bind_Ok_inv.
    cbn [map_result].
    intros (n & Hn & (ns & Hns & [= <-])%bind_Ok_inv)%bind_Ok_inv.
    unfold decoder_step at 2. cbn [fst snd]. rewrite Ho, result_bind_Ok.
    rewrite Hri, Hnorm. cbn [call_norm]. rewrite Hn, !result_bind_Ok.
    rewrite (IH o (acc ++ [n]) os ns Hos Hns), <- app_assoc. simpl.
    do 2 f_equal. destruct os; [reflexivity|apply last_cons_default].
Qed.
End DecoderStack.

Lemma map_result_last {A B} (f : A -> result B) l l' a d d' :
  map_result f (a :: l) = Ok l' ->
  f (List.last (a :: l) d) = Ok (List.last l' d').
Proof.
  destruct (exists_last (l := a :: l)) as (l0 & x & E); [done|].
  rewrite E. intros (bs & b & _ & Hb & ->)%map_result_snoc.
  by rewrite !last_last.
Qed.

Section DecoderStackFinal.
Context {T : Type} {ops : TensorOps T}.

Lemma decoder_collect_intermediate (D : TransformerDecoder T) (nrm : Module1 T)
    (tgt memory : T)
    (tgt_mask memory_mask tgt_key_padding_mask memory_key_padding_mask
       pos query_pos : option T) outs normed :
  return_intermediate D = true ->
  decoder_norm D = Some nrm ->
  decoder_layers D <> [] ->
  decoder_layer_outputs (decoder_layers D) tgt memory tgt_mask memory_mask
    tgt_key_padding_mask memory_key_padding_mask pos query_pos = Ok outs ->
  map_result nrm outs = Ok normed ->
  exists final,
    nrm (List.last outs tgt) = Ok final
    /\ List.last normed tgt = final
    /\ TransformerDecoder_collect D tgt memory tgt_mask memory_mask
         tgt_key_padding_mask memory_key_padding_mask pos query_pos
       = Ok (final, normed).
Proof.
  intros Hri Hnorm Hne Houts Hnormed.
  assert (exists o os, outs = o :: os) as (o & os & ->).
  { destruct (decoder_layers D) as [|L Ls]; [done|].
    cbn [decoder_layer_outputs] in Houts.
    apply bind_Ok_inv in Houts as (o & _ & (os & _ & [= <-])%bind_Ok_inv).
    eauto. }
  pose proof (map_result_last nrm os normed o tgt tgt Hnormed) as Hlast.
  exists (List.last normed tgt). split_and!; [done..|].
  unfold TransformerDecoder_collect.
  rewrite (decoder_loop_intermediate D nrm memory tgt_mask memory_mask
             tgt_key_padding_mask memory_key_padding_mask pos query_pos
             Hri Hnorm _ tgt [] _ _ Houts Hnormed).
  rewrite result_bind_Ok, Hnorm. cbn [fst snd]. rewrite Hlast, result_bind_Ok.
  rewrite Hri. rewrite app_nil_l.
  apply map_result_length in Hnormed as Hlen.
  destruct (exists_last (l := normed)) as (l0 & x & E).
  { destruct normed; [done|done]. }
  rewrite E, list_pop_snoc, result_bind_Ok, last_last. reflexivity.
Qed.
End DecoderStackFinal.

Lemma decoder_layer_outputs_length `{TensorOps T}
    (layers : list (TransformerDecoderLayer T)) :
  forall (tgt memory : T) m1 m2 m3 m4 pos qp outs,
  decoder_layer_outputs layers tgt memory m1 m2 m3 m4 pos qp = Ok outs ->
  length outs = length layers.
Proof.
  induction layers as [|L Ls IH]; intros tgt memory m1 m2 m3 m4 pos qp outs;
    cbn [decoder_layer_outputs].
  - by intros [= <-].
  - intros (o & _ & (os & Hos & [= <-])%bind_Ok_inv)%bind_Ok_inv.
    simpl. f_equal. by eapply IH.
Qed.

(** C8: with intermediate capture enabled and a final normalization
    module, the decoder stacks exactly [num_layers] entries: entry [i] is
    the normalized output of layer [i], and the last entry is the final
    normalized output of the last layer, which replaces the entry captured
    in the loop and is not appended a second time. *)
Theorem TransformerDecoder_intermediate_stack {T} {ops : TensorOps T}
    (D : TransformerDecoder T) (nrm : Module1 T) (tgt memory : T)
    (tgt_mask memory_mask tgt_key_padding_mask memory_key_padding_mask
       pos query_pos : option T) (outs normed : list T) :
  return_intermediate D = true ->
  decoder_norm D = Some nrm ->
  length (decoder_layers D) = decoder_num_layers D ->
  (0 < decoder_num_layers D)%nat ->
  decoder_layer_outputs (decoder_layers D) tgt memory tgt_mask memory_mask
    tgt_key_padding_mask memory_key_padding_mask pos query_pos = Ok outs ->
  map_result nrm outs = Ok normed ->
  TransformerDecoder_forward D tgt memory tgt_mask memory_mask
    tgt_key_padding_mask memory_key_padding_mask pos query_pos
  = t_stack normed
  /\ length normed = decoder_num_layers D
  /\ (forall i o, outs !! i = Some o ->
        exists n, nrm o = Ok n /\ normed !! i = Some n)
  /\ exists final,
       nrm (List.last outs tgt) = Ok final
       /\ List.last normed tgt = final
       /\ TransformerDecoder_collect D tgt memory tgt_mask memory_mask
            tgt_key_padding_mask memory_key_padding_mask pos query_pos
          = Ok (final, normed).
Proof.
  intros Hri Hnorm Hcount Hpos Houts Hnormed.
  assert (Hne : decoder_layers D <> []).
  { intros E. rewrite E in Hcount. simpl in Hcount. lia. }
  destruct (decoder_collect_intermediate D nrm tgt memory tgt_mask memory_mask
              tgt_key_padding_mask memory_key_padding_mask pos query_pos
              outs normed Hri Hnorm Hne Houts Hnormed)
    as (final & Hfinal & Hlast & Hcollect).
  split_and!.
  - unfold TransformerDecoder_forward.
    by rewrite Hcollect, result_bind_Ok, Hri.
  - rewrite (map_result_length _ _ _ Hnormed).
    by rewrite (decoder_layer_outputs_length _ _ _ _ _ _ _ _ _ _ Houts).
  - intros i o Ho. by eapply map_result_lookup.
  - by exists final.
Qed.

Section DecoderLayerOrdering.
Context (d_model nhead dim_feedforward : nat) (dropout : Q).
Context (activation : Module1 term).
Context (tgt memory : term).
Context (tgt_mask memory_mask tgt_key_padding_mask memory_key_padding_mask
           pos query_pos : option term).

Lemma decoder_layer_output_form out :
  TransformerDecoderLayer_forward
    (TransformerDecoderLayer_init d_model nhead dim_feedforward dropout
       activation)
    tgt memory tgt_mask memory_mask tgt_key_padding_mask
    memory_key_padding_mask pos query_pos = Ok out ->
  exists x3 f3 x2 f2 f1,
    out = TLayerNorm d_model (TAdd x3 f3)
    /\ x3 = TLayerNorm d_model (TAdd x2 f2)
    /\ x2 = TLayerNorm d_model (TAdd tgt f1).
Proof.
  unfold TransformerDecoderLayer_forward. simpl.
  destruct query_pos as [qp|], pos as [p|]; simpl;
    (destruct (activation _) as [a|e]; simpl; [|discriminate]);
    intros [= <-]; by eexists _, _, _, _, _.
Qed.
End DecoderLayerOrdering.

(** C3, as amended: [TransformerDecoderLayer] takes no ordering option:
    for every constructor configuration its three sub-blocks are
    post-norm, each one computing [norm (x + f x)], and none is pre-norm. *)
Theorem decoder_layer_is_post_norm_only
    (d_model nhead dim_feedforward : nat) (dropout : Q)
    (activation : Module1 term) (tgt memory : term)
    (tgt_mask memory_mask tgt_key_padding_mask memory_key_padding_mask
       pos query_pos : option term) :
  (forall x, is_ok (activation x) = true) ->
  exists out,
    TransformerDecoderLayer_forward
      (TransformerDecoderLayer_init d_model nhead dim_feedforward dropout
         activation)
      tgt memory tgt_mask memory_mask tgt_key_padding_mask
      memory_key_padding_mask pos query_pos = Ok out
    /\ is_post_norm 3 tgt out = true
    /\ is_pre_norm 3 tgt out = false.
Proof.
  intros Hact.
  destruct (TransformerDecoderLayer_forward _ tgt memory tgt_mask memory_mask
              tgt_key_padding_mask memory_key_padding_mask pos query_pos)
    as [out|e] eqn:E.
  - exists out. split; [done|].
    apply decoder_layer_output_form in E
      as (x3 & f3 & x2 & f2 & f1 & -> & -> & ->).
    split; [by apply bool_decide_eq_true|by apply bool_decide_eq_false].
  - exfalso. revert E.
    unfold TransformerDecoderLayer_forward. simpl.
    destruct query_pos, pos; simpl;
      match goal with |- context [activation ?x] =>
        specialize (Hact x); destruct (activation x) end; simpl; done.
Qed.

(** C3 fails as stated: no constructor configuration of
    [TransformerDecoderLayer] gives a pre-norm layer. *)
Lemma decoder_layer_never_pre_norm :
  ~ exists (d_model nhead dim_feedforward : nat) (dropout : Q)
      (activation : Module1 term) (tgt memory : term)
      (tgt_mask memory_mask tgt_key_padding_mask memory_key_padding_mask
         pos query_pos : option term) (out : term),
      TransformerDecoderLayer_forward
        (TransformerDecoderLayer_init d_model nhead dim_feedforward dropout
           activation)
        tgt memory tgt_mask memory_mask tgt_key_padding_mask
        memory_key_padding_mask pos query_pos = Ok out
      /\ is_pre_norm 3 tgt out = true.
Proof.
  intros (d & h & dff & p & act & tgt & mem & m1 & m2 & m3 & m4 & pos & qp
          & out & E & Hpre).
  apply decoder_layer_output_form in E
    as (x3 & f3 & x2 & f2 & f1 & -> & -> & ->).
  by apply bool_decide_eq_true in Hpre.
Qed.

Example encoder_layer_has_both_orderings :
  let forward normalize_before :=
    TransformerEncoderLayer_forward
      (TransformerEncoderLayer_init 256 8 2048 (1 # 10) relu normalize_before)
      (TVar "src") None (Some (TVar "mask")) (Some (TVar "pos")) in
  (exists out, forward true = Ok out
     /\ is_pre_norm 2 (TVar "src") out = true
     /\ is_post_norm 2 (TVar "src") out = false)
  /\ (exists out, forward false = Ok out
     /\ is_post_norm 2 (TVar "src") out = true
     /\ is_pre_norm 2 (TVar "src") out = false).
Proof.
  split; eexists; (split; [reflexivity|]); split; vm_compute; reflexivity.
Qed.

Section ForwardMemory.
Context {elem : Type} {scalar : Scalar elem}.

Lemma slice_from_tail (t o : Tensor elem) z n rest :
  shape t = n :: rest -> slice_from z t = Ok o ->
  exists m, shape o = m :: rest.
Proof.
  intros Ht. unfold slice_from. rewrite Ht. intros [= <-]. simpl. eauto.
Qed.

Lemma assert_shape1_spec (a b c : Tensor elem) x y z :
  shape_at a 1 = Ok x -> shape_at b 1 = Ok y -> shape_at c 1 = Ok z ->
  assert_shape1 a b (PyTensor c)
  = if (x =? y)%nat && (y =? z)%nat then Ok tt else Raise AssertionError.
Proof.
  intros Ha Hb Hc. unfold assert_shape1. rewrite Ha, Hb. simpl.
  destruct (x =? y)%nat; [|done]. simpl. rewrite Hc. simpl.
  by destruct (y =? z)%nat.
Qed.

(** With a non-empty text memory: the fused sequence has length
    [H * W + Tx], the encoder keeps it, the refined text memory is the
    last [Tx] positions of the encoder output, and the decoder receives
    the whole encoder output as its memory. *)
Lemma forward_fused_memory dff (M : Transformer elem)
    B H W Nq Tx src mask query_embed pos_embed text_memory text_attention_mask :
  Transformer_ok dff M -> pass_pos_and_query M = true ->
  valid_inputs B (d_model M) H W Nq Tx src mask query_embed pos_embed
    text_memory text_attention_mask ->
  (0 < Tx)%nat ->
  exists loc pos q tgt,
    forward_encode M (PyTensor src) (PyTensor mask) (PyTensor query_embed)
      (PyTensor pos_embed) (PyTensor text_memory)
      (PyTensor text_attention_mask) = Ok loc
    /\ shape (loc_fused_src loc) = [(H * W + Tx)%nat; B; d_model M]
    /\ TransformerEncoder_forward (encoder M) (loc_fused_src loc) None
         (Some (loc_mask loc)) (Some pos) = Ok (loc_img_memory loc)
    /\ shape (loc_img_memory loc) = [(H * W + Tx)%nat; B; d_model M]
    /\ shape (loc_text_memory loc) = [Tx; B; d_model M]
    /\ (forall i idx,
          item (loc_text_memory loc) (i :: idx)
          = item (loc_img_memory loc) ((H * W + i)%nat :: idx))
    /\ Transformer_forward M (PyTensor src) (PyTensor mask)
         (PyTensor query_embed) (PyTensor pos_embed) (PyTensor text_memory)
         (PyTensor text_attention_mask)
       = (hs ← TransformerDecoder_forward (decoder M) tgt (loc_img_memory loc)
                 None None None (Some (loc_mask loc)) (Some pos) (Some q);
          transpose 1 2 hs).
Proof.
  intros HM Hpass Hvalid HTx.
  destruct (forward_encode_pass dff M B H W Nq Tx src mask query_embed
              pos_embed text_memory text_attention_mask HM Hpass Hvalid)
    as (loc & pos & q & tgt & Eloc & Hfused & Hmask & Epos & Hpos & Eenc
        & Himg & Eslice & Eq & Hq & Etgt & Htgt).
  destruct (slice_last_shape (loc_img_memory loc) _ Tx _ Himg)
    as (tm & Etm & Htm & Hitem); [lia|].
  rewrite Etm in Eslice. injection Eslice as ->.
  exists loc, pos, q, tgt. split_and!; try done.
  - intros i idx. rewrite Hitem. do 2 f_equal. lia.
  - unfold Transformer_forward. rewrite Eloc, result_bind_Ok.
    unfold forward_decode. by rewrite Etgt, Epos, Eq.
Qed.

(** C7 at an empty text memory ([Tx = 0]): [img_memory[-0:]] is the whole
    encoder output, so the refined text memory has [H * W] positions, not
    the last [0]. *)
Theorem forward_empty_text_memory dff (M : Transformer elem)
    B H W Nq src mask query_embed pos_embed text_memory text_attention_mask :
  Transformer_ok dff M -> pass_pos_and_query M = true ->
  valid_inputs B (d_model M) H W Nq 0 src mask query_embed pos_embed
    text_memory text_attention_mask ->
  exists loc,
    forward_encode M (PyTensor src) (PyTensor mask) (PyTensor query_embed)
      (PyTensor pos_embed) (PyTensor text_memory)
      (PyTensor text_attention_mask) = Ok loc
    /\ shape text_memory = [0%nat; B; d_model M]
    /\ shape (loc_img_memory loc) = [(H * W)%nat; B; d_model M]
    /\ shape (loc_text_memory loc) = [(H * W)%nat; B; d_model M]
    /\ (0 < H * W)%nat
    /\ forall i idx,
         item (loc_text_memory loc) (i :: idx)
         = item (loc_img_memory loc) (i :: idx).
Proof.
  intros HM Hpass Hvalid.
  destruct (forward_encode_pass dff M B H W Nq 0 src mask query_embed
              pos_embed text_memory text_attention_mask HM Hpass Hvalid)
    as (loc & pos & q & tgt & Eloc & Hfused & Hmask & Epos & Hpos & Eenc
        & Himg & Eslice & Eq & Hq & Etgt & Htgt).
  rewrite Nat.add_0_r in Himg.
  destruct (slice_minus_zero (loc_img_memory loc) _ _ Himg)
    as (tm & Etm & Htm & Hitem).
  rewrite Etm in Eslice. injection Eslice as ->.
  destruct Hvalid. exists loc. split_and!; try done. congruence.
Qed.

(** A query table of rank 1 with [n] entries becomes a decoder target
    [1; n * B; 1].  Lines 163-204 then end in the assertion of line 190,
    which fails unless [n * B = B]; when it holds, the second assertion
    holds too and the local variables are returned. *)
Lemma forward_encode_flat_query dff (M : Transformer elem) (B H W n Tx : nat)
    (src mask query_embed pos_embed text_memory text_attention_mask
       : Tensor elem) :
  Transformer_ok dff M -> pass_pos_and_query M = true ->
  (0 < B)%nat -> (0 < H * W)%nat ->
  shape src = [B; d_model M; H; W] -> shape mask = [B; H; W] ->
  shape query_embed = [n] ->
  shape pos_embed = [B; d_model M; H; W] ->
  shape text_memory = [Tx; B; d_model M] ->
  shape text_attention_mask = [B; Tx] ->
  match forward_encode M (PyTensor src) (PyTensor mask) (PyTensor query_embed)
          (PyTensor pos_embed) (PyTensor text_memory)
          (PyTensor text_attention_mask) with
  | Ok loc =>
      n = 1%nat
      /\ shape (loc_img_memory loc) = [(H * W + Tx)%nat; B; d_model M]
      /\ exists tgt, loc_tgt loc = PyTensor tgt /\ shape tgt = [1%nat; B; 1%nat]
  | Raise e => n <> 1%nat /\ e = AssertionError
  end.
Proof.
  intros [Hd Hel Hen Hdl Hdc Hdn Hdno] Hpass HB HHW Hsrc Hmask Hqe Hpe
    Htm Htam.
  unfold forward_encode. rewrite Hpass.
  cbn [as_tensor]. rewrite ?result_bind_Ok.
  rewrite Hsrc. cbn [unpack4]. rewrite ?result_bind_Ok.
  run (flatten2_shape src _ _ _ _ Hsrc).
  run (permute201_shape x _ _ _ Hx).
  run (flatten2_shape pos_embed _ _ _ _ Hpe).
  run (permute201_shape x1 _ _ _ Hx1).
  assert (exists qe, (qe1 ← unsqueeze 1 query_embed; repeat [1; B; 1]%nat qe1)
                     = Ok qe /\ shape qe = [1; (n * B)%nat; 1]%nat)
    as (qe & Eqe & Hqe').
  { unfold unsqueeze, ndim. rewrite Hqe. simpl. unfold repeat, ndim. simpl.
    eexists; split; reflexivity. }
  destruct (unsqueeze 1 query_embed) as [qe1|]; [|done].
  change (repeat [1; B; 1]%nat qe1 = Ok qe) in Eqe.
  rewrite result_bind_Ok, Eqe, !result_bind_Ok. cbv beta.
  run (flatten1_shape mask _ _ _ Hmask).
  rewrite pos_and_query_branch_pass, ?result_bind_Ok. cbv beta iota.
  run (cat_seq_shape x0 text_memory _ _ _ _ Hx0 Htm).
  run (cat_mask_shape x3 text_attention_mask _ _ _ Hx3 Htam).
  cbn [zeros_like]. rewrite ?result_bind_Ok.
  match goal with |- context [torch_cat [PyTensor x2; PyTensor ?z] 0] =>
    destruct (cat_seq_shape x2 z _ _ _ _ Hx2 Htm)
      as (pos & Epos & Hpos) end.
  rewrite Epos, ?result_bind_Ok.
  destruct (encoder_forward_shape (d_model M) dff (encoder M) x4 (Some x5)
              (Some pos) (H * W + Tx) B) as (img & Eimg & Himg);
    try done; try lia.
  rewrite Eimg, ?result_bind_Ok. cbn [py_len]. rewrite Htm.
  rewrite ?result_bind_Ok.
  destruct (slice_from (- Z.of_nat Tx) img) as [tm|] eqn:Etm.
  2:{ unfold slice_from in Etm. by rewrite Himg in Etm. }
  destruct (slice_from_tail _ _ _ _ _ Himg Etm) as (m & Htm').
  rewrite result_bind_Ok.
  rewrite (assert_shape1_spec img tm _ B B (n * B)%nat);
    [|unfold shape_at; simpl; by rewrite ?Himg, ?Htm', ?Hqe'..].
  rewrite Nat.eqb_refl. cbn [andb].
  destruct (Nat.eqb_spec B (n * B)) as [E|E].
  - assert (n = 1%nat) as -> by nia.
    rewrite result_bind_Ok.
    rewrite pos_and_query_branch_pass, ?result_bind_Ok. cbv beta iota.
    rewrite (assert_shape1_spec img tm _ B B (1 * B)%nat);
      [|unfold shape_at; simpl; by rewrite ?Himg, ?Htm', ?Hqe'..].
    rewrite Nat.eqb_refl. cbn [andb].
    destruct (Nat.eqb_spec B (1 * B)) as [_|?]; [|lia].
    rewrite result_bind_Ok. cbn [loc_img_memory loc_tgt].
    split_and!; [done..|]. eexists. split; [reflexivity|].
    cbn [shape]. rewrite Hqe'. do 2 f_equal. lia.
  - cbn. split; [|done]. intros ->. lia.
Qed.

(** C4, as amended: the two assertions of [Transformer.forward] compare
    axis 1, the batch axis, of the encoder output, of the refined text
    memory and of the decoder target, and [forward] raises
    [AssertionError] when these differ: a query table of rank 1 with [n]
    entries gives a target [1; n * B; 1], and the call fails at the
    assertion unless [n = 1].  The sequence lengths are not compared: with
    [n = 1] the target [1; B; 1] passes both assertions next to a memory
    [H * W + Tx; B; d_model], and for all valid inputs, whatever
    [H * W + Tx] and [Nq] are, the assertions pass and the decoder states
    are returned. *)
Theorem forward_asserts_batch_axis_only :
  (forall (a b c : Tensor elem) x y z,
     shape_at a 1 = Ok x -> shape_at b 1 = Ok y -> shape_at c 1 = Ok z ->
     assert_shape1 a b (PyTensor c)
     = if (x =? y)%nat && (y =? z)%nat then Ok tt else Raise AssertionError)
  /\ (forall dff (M : Transformer elem) B H W Nq Tx
        src mask query_embed pos_embed text_memory text_attention_mask,
      Transformer_ok dff M -> pass_pos_and_query M = true ->
      (return_intermediate (decoder M) = true ->
       (0 < decoder_num_layers (decoder M))%nat) ->
      valid_inputs B (d_model M) H W Nq Tx src mask query_embed pos_embed
        text_memory text_attention_mask ->
      exists loc tgt hs,
        forward_encode M (PyTensor src) (PyTensor mask) (PyTensor query_embed)
          (PyTensor pos_embed) (PyTensor text_memory)
          (PyTensor text_attention_mask) = Ok loc
        /\ loc_tgt loc = PyTensor tgt
        /\ shape_at (loc_img_memory loc) 0 = Ok (H * W + Tx)%nat
        /\ shape_at tgt 0 = Ok Nq
        /\ shape_at (loc_img_memory loc) 1 = Ok B
        /\ shape_at (loc_text_memory loc) 1 = Ok B
        /\ shape_at tgt 1 = Ok B
        /\ Transformer_forward M (PyTensor src) (PyTensor mask)
             (PyTensor query_embed) (PyTensor pos_embed)
             (PyTensor text_memory) (PyTensor text_attention_mask) = Ok hs)
  /\ (forall dff (M : Transformer elem) B H W n Tx
        src mask query_embed pos_embed text_memory text_attention_mask,
      Transformer_ok dff M -> pass_pos_and_query M = true ->
      (0 < B)%nat -> (0 < H * W)%nat ->
      shape src = [B; d_model M; H; W] -> shape mask = [B; H; W] ->
      shape query_embed = [n] ->
      shape pos_embed = [B; d_model M; H; W] ->
      shape text_memory = [Tx; B; d_model M] ->
      shape text_attention_mask = [B; Tx] ->
      (n <> 1%nat ->
       Transformer_forward M (PyTensor src) (PyTensor mask)
         (PyTensor query_embed) (PyTensor pos_embed) (PyTensor text_memory)
         (PyTensor text_attention_mask) = Raise AssertionError)
      /\ (n = 1%nat ->
          exists loc tgt,
            forward_encode M (PyTensor src) (PyTensor mask)
              (PyTensor query_embed) (PyTensor pos_embed)
              (PyTensor text_memory) (PyTensor text_attention_mask) = Ok loc
            /\ loc_tgt loc = PyTensor tgt
            /\ shape tgt = [1%nat; B; 1%nat]
            /\ shape (loc_img_memory loc)
               = [(H * W + Tx)%nat; B; d_model M])).
Proof.
  split; [apply assert_shape1_spec|]. split.
  2:{ intros dff M B H W n Tx src mask query_embed pos_embed text_memory
        text_attention_mask HM Hpass HB HHW Hsrc Hmask Hqe Hpe Htm Htam.
      pose proof (forward_encode_flat_query dff M B H W n Tx src mask
                    query_embed pos_embed text_memory text_attention_mask
                    HM Hpass HB HHW Hsrc Hmask Hqe Hpe Htm Htam) as Hflat.
      unfold Transformer_forward.
      destruct (forward_encode M (PyTensor src) (PyTensor mask)
                  (PyTensor query_embed) (PyTensor pos_embed)
                  (PyTensor text_memory) (PyTensor text_attention_mask))
        as [loc|e].
      - destruct Hflat as (Hn & Himg & tgt & Etgt & Htgt).
        split; [done|]. intros _. by exists loc, tgt.
      - destruct Hflat as [Hn ->]. split; done. }
  intros dff M B H W Nq Tx src mask query_embed pos_embed text_memory
    text_attention_mask HM Hpass Hlayers Hvalid.
  destruct (forward_encode_pass dff M B H W Nq Tx src mask query_embed
              pos_embed text_memory text_attention_mask HM Hpass Hvalid)
    as (loc & pos & q & tgt & Eloc & Hfused & Hmask & Epos & Hpos & Eenc
        & Himg & Eslice & Eq & Hq & Etgt & Htgt).
  destruct (forward_pass_shape dff M B H W Nq Tx src mask query_embed
              pos_embed text_memory text_attention_mask HM Hpass Hlayers
              Hvalid) as (hs & Ehs & _).
  destruct (slice_from_tail _ _ _ _ _ Himg Eslice) as (m & Htm).
  exists loc, tgt, hs. unfold shape_at. rewrite Himg, Htm, Htgt. done.
Qed.
End ForwardMemory.

Lemma last_axis_is_snoc lead d : last_axis_is d (lead ++ [d]) = true.
Proof. unfold last_axis_is. rewrite rev_unit. apply Nat.eqb_refl. Qed.

Lemma toy_nn_ok : TorchNN_ok toy_nn.
Proof.
  split.
  - intros E h p q k v kpm L S B _ _ _ Hq Hk Hv Hkpm. simpl.
    unfold toy_attention. rewrite Hq, Hk.
    rewrite bool_decide_eq_true_2; [eauto|].
    split_and!; try done; try congruence.
    destruct kpm as [m|]; simpl in *; [rewrite Hkpm|]; repeat constructor.
  - intros n m t lead Ht. simpl. unfold toy_linear.
    rewrite Ht, last_axis_is_snoc, removelast_last. eauto.
  - intros d t lead Ht. simpl. unfold toy_norm.
    rewrite Ht, last_axis_is_snoc. exists t. by rewrite Ht.
  - intros p t. simpl. eauto.
Qed.

Lemma toy_activation_ok : shape_preserving toy_activation.
Proof. intros t. exists t. done. Qed.

Lemma Transformer_init_ok {elem} (nn : TorchNN (Tensor elem))
    (d_model nhead num_encoder_layers num_decoder_layers dim_feedforward : nat)
    (dropout : Q) (activation : Module1 (Tensor elem))
    (normalize_before return_intermediate_dec pass_pos_and_query : bool) :
  TorchNN_ok nn -> shape_preserving activation -> (0 < d_model)%nat ->
  Transformer_ok dim_feedforward
    (Transformer_init d_model nhead num_encoder_layers num_decoder_layers
       dim_feedforward dropout activation normalize_before
       return_intermediate_dec pass_pos_and_query).
Proof.
  intros [Hattn Hlin Hnorm Hdrop] Hact Hd. split; simpl; try done;
    try (apply Forall_replicate; split; simpl; auto);
    try (destruct normalize_before; simpl; auto);
    try apply length_replicate; auto.
Qed.

Lemma toy_transformer_ok ri pass : Transformer_ok 4 (toy_transformer ri pass).
Proof.
  apply Transformer_init_ok; [apply toy_nn_ok|apply toy_activation_ok|lia].
Qed.

Lemma toy_valid_inputs Tx :
  valid_inputs 1 2 2 2 3 Tx toy_src toy_mask toy_query_embed toy_pos_embed
    (toy_text_memory Tx) (toy_text_attention_mask Tx).
Proof. split; simpl; (reflexivity || lia). Qed.

Lemma forward_alternate_mode_raises_witness :
  toy_forward true false 3 = Raise TypeError.
Proof.
  apply (forward_alternate_mode_raises (toy_transformer true false)
           1 2 2 3 3 toy_src toy_mask toy_query_embed toy_pos_embed
           (toy_text_memory 3) (toy_text_attention_mask 3)).
  - reflexivity.
  - apply toy_valid_inputs.
Defined.

(** C2 fails on the code when intermediate collection is disabled: the
    decoder returns the last layer's output [Nq; B; d_model] without a
    leading axis, and the final transposition makes it
    [Nq; d_model; B], not [1; B; Nq; d_model]. *)
Theorem forward_without_intermediate_shape {elem} {scalar : Scalar elem}
    dff (M : Transformer elem)
    B H W Nq Tx src mask query_embed pos_embed text_memory text_attention_mask :
  Transformer_ok dff M -> pass_pos_and_query M = true ->
  return_intermediate (decoder M) = false ->
  valid_inputs B (d_model M) H W Nq Tx src mask query_embed pos_embed
    text_memory text_attention_mask ->
  exists hs,
    Transformer_forward M (PyTensor src) (PyTensor mask) (PyTensor query_embed)
      (PyTensor pos_embed) (PyTensor text_memory)
      (PyTensor text_attention_mask) = Ok hs
    /\ shape hs = [Nq; d_model M; B]
    /\ shape hs <> [1%nat; B; Nq; d_model M].
Proof.
  intros HM Hpass Hri Hvalid.
  destruct (forward_pass_shape dff M B H W Nq Tx src mask query_embed
              pos_embed text_memory text_attention_mask HM Hpass)
    as (hs & Ehs & Hhs); [by rewrite Hri|done|].
  rewrite Hri in Hhs. exists hs. split_and!; [done..|]. by rewrite Hhs.
Qed.

Lemma forward_without_intermediate_shape_witness :
  exists hs, toy_forward false true 3 = Ok hs
    /\ shape hs = [3; 2; 1]%nat /\ shape hs <> [1; 1; 3; 2]%nat.
Proof.
  apply (forward_without_intermediate_shape 4 (toy_transformer false true)
           1 2 2 3 3 toy_src toy_mask toy_query_embed toy_pos_embed
           (toy_text_memory 3) (toy_text_attention_mask 3)).
  - apply toy_transformer_ok.
  - reflexivity.
  - reflexivity.
  - apply toy_valid_inputs.
Defined.

(** With intermediate collection enabled the result has shape
    [num_decoder_layers; B; Nq; d_model]. *)
Lemma forward_with_intermediate_shape {elem} {scalar : Scalar elem}
    dff (M : Transformer elem)
    B H W Nq Tx src mask query_embed pos_embed text_memory text_attention_mask :
  Transformer_ok dff M -> pass_pos_and_query M = true ->
  return_intermediate (decoder M) = true ->
  (0 < decoder_num_layers (decoder M))%nat ->
  valid_inputs B (d_model M) H W Nq Tx src mask query_embed pos_embed
    text_memory text_attention_mask ->
  exists hs,
    Transformer_forward M (PyTensor src) (PyTensor mask) (PyTensor query_embed)
      (PyTensor pos_embed) (PyTensor text_memory)
      (PyTensor text_attention_mask) = Ok hs
    /\ shape hs = [decoder_num_layers (decoder M); B; Nq; d_model M].
Proof.
  intros HM Hpass Hri Hn Hvalid.
  destruct (forward_pass_shape dff M B H W Nq Tx src mask query_embed
              pos_embed text_memory text_attention_mask HM Hpass)
    as (hs & Ehs & Hhs); [done..|].
  rewrite Hri in Hhs. eauto.
Qed.

(** C4 fails as stated: the fused memory has 7 positions and the decoder
    target 3, and [Transformer.forward] returns the decoder states. *)
Lemma length_mismatch_raises_no_assertion :
  result_map (fun loc => (shape (loc_img_memory loc), py_shape (loc_tgt loc)))
    (toy_forward_encode true 3)
  = Ok ([7; 1; 2], [3; 1; 2])%nat
  /\ result_map shape (toy_forward true true 3) = Ok [2; 1; 3; 2]%nat.
Proof. split; vm_compute; reflexivity. Qed.


(** ** Instances of the theorems above *)

Lemma decoder_layer_is_post_norm_only_witness :
  exists out,
    TransformerDecoderLayer_forward
      (TransformerDecoderLayer_init 256 8 2048 (1 # 10) relu)
      (TVar "tgt") (TVar "memory") None None None (Some (TVar "mask"))
      (Some (TVar "pos")) (Some (TVar "query_pos")) = Ok out
    /\ is_post_norm 3 (TVar "tgt") out = true
    /\ is_pre_norm 3 (TVar "tgt") out = false.
Proof.
  apply (decoder_layer_is_post_norm_only 256 8 2048 (1 # 10) relu
           (TVar "tgt") (TVar "memory") None None None (Some (TVar "mask"))
           (Some (TVar "pos")) (Some (TVar "query_pos"))).
  intros x. reflexivity.
Defined.

Lemma TransformerDecoder_intermediate_stack_witness :
  TransformerDecoder_forward symbolic_decoder (TVar "tgt") (TVar "memory")
    None None None (Some (TVar "mask")) (Some (TVar "pos"))
    (Some (TVar "query_pos"))
  = t_stack symbolic_normalized
  /\ length symbolic_normalized = 2%nat.
Proof.
  destruct (TransformerDecoder_intermediate_stack symbolic_decoder
              (LayerNorm 256) (TVar "tgt") (TVar "memory") None None None
              (Some (TVar "mask")) (Some (TVar "pos"))
              (Some (TVar "query_pos")) symbolic_outputs symbolic_normalized)
    as (Hstack & Hlen & _).
  - reflexivity.
  - reflexivity.
  - reflexivity.
  - simpl. lia.
  - vm_compute. reflexivity.
  - vm_compute. reflexivity.
  - split; assumption.
Defined.

Lemma forward_asserts_batch_axis_only_witness :
  (exists loc tgt hs,
     toy_forward_encode true 3 = Ok loc
     /\ loc_tgt loc = PyTensor tgt
     /\ shape_at (loc_img_memory loc) 0 = Ok 7%nat
     /\ shape_at tgt 0 = Ok 3%nat
     /\ shape_at (loc_img_memory loc) 1 = Ok 1%nat
     /\ shape_at (loc_text_memory loc) 1 = Ok 1%nat
     /\ shape_at tgt 1 = Ok 1%nat
     /\ toy_forward true true 3 = Ok hs)
  /\ Transformer_forward (toy_transformer true true) (PyTensor toy_src)
       (PyTensor toy_mask) (PyTensor (ramp [2%nat])) (PyTensor toy_pos_embed)
       (PyTensor (toy_text_memory 3)) (PyTensor (toy_text_attention_mask 3))
     = Raise AssertionError.
Proof.
  destruct (forward_asserts_batch_axis_only (elem := Q))
    as (_ & Hpass & Hfail).
  split.
  - apply (Hpass 4 (toy_transformer true true) 1 2 2 3 3 toy_src toy_mask
             toy_query_embed toy_pos_embed (toy_text_memory 3)
             (toy_text_attention_mask 3))%nat.
    + apply toy_transformer_ok.
    + reflexivity.
    + intros _. simpl. lia.
    + apply toy_valid_inputs.
  - apply (Hfail 4 (toy_transformer true true) 1 2 2 2 3 toy_src toy_mask
             (ramp [2%nat]) toy_pos_embed (toy_text_memory 3)
             (toy_text_attention_mask 3))%nat;
      try reflexivity; try (simpl; lia).
    apply toy_transformer_ok.
Defined.

Lemma forward_empty_text_memory_witness :
  exists loc,
    toy_forward_encode true 0 = Ok loc
    /\ shape (toy_text_memory 0) = [0; 1; 2]%nat
    /\ shape (loc_img_memory loc) = [4; 1; 2]%nat
    /\ shape (loc_text_memory loc) = [4; 1; 2]%nat
    /\ (0 < 4)%nat
    /\ forall i idx,
         item (loc_text_memory loc) (i :: idx)
         = item (loc_img_memory loc) (i :: idx).
Proof.
  apply (forward_empty_text_memory 4 (toy_transformer true true) 1 2 2 3
           toy_src toy_mask toy_query_embed toy_pos_embed (toy_text_memory 0)
           (toy_text_attention_mask 0))%nat.
  - apply toy_transformer_ok.
  - reflexivity.
  - apply toy_valid_inputs.
Defined.


(** ** FeatureResizer and MLP *)

Lemma FeatureResizer_shape {elem} (R : FeatureResizer (Tensor elem)) n m
    (x : Tensor elem) lead :
  linear_ok n m (fr_fc R) -> norm_ok m (fr_layer_norm R) ->
  shape_preserving (fr_dropout R) ->
  shape x = lead ++ [n] ->
  exists o, FeatureResizer_forward R x = Ok o /\ shape o = lead ++ [m].
Proof.
  intros Hlin Hnorm Hdrop Hx. unfold FeatureResizer_forward.
  run (Hlin x lead Hx).
  destruct (do_ln R).
  - run (Hnorm x0 lead Hx0).
    destruct (Hdrop x1) as (o & -> & Ho). exists o. split; [done|congruence].
  - rewrite result_bind_Ok.
    destruct (Hdrop x0) as (o & -> & Ho). exists o. split; [done|congruence].
Qed.

(** X9: a [FeatureResizer] maps the last axis of its input from
    [input_feat_size] to [output_feat_size] and keeps the other axes,
    with the normalization ([do_ln]) or without it. *)
Theorem FeatureResizer_forward_shape {elem} (nn : TorchNN (Tensor elem))
    (input_feat_size output_feat_size : nat) (dropout : Q) (ln : bool)
    (x : Tensor elem) (lead : list nat) :
  TorchNN_ok nn ->
  shape x = lead ++ [input_feat_size] ->
  exists o,
    FeatureResizer_forward
      (FeatureResizer_init input_feat_size output_feat_size dropout ln) x
    = Ok o
    /\ shape o = lead ++ [output_feat_size].
Proof.
  intros [_ Hlin Hnorm Hdrop] Hx.
  apply (FeatureResizer_shape _ input_feat_size output_feat_size); simpl; auto.
Qed.

Lemma FeatureResizer_forward_shape_witness :
  exists o,
    FeatureResizer_forward (@FeatureResizer_init _ toy_nn 3 2 (1 # 10) true)
      (ramp [4; 1; 3]%nat) = Ok o
    /\ shape o = [4; 1; 2]%nat.
Proof.
  apply (FeatureResizer_forward_shape toy_nn 3 2 (1 # 10) true
           (ramp [4; 1; 3]%nat) [4; 1]%nat).
  - apply toy_nn_ok.
  - reflexivity.
Defined.

Lemma zip_chained a h b m :
  chained a (zip (a :: replicate m h) (replicate m h ++ [b])) b.
Proof.
  revert a. induction m as [|m IH]; intros a; simpl; [done|].
  split; [done|]. apply IH.
Qed.

Lemma MLP_dims_chained input_dim hidden_dim output_dim num_layers :
  chained input_dim (MLP_dims input_dim hidden_dim output_dim num_layers)
    output_dim.
Proof. apply zip_chained. Qed.

Lemma MLP_dims_unfold input_dim hidden_dim output_dim num_layers :
  MLP_dims input_dim hidden_dim output_dim num_layers
  = if num_layers <=? 1 then [(input_dim, output_dim)]
    else (input_dim, hidden_dim)
         :: replicate (Z.to_nat (num_layers - 2)) (hidden_dim, hidden_dim)
         ++ [(hidden_dim, output_dim)].
Proof.
  unfold MLP_dims, MLP_hidden.
  destruct (Z.leb_spec num_layers 1) as [Hle|Hgt].
  - replace (Z.to_nat (num_layers - 1)) with 0%nat by lia. reflexivity.
  - replace (Z.to_nat (num_layers - 1)) with (S (Z.to_nat (num_layers - 2)))
      by lia.
    generalize (Z.to_nat (num_layers - 2)). intros m. simpl. f_equal.
    induction m as [|m IH]; simpl; [done|]. by rewrite <- IH.
Qed.

(** X10: the linear layers that [MLP.__init__] builds.  With
    [num_layers <= 1], zero and negative values included, there is one
    layer from [input_dim] to [output_dim] and [hidden_dim] is not used;
    otherwise there are [num_layers] layers, from [input_dim] through
    [hidden_dim] to [output_dim]. *)
Theorem MLP_init_layers {T} (nn : TorchNN T)
    (input_dim hidden_dim output_dim : nat) (num_layers : Z) :
  mlp_layers (MLP_init input_dim hidden_dim output_dim num_layers)
  = (fun nk => Linear nk.1 nk.2)
      <$> (if num_layers <=? 1 then [(input_dim, output_dim)]
           else (input_dim, hidden_dim)
                :: replicate (Z.to_nat (num_layers - 2))
                     (hidden_dim, hidden_dim)
                ++ [(hidden_dim, output_dim)])
  /\ length (mlp_layers
               (MLP_init input_dim hidden_dim output_dim num_layers))
     = Z.to_nat (Z.max 1 num_layers).
Proof.
  unfold MLP_init. cbn [mlp_layers]. rewrite MLP_dims_unfold. split; [done|].
  rewrite length_fmap. destruct (Z.leb_spec num_layers 1); simpl.
  - lia.
  - rewrite length_app, length_replicate. simpl. lia.
Qed.

Section MLPForward.
Context {elem : Type} {eops : ElemOps elem} (nn : TorchNN (Tensor elem)).
Hypothesis nn_ok : TorchNN_ok nn.

Lemma MLP_loop_shape num_layers lead : forall dims start a b (x : Tensor elem),
  chained a dims b -> shape x = lead ++ [a] ->
  exists o,
    for_each (zip (seq start (length dims))
                  ((fun nk => Linear nk.1 nk.2) <$> dims))
      (fun x il =>
         y ← il.2 x;
         if Z.of_nat il.1 <? num_layers - 1 then F_relu y else Ok y)
      x = Ok o
    /\ shape o = lead ++ [b].
Proof using nn_ok.
  destruct nn_ok as [_ Hlin _ _].
  induction dims as [|[n k] dims IH]; intros start a b x Hch Hx; simpl in *.
  - subst. eauto.
  - destruct Hch as [-> Hch].
    run (Hlin a k x lead Hx).
    destruct (Z.of_nat start <? num_layers - 1).
    + simpl. apply (IH (S start) k b); [done|]. simpl. done.
    + rewrite result_bind_Ok. by apply (IH (S start) k b).
Qed.

Lemma MLP_init_shape input_dim hidden_dim output_dim num_layers
    (x : Tensor elem) lead :
  shape x = lead ++ [input_dim] ->
  exists o,
    MLP_forward (MLP_init input_dim hidden_dim output_dim num_layers) x = Ok o
    /\ shape o = lead ++ [output_dim].
Proof using nn_ok.
  intros Hx. unfold MLP_forward, enumerate. simpl.
  rewrite length_fmap.
  apply (MLP_loop_shape num_layers lead _ 0%nat input_dim output_dim);
    [apply MLP_dims_chained|done].
Qed.
End MLPForward.

(** X11: an [MLP] maps the last axis of its input from [input_dim] to
    [output_dim] and keeps the other axes, for every [num_layers], those
    below 1 included. *)
Theorem MLP_forward_shape {elem} {eops : ElemOps elem}
    (nn : TorchNN (Tensor elem))
    (input_dim hidden_dim output_dim : nat) (num_layers : Z)
    (x : Tensor elem) (lead : list nat) :
  TorchNN_ok nn ->
  shape x = lead ++ [input_dim] ->
  exists o,
    MLP_forward (MLP_init input_dim hidden_dim output_dim num_layers) x = Ok o
    /\ shape o = lead ++ [output_dim].
Proof. intros Hnn Hx. by apply MLP_init_shape. Qed.

Lemma MLP_forward_shape_witness :
  exists o,
    MLP_forward (@MLP_init _ toy_nn 2 5 4 3) (ramp [6; 1; 3; 2]%nat) = Ok o
    /\ shape o = [6; 1; 3; 4]%nat.
Proof.
  apply (MLP_forward_shape toy_nn 2 5 4 3 (ramp [6; 1; 3; 2]%nat)
           [6; 1; 3]%nat).
  - apply toy_nn_ok.
  - reflexivity.
Defined.

Lemma MLP_loop_symbolic num_layers m :
  m = Z.to_nat (num_layers - 1) ->
  forall dims nk start a b (x : term),
  chained a (nk :: dims) b -> (start + length dims = m)%nat ->
  exists n y,
    for_each (zip (seq start (S (length dims)))
                  ((fun nk => Linear nk.1 nk.2) <$> nk :: dims))
      (fun x il =>
         y ← il.2 x;
         if Z.of_nat il.1 <? num_layers - 1 then F_relu y else Ok y)
      x = Ok (TLinear n b y)
    /\ count_activations (TLinear n b y)
       = (count_activations x + (m - start))%nat.
Proof.
  intros Hm. induction dims as [|nk' dims IH];
    intros [n k] start a b x [-> Hch] Hlen.
  - simpl in *. subst b.
    destruct (Z.ltb_spec (Z.of_nat start) (num_layers - 1)); [lia|].
    exists a, x. split; [done|]. simpl. lia.
  - cbn [length seq fmap list_fmap zip zip_with for_each fst snd].
    cbn [Linear term_nn]. rewrite result_bind_Ok.
    destruct (Z.ltb_spec (Z.of_nat start) (num_layers - 1));
      [|simpl in Hlen; lia].
    cbn [F_relu term_F]. rewrite result_bind_Ok.
    destruct (IH nk' (S start) k b (TActivation "relu" (TLinear a k x)))
      as (n' & y & E & Hcount); [done|simpl in *; lia|].
    exists n', y. split; [exact E|]. rewrite Hcount. simpl in *. lia.
Qed.


(** ** MDETR *)

Lemma list_last_snoc {A} (l : list A) a : list_last (l ++ [a]) = Ok a.
Proof. unfold list_last. rewrite fmap_app. simpl. by rewrite last_last. Qed.

Lemma map_result_snoc_ok {A B} (f : A -> result B) l a b :
  Forall (fun x => is_ok (f x) = true) l -> f a = Ok b ->
  exists bs, map_result f (l ++ [a]) = Ok (bs ++ [b]).
Proof.
  intros Hl Ha. induction Hl as [|x l Hx _ (bs & IH)]; simpl.
  - rewrite Ha. by exists [].
  - destruct (f x) as [y|]; [|done]. simpl. rewrite IH. simpl.
    by exists (y :: bs).
Qed.

Section MDETRForward.
Context {elem NT : Type} {scalar : Scalar elem} {eops : ElemOps elem}
  {ntops : NestedTensorOps elem NT}.

Lemma transpose01_shape3 (t : Tensor elem) n1 n2 n3 :
  shape t = [n1; n2; n3] ->
  exists o, transpose 0 1 t = Ok o /\ shape o = [n2; n1; n3].
Proof.
  intros Ht. unfold transpose, ndim. rewrite Ht. simpl.
  eexists; split; reflexivity.
Qed.

Lemma index_last_shape (t : Tensor elem) n rest :
  shape t = n :: rest -> (0 < n)%nat ->
  exists o, index_last t = Ok o /\ shape o = rest
            /\ forall idx, item o idx = item t ((n - 1)%nat :: idx).
Proof.
  intros Ht Hn. unfold index_last. rewrite Ht. destruct n; [lia|].
  eexists; split_and!; [reflexivity..|]. intros idx. simpl.
  by rewrite Nat.sub_0_r.
Qed.

Lemma MDETR_forward_ok dff Ct Cb Nq K Kb (M : MDETR elem NT)
    (images : NT) (text text_attention_mask : Tensor elem) (B Tx H W : nat) :
  MDETR_ok dff Ct Cb Nq K Kb M ->
  encoders_ok M B Tx Ct Cb H W images text text_attention_mask ->
  exists out hs outputs_class boxes,
    MDETR_forward M images text text_attention_mask = Ok out
    /\ transformer_call M images text text_attention_mask hs
    /\ shape hs
       = [decoder_num_layers (decoder (transformer M)); B; Nq;
          d_model (transformer M)]
    /\ class_embed M hs = Ok outputs_class
    /\ MLP_forward (bbox_embed M) hs = Ok boxes
    /\ shape (pred_logits out) = [B; Nq; K]
    /\ shape (pred_boxes out) = [B; Nq; Kb]
    /\ (forall idx,
          item (pred_logits out) idx
          = item outputs_class
              ((decoder_num_layers (decoder (transformer M)) - 1)%nat :: idx))
    /\ (forall idx,
          item (pred_boxes out) idx
          = sigmoid_elem
              (item boxes
                 ((decoder_num_layers (decoder (transformer M)) - 1)%nat
                  :: idx))).
Proof.
  intros [Hfc Hln Hdr Hproj HT Hpass Hri Hlayers Hq HNq Hcls Hbox]
    [HB HHW Htam (encoded_text & Henc & Henc_shape)
       (features & last_feature & src & mask & p & Hfeat & Hpos_all & Hdec
        & Hsrc & Hmask & Hp & Hp_shape)].
  destruct (transpose01_shape3 encoded_text _ _ _ Henc_shape)
    as (text_memory & Etm & Htm).
  destruct (FeatureResizer_shape (resizer M) Ct (d_model (transformer M))
              text_memory [Tx; B] Hfc Hln Hdr Htm)
    as (text_memory_resized & Etmr & Htmr).
  destruct (Hproj src B H W HHW Hsrc) as (projected & Eproj & Hprojected).
  destruct (forward_with_intermediate_shape dff (transformer M) B H W Nq Tx
              projected mask (weight (query_embed M))
              (tensor_map (to_dtype_of last_feature) p) text_memory_resized
              (tensor_map ne_one_elem text_attention_mask) HT Hpass Hri
              Hlayers) as (hs & Ehs & Hhs).
  { split; try done. }
  destruct (Hcls hs [decoder_num_layers (decoder (transformer M)); B; Nq] Hhs)
    as (outputs_class & Ecls & Hcls_shape).
  destruct (Hbox hs [decoder_num_layers (decoder (transformer M)); B; Nq] Hhs)
    as (boxes & Ebox & Hbox_shape).
  destruct (index_last_shape outputs_class _ _ Hcls_shape Hlayers)
    as (logits & Elogits & Hlogits & Ilogits).
  destruct (index_last_shape (tensor_map sigmoid_elem boxes) _ _ Hbox_shape
              Hlayers) as (coords & Ecoords & Hcoords & Icoords).
  exists {| pred_logits := logits; pred_boxes := coords |}, hs, outputs_class,
    boxes.
  split_and!; try done.
  - unfold MDETR_forward. rewrite Henc, result_bind_Ok, Etm, result_bind_Ok.
    cbv zeta. rewrite Hfeat, result_bind_Ok.
    destruct (map_result_snoc_ok
                (fun x => p ← pos_embed M x;
                          Ok (tensor_map (to_dtype_of x) p))
                features last_feature
                (tensor_map (to_dtype_of last_feature) p))
      as (ps & ->).
    { eapply Forall_impl; [exact Hpos_all|]. intros y Hy. simpl in *.
      by destruct (pos_embed M y). }
    { by rewrite Hp. }
    rewrite ?result_bind_Ok, !list_last_snoc, ?result_bind_Ok.
    rewrite Hdec, result_bind_Ok. cbv beta iota zeta.
    rewrite Etmr, result_bind_Ok, Eproj, !result_bind_Ok. cbv beta.
    rewrite Ehs, result_bind_Ok, Ecls, result_bind_Ok, Ebox, result_bind_Ok.
    cbv zeta. by rewrite Elogits, result_bind_Ok, Ecoords, result_bind_Ok.
  - by exists encoded_text, text_memory, features, last_feature, src, mask, p,
      text_memory_resized, projected.
Qed.
End MDETRForward.

(** X13: when the modules of an [MDETR] agree on their widths and the
    transformer collects the outputs of its decoder layers,
    [MDETR.forward] returns the predictions of the last decoder layer.
    The transformer output [hs] has a leading axis of [num_layers]
    entries, one per decoder layer; the logits are the entry of index
    [num_layers - 1] of [class_embed(hs)], of shape [B; Nq; K], and the
    boxes are the sigmoid of the entry of index [num_layers - 1] of
    [bbox_embed(hs)], of shape [B; Nq; Kb]. *)
Theorem MDETR_forward_shapes {elem NT} {scalar : Scalar elem}
    {eops : ElemOps elem} {ntops : NestedTensorOps elem NT}
    (dff Ct Cb Nq K Kb : nat) (M : MDETR elem NT)
    (images : NT) (text text_attention_mask : Tensor elem) (B Tx H W : nat) :
  MDETR_ok dff Ct Cb Nq K Kb M ->
  encoders_ok M B Tx Ct Cb H W images text text_attention_mask ->
  exists out hs outputs_class boxes,
    MDETR_forward M images text text_attention_mask = Ok out
    /\ transformer_call M images text text_attention_mask hs
    /\ shape hs
       = [decoder_num_layers (decoder (transformer M)); B; Nq;
          d_model (transformer M)]
    /\ class_embed M hs = Ok outputs_class
    /\ MLP_forward (bbox_embed M) hs = Ok boxes
    /\ shape (pred_logits out) = [B; Nq; K]
    /\ shape (pred_boxes out) = [B; Nq; Kb]
    /\ (forall idx,
          item (pred_logits out) idx
          = item outputs_class
              ((decoder_num_layers (decoder (transformer M)) - 1)%nat :: idx))
    /\ (forall idx,
          item (pred_boxes out) idx
          = sigmoid_elem
              (item boxes
                 ((decoder_num_layers (decoder (transformer M)) - 1)%nat
                  :: idx))).
Proof. apply MDETR_forward_ok. Qed.

Lemma F_relu_ok {elem} {eops : ElemOps elem} :
  shape_preserving (F_relu (T := Tensor elem)).
Proof. intros t. eexists. split; reflexivity. Qed.

Lemma mdetr_transformer_ok {elem} {eops : ElemOps elem}
    (nn : TorchNN (Tensor elem)) :
  TorchNN_ok nn -> Transformer_ok 2048 (mdetr_transformer (elem := elem)).
Proof.
  intros Hnn. apply Transformer_init_ok; [done|apply F_relu_ok|lia].
Qed.

(** X14: the transformer of [mdetr_transformer] returns, for a batch of
    [B] feature maps of 256 channels and [Nq] queries, the states of its
    6 decoder layers: a tensor [6; B; Nq; 256]. *)
Theorem mdetr_transformer_forward_shape {elem} {scalar : Scalar elem}
    {eops : ElemOps elem} (nn : TorchNN (Tensor elem))
    (B H W Nq Tx : nat)
    (src mask query_embed pos_embed text_memory text_attention_mask
       : Tensor elem) :
  TorchNN_ok nn ->
  valid_inputs B 256 H W Nq Tx src mask query_embed pos_embed text_memory
    text_attention_mask ->
  exists hs,
    Transformer_forward mdetr_transformer (PyTensor src) (PyTensor mask)
      (PyTensor query_embed) (PyTensor pos_embed) (PyTensor text_memory)
      (PyTensor text_attention_mask) = Ok hs
    /\ shape hs = [6; B; Nq; 256]%nat.
Proof.
  intros Hnn Hvalid.
  apply (forward_with_intermediate_shape 2048 mdetr_transformer B H W Nq Tx);
    [by apply mdetr_transformer_ok|reflexivity|reflexivity|simpl; lia|done].
Qed.

Lemma mdetr_transformer_forward_shape_witness :
  exists hs,
    Transformer_forward (@mdetr_transformer Q toy_nn Q_elem_ops)
      (PyTensor (ramp [1; 256; 2; 3]%nat)) (PyTensor (ramp [1; 2; 3]%nat))
      (PyTensor (ramp [5; 256]%nat)) (PyTensor (ramp [1; 256; 2; 3]%nat))
      (PyTensor (ramp [4; 1; 256]%nat)) (PyTensor (ramp [1; 4]%nat)) = Ok hs
    /\ shape hs = [6; 1; 5; 256]%nat.
Proof.
  apply (mdetr_transformer_forward_shape toy_nn 1 2 3 5 4).
  - apply toy_nn_ok.
  - split; simpl; (reflexivity || lia).
Defined.

Lemma mdetr_resnet101_ok {elem NT} {eops : ElemOps elem}
    (nn : TorchNN (Tensor elem)) (nn2 : TorchNN2 elem)
    (encs : MdetrEncoders elem NT) (num_queries num_classes : nat) :
  TorchNN_ok nn -> TorchNN2_ok nn2 -> (0 < num_queries)%nat ->
  MDETR_ok 2048 embedding_dim 2048 num_queries (num_classes + 1) 4
    (mdetr_resnet101 num_queries num_classes).
Proof.
  intros Hnn [Hconv Hemb] Hq. pose proof Hnn as [_ Hlin Hnorm Hdrop].
  split; simpl; try done; try lia; auto.
  - by apply mdetr_transformer_ok.
  - intros t lead Ht. by apply (MLP_init_shape nn Hnn).
Qed.

(** X15: the model of [mdetr_resnet101] returns logits
    [B; num_queries; num_classes + 1] and boxes [B; num_queries; 4], when
    the text encoder yields [B; Tx; embedding_dim], the backbone a last
    feature map of 2048 channels and the position embedding 256
    channels. *)
Theorem mdetr_resnet101_forward_shapes {elem NT} {scalar : Scalar elem}
    {eops : ElemOps elem} {ntops : NestedTensorOps elem NT}
    (nn : TorchNN (Tensor elem)) (nn2 : TorchNN2 elem)
    (encs : MdetrEncoders elem NT) (num_queries num_classes : nat)
    (images : NT) (text text_attention_mask : Tensor elem) (B Tx H W : nat) :
  TorchNN_ok nn -> TorchNN2_ok nn2 -> (0 < num_queries)%nat ->
  encoders_ok (mdetr_resnet101 num_queries num_classes) B Tx embedding_dim
    2048 H W images text text_attention_mask ->
  exists out,
    MDETR_forward (mdetr_resnet101 num_queries num_classes) images text
      text_attention_mask = Ok out
    /\ shape (pred_logits out) = [B; num_queries; (num_classes + 1)%nat]
    /\ shape (pred_boxes out) = [B; num_queries; 4%nat].
Proof.
  intros Hnn Hnn2 Hq Henc.
  destruct (MDETR_forward_ok 2048 embedding_dim 2048 num_queries
              (num_classes + 1) 4 (mdetr_resnet101 num_queries num_classes)
              images text text_attention_mask B Tx H W)
    as (out & hs & outputs_class & boxes & E & _ & _ & _ & _ & Hl & Hb & _);
    [by apply mdetr_resnet101_ok|done|eauto].
Qed.

Lemma toy_nn2_ok : TorchNN2_ok toy_nn2.
Proof.
  split.
  - intros c_in c_out t B H W HHW Ht. simpl. unfold toy_conv. rewrite Ht.
    rewrite Nat.eqb_refl. simpl.
    destruct H as [|H], W as [|W]; try lia. simpl. rewrite !Nat.sub_0_r.
    eexists; split; [reflexivity|]. simpl. repeat f_equal; lia.
  - reflexivity.
Qed.

Lemma toy_mdetr_ok : MDETR_ok 2048 3 2048 5 8 4 toy_mdetr.
Proof.
  apply (mdetr_resnet101_ok toy_nn toy_nn2 toy_encoders 5 7);
    [apply toy_nn_ok|apply toy_nn2_ok|lia].
Qed.

Lemma toy_encoders_ok :
  encoders_ok toy_mdetr 1 4 3 2048 2 3 toy_images toy_text toy_text.
Proof.
  split; try (simpl; lia); try reflexivity.
  - eexists. split; reflexivity.
  - exists [], toy_images, toy_images.1, toy_images.2. eexists.
    split_and!; try reflexivity. constructor.
Qed.

Lemma MDETR_forward_shapes_witness :
  exists out hs outputs_class boxes,
    MDETR_forward toy_mdetr toy_images toy_text toy_text = Ok out
    /\ transformer_call toy_mdetr toy_images toy_text toy_text hs
    /\ shape hs = [6; 1; 5; 256]%nat
    /\ class_embed toy_mdetr hs = Ok outputs_class
    /\ MLP_forward (bbox_embed toy_mdetr) hs = Ok boxes
    /\ shape (pred_logits out) = [1; 5; 8]%nat
    /\ shape (pred_boxes out) = [1; 5; 4]%nat
    /\ (forall idx,
          item (pred_logits out) idx = item outputs_class (5%nat :: idx))
    /\ (forall idx,
          item (pred_boxes out) idx
          = sigmoid_elem (item boxes (5%nat :: idx))).
Proof.
  exact (MDETR_forward_shapes 2048 3 2048 5 8 4 toy_mdetr toy_images
           toy_text toy_text 1 4 2 3 toy_mdetr_ok toy_encoders_ok).
Defined.

Lemma mdetr_resnet101_forward_shapes_witness :
  exists out,
    MDETR_forward toy_mdetr toy_images toy_text toy_text = Ok out
    /\ shape (pred_logits out) = [1; 5; 8]%nat
    /\ shape (pred_boxes out) = [1; 5; 4]%nat.
Proof.
  apply (mdetr_resnet101_forward_shapes toy_nn toy_nn2 toy_encoders 5 7
           toy_images toy_text toy_text 1 4 2 3).
  - apply toy_nn_ok.
  - apply toy_nn2_ok.
  - lia.
  - apply toy_encoders_ok.
Defined.

(** ** The decoder stack without a normalization or without capture *)

Section DecoderPlain.
Context {T : Type} {ops : TensorOps T}.
Context (D : TransformerDecoder T) (memory : T).
Context (tgt_mask memory_mask tgt_key_padding_mask memory_key_padding_mask
           pos query_pos : option T).
Hypothesis Hri : return_intermediate D = false.

Lemma decoder_loop_plain layers : forall tgt acc,
  for_each layers
    (decoder_step D memory tgt_mask memory_mask tgt_key_padding_mask
       memory_key_padding_mask pos query_pos) (tgt, acc)
  = (outs ← decoder_layer_outputs layers tgt memory tgt_mask memory_mask
              tgt_key_padding_mask memory_key_padding_mask pos query_pos;
     Ok (List.last outs tgt, acc)).
Proof using Hri.
  induction layers as [|L Ls IH]; intros tgt acc;
    cbn [for_each decoder_layer_outputs]; [done|].
  unfold decoder_step at 2. cbn [fst snd]. rewrite Hri.
  destruct (TransformerDecoderLayer_forward L tgt memory tgt_mask memory_mask
              tgt_key_padding_mask memory_key_padding_mask pos query_pos)
    as [o|e]; [|done].
  rewrite !result_bind_Ok, IH.
  destruct (decoder_layer_outputs Ls o memory tgt_mask memory_mask
              tgt_key_padding_mask memory_key_padding_mask pos query_pos)
    as [os|e]; [|done].
  rewrite !result_bind_Ok. do 2 f_equal.
  destruct os as [|t os]; [reflexivity|].
  change (List.last (o :: t :: os) tgt) with (List.last (t :: os) tgt).
  apply last_cons_default.
Qed.
End DecoderPlain.

(** X16: without capture of the intermediate outputs the decoder returns
    the output of its last layer, each layer being fed with the output of
    the one before, passed through the final normalization when there is
    one; a decoder without layers returns its (normalized) target; and
    the exception of a layer is the exception of the decoder. *)
Theorem TransformerDecoder_final_output {T} {ops : TensorOps T}
    (D : TransformerDecoder T) (tgt memory : T)
    (tgt_mask memory_mask tgt_key_padding_mask memory_key_padding_mask
       pos query_pos : option T) :
  return_intermediate D = false ->
  TransformerDecoder_forward D tgt memory tgt_mask memory_mask
    tgt_key_padding_mask memory_key_padding_mask pos query_pos
  = (outs ← decoder_layer_outputs (decoder_layers D) tgt memory tgt_mask
              memory_mask tgt_key_padding_mask memory_key_padding_mask
              pos query_pos;
     match decoder_norm D with
     | Some norm => norm (List.last outs tgt)
     | None => Ok (List.last outs tgt)
     end).
Proof.
  intros Hri. unfold TransformerDecoder_forward, TransformerDecoder_collect.
  rewrite (decoder_loop_plain D memory tgt_mask memory_mask
             tgt_key_padding_mask memory_key_padding_mask pos query_pos Hri).
  destruct (decoder_layer_outputs (decoder_layers D) tgt memory tgt_mask
              memory_mask tgt_key_padding_mask memory_key_padding_mask
              pos query_pos) as [outs|e]; [|done].
  rewrite !result_bind_Ok. cbn [fst snd].
  destruct (decoder_norm D) as [norm|].
  - destruct (norm (List.last outs tgt)); [|done].
    by rewrite !result_bind_Ok, Hri.
  - by rewrite result_bind_Ok, Hri.
Qed.

Lemma TransformerDecoder_final_output_witness :
  TransformerDecoder_forward
    (TransformerDecoder_init
       (TransformerDecoderLayer_init 256 8 2048 (1 # 10) relu) 2
       (Some (LayerNorm 256)) false)
    (TVar "tgt") (TVar "memory") None None None (Some (TVar "mask"))
    (Some (TVar "pos")) (Some (TVar "query_pos"))
  = Ok (TLayerNorm 256 (List.last symbolic_outputs (TVar "tgt"))).
Proof.
  rewrite (TransformerDecoder_final_output
             (TransformerDecoder_init
                (TransformerDecoderLayer_init 256 8 2048 (1 # 10) relu) 2
                (Some (LayerNorm 256)) false)
             (TVar "tgt") (TVar "memory") None None None (Some (TVar "mask"))
             (Some (TVar "pos")) (Some (TVar "query_pos")));
    reflexivity.
Defined.

(** X17: a decoder that captures the intermediate outputs but was built
    without a normalization (the default [norm=None]) returns no result:
    as soon as its first layer has run, line 282 calls [None] and raises
    [TypeError]; without layers, [torch.stack] receives an empty list. *)
Theorem TransformerDecoder_capture_needs_norm {T} {ops : TensorOps T}
    (D : TransformerDecoder T) (tgt memory : T)
    (tgt_mask memory_mask tgt_key_padding_mask memory_key_padding_mask
       pos query_pos : option T) :
  return_intermediate D = true -> decoder_norm D = None ->
  (forall layer layers out,
     decoder_layers D = layer :: layers ->
     TransformerDecoderLayer_forward layer tgt memory tgt_mask memory_mask
       tgt_key_padding_mask memory_key_padding_mask pos query_pos = Ok out ->
     TransformerDecoder_forward D tgt memory tgt_mask memory_mask
       tgt_key_padding_mask memory_key_padding_mask pos query_pos
     = Raise TypeError)
  /\ (decoder_layers D = [] ->
      TransformerDecoder_forward D tgt memory tgt_mask memory_mask
        tgt_key_padding_mask memory_key_padding_mask pos query_pos
      = t_stack []).
Proof.
  intros Hri Hnorm.
  unfold TransformerDecoder_forward, TransformerDecoder_collect. split.
  - intros layer layers out -> Hout. cbn [for_each].
    unfold decoder_step at 2. cbn [fst snd].
    by rewrite Hout, result_bind_Ok, Hri, Hnorm.
  - intros ->. cbn [for_each]. by rewrite result_bind_Ok, Hnorm, Hri.
Qed.

Lemma TransformerDecoder_capture_needs_norm_witness :
  TransformerDecoder_forward
    (TransformerDecoder_init
       (TransformerDecoderLayer_init 256 8 2048 (1 # 10) relu) 6 None true)
    (TVar "tgt") (TVar "memory") None None None (Some (TVar "mask"))
    (Some (TVar "pos")) (Some (TVar "query_pos"))
  = Raise TypeError.
Proof.
  eapply (proj1 (TransformerDecoder_capture_needs_norm
                   (TransformerDecoder_init
                      (TransformerDecoderLayer_init 256 8 2048 (1 # 10) relu)
                      6 None true)
                   (TVar "tgt") (TVar "memory") None None None
                   (Some (TVar "mask")) (Some (TVar "pos"))
                   (Some (TVar "query_pos")) eq_refl eq_refl));
    reflexivity.
Defined.

(** ** The contents of the sequences that [Transformer.forward] builds *)

Section ForwardContents.
Context {elem : Type} {scalar : Scalar elem}.
Implicit Types (t a b : Tensor elem).

Lemma flatten2_spec t n1 n2 n3 n4 :
  shape t = [n1; n2; n3; n4] ->
  exists o, flatten 2 t = Ok o
    /\ shape o = [n1; n2; (n3 * n4)%nat]
    /\ forall i j k, item o [i; j; k] = item t [i; j; (k / n4)%nat; (k mod n4)%nat].
Proof.
  intros Ht. unfold flatten, ndim. rewrite Ht. simpl.
  eexists; split; [reflexivity|]. simpl. split.
  - do 3 f_equal. lia.
  - intros i j k. rewrite Nat.mul_1_r.
    replace (Nat.divmod (k mod n4) 0 0 0).1 with ((k mod n4) / 1)%nat
      by reflexivity.
    by rewrite Nat.div_1_r.
Qed.

Lemma flatten1_spec t n1 n2 n3 :
  shape t = [n1; n2; n3] ->
  exists o, flatten 1 t = Ok o
    /\ shape o = [n1; (n2 * n3)%nat]
    /\ forall i k, item o [i; k] = item t [i; (k / n3)%nat; (k mod n3)%nat].
Proof.
  intros Ht. unfold flatten, ndim. rewrite Ht. simpl.
  eexists; split; [reflexivity|]. simpl. split.
  - do 2 f_equal. lia.
  - intros i k. rewrite Nat.mul_1_r.
    replace (Nat.divmod (k mod n3) 0 0 0).1 with ((k mod n3) / 1)%nat
      by reflexivity.
    by rewrite Nat.div_1_r.
Qed.

Lemma permute201_spec t n1 n2 n3 :
  shape t = [n1; n2; n3] ->
  exists o, permute [2; 0; 1]%nat t = Ok o
    /\ shape o = [n3; n1; n2]
    /\ forall k i j, item o [k; i; j] = item t [i; j; k].
Proof.
  intros Ht. unfold permute, ndim. rewrite Ht. simpl.
  eexists; split; [reflexivity|]. simpl. done.
Qed.

Lemma unsqueeze1_spec t n1 n2 :
  shape t = [n1; n2] ->
  exists o, unsqueeze 1 t = Ok o
    /\ shape o = [n1; 1%nat; n2]
    /\ forall i z j, item o [i; z; j] = item t [i; j].
Proof.
  intros Ht. unfold unsqueeze, ndim. rewrite Ht. simpl.
  eexists; split; [reflexivity|]. simpl. done.
Qed.

Lemma repeat_batch_spec t n1 n2 bs :
  shape t = [n1; 1%nat; n2] ->
  exists o, repeat [1; bs; 1]%nat t = Ok o
    /\ shape o = [n1; bs; n2]
    /\ forall i z j, (i < n1)%nat -> (j < n2)%nat ->
         item o [i; z; j] = item t [i; 0%nat; j].
Proof.
  intros Ht. unfold repeat, ndim. rewrite Ht. simpl.
  eexists; split; [reflexivity|]. simpl. split.
  - f_equal; [lia|]. f_equal; [lia|]. f_equal. lia.
  - intros i z j Hi Hj. by rewrite !Nat.mod_small by lia.
Qed.

Lemma cat_seq_spec a b n m B D :
  shape a = [n; B; D] -> shape b = [m; B; D] ->
  exists o, torch_cat [PyTensor a; PyTensor b] 0 = Ok o
    /\ shape o = [(n + m)%nat; B; D]
    /\ forall k idx, item o (k :: idx)
         = if (k <? n)%nat then item a (k :: idx)
           else item b ((k - n)%nat :: idx).
Proof.
  intros Ha Hb. unfold torch_cat. simpl. unfold cat2, ndim, same_shape_except.
  rewrite Ha, Hb. simpl. rewrite !Nat.eqb_refl. simpl.
  eexists; split; [reflexivity|]. simpl. done.
Qed.

Lemma cat_mask_spec a b n m B :
  shape a = [B; n] -> shape b = [B; m] ->
  exists o, torch_cat [PyTensor a; PyTensor b] 1 = Ok o
    /\ shape o = [B; (n + m)%nat]
    /\ forall i k, item o [i; k]
         = if (k <? n)%nat then item a [i; k]
           else item b [i; (k - n)%nat].
Proof.
  intros Ha Hb. unfold torch_cat. simpl. unfold cat2, ndim, same_shape_except.
  rewrite Ha, Hb. simpl. rewrite !Nat.eqb_refl. simpl.
  eexists; split; [reflexivity|]. simpl. done.
Qed.

Lemma forward_encode_contents dff (M : Transformer elem)
    B H W Nq Tx src mask query_embed pos_embed text_memory text_attention_mask :
  Transformer_ok dff M -> pass_pos_and_query M = true ->
  valid_inputs B (d_model M) H W Nq Tx src mask query_embed pos_embed
    text_memory text_attention_mask ->
  exists loc pos q tgt,
    forward_encode M (PyTensor src) (PyTensor mask) (PyTensor query_embed)
      (PyTensor pos_embed) (PyTensor text_memory)
      (PyTensor text_attention_mask) = Ok loc
    /\ TransformerEncoder_forward (encoder M) (loc_fused_src loc) None
         (Some (loc_mask loc)) (Some pos) = Ok (loc_img_memory loc)
    /\ shape (loc_fused_src loc) = [(H * W + Tx)%nat; B; d_model M]
    /\ (forall k i j,
          item (loc_fused_src loc) [k; i; j]
          = if (k <? H * W)%nat
            then item src [i; j; (k / W)%nat; (k mod W)%nat]
            else item text_memory [(k - H * W)%nat; i; j])
    /\ shape (loc_mask loc) = [B; (H * W + Tx)%nat]
    /\ (forall i k,
          item (loc_mask loc) [i; k]
          = if (k <? H * W)%nat
            then item mask [i; (k / W)%nat; (k mod W)%nat]
            else item text_attention_mask [i; (k - H * W)%nat])
    /\ loc_pos_embed loc = PyTensor pos
    /\ shape pos = [(H * W + Tx)%nat; B; d_model M]
    /\ (forall k i j,
          item pos [k; i; j]
          = if (k <? H * W)%nat
            then item pos_embed [i; j; (k / W)%nat; (k mod W)%nat]
            else zero)
    /\ loc_query_embed loc = PyTensor q
    /\ shape q = [Nq; B; d_model M]
    /\ (forall n i j, (n < Nq)%nat -> (j < d_model M)%nat ->
          item q [n; i; j] = item query_embed [n; j])
    /\ loc_tgt loc = PyTensor tgt
    /\ shape tgt = [Nq; B; d_model M]
    /\ (forall idx, item tgt idx = zero).
Proof.
  intros [Hd Hel Hen Hdl Hdc Hdn Hdno] Hpass
    [HB HHW HNq Hsrc Hmask Hqe Hpe Htm Htam].
  unfold forward_encode. rewrite Hpass. cbn [as_tensor]. rewrite ?result_bind_Ok.
  rewrite Hsrc. cbn [unpack4]. rewrite ?result_bind_Ok.
  run (flatten2_spec src _ _ _ _ Hsrc). destruct Hx as [Hx Ix].
  run (permute201_spec x _ _ _ Hx). destruct Hx0 as [Hx0 Ix0].
  run (flatten2_spec pos_embed _ _ _ _ Hpe). destruct Hx1 as [Hx1 Ix1].
  run (permute201_spec x1 _ _ _ Hx1). destruct Hx2 as [Hx2 Ix2].
  run (unsqueeze1_spec query_embed _ _ Hqe). destruct Hx3 as [Hx3 Ix3].
  run (repeat_batch_spec x3 _ _ B Hx3). destruct Hx4 as [Hx4 Ix4].
  run (flatten1_spec mask _ _ _ Hmask). destruct Hx5 as [Hx5 Ix5].
  rewrite pos_and_query_branch_pass, ?result_bind_Ok. cbv beta iota.
  run (cat_seq_spec x0 text_memory _ _ _ _ Hx0 Htm). destruct Hx6 as [Hx6 Ix6].
  run (cat_mask_spec x5 text_attention_mask _ _ _ Hx5 Htam).
  destruct Hx7 as [Hx7 Ix7].
  cbn [zeros_like]. rewrite ?result_bind_Ok.
  match goal with |- context [torch_cat [PyTensor x2; PyTensor ?z] 0] =>
    destruct (cat_seq_spec x2 z _ _ _ _ Hx2 Htm)
      as (pos & Epos & Hpos & Ipos) end.
  rewrite Epos, ?result_bind_Ok.
  destruct (encoder_forward_shape (d_model M) dff (encoder M) x6 (Some x7)
              (Some pos) (H * W + Tx) B) as (img & Eimg & Himg);
    try done; try lia.
  rewrite Eimg, ?result_bind_Ok. cbn [py_len]. rewrite Htm.
  rewrite ?result_bind_Ok.
  assert (exists tm, slice_from (- Z.of_nat Tx) img = Ok tm
                     /\ exists n, shape tm = n :: [B; d_model M])
    as (tm & Etm & n & Htm').
  { destruct Tx as [|Tx].
    - destruct (slice_minus_zero img _ _ Himg) as (tm & ? & Hs & _).
      exists tm. split; [done|]. rewrite Hs, Himg. eauto.
    - destruct (slice_last_shape img _ (S Tx) _ Himg) as (tm & ? & Hs & _);
        [lia|]. eauto. }
  rewrite Etm, ?result_bind_Ok.
  erewrite assert_shape1_pass; [|done..]. rewrite ?result_bind_Ok.
  rewrite pos_and_query_branch_pass, ?result_bind_Ok. cbv beta iota.
  erewrite assert_shape1_pass; [|done..]. rewrite ?result_bind_Ok.
  eexists _, pos, x4, _. split; [reflexivity|]. simpl.
  split_and!; try done.
  - intros k i j. rewrite Ix6, Ix0, Ix. done.
  - intros i k. rewrite Ix7, Ix5. done.
  - intros k i j. rewrite Ipos, Ix2, Ix1. done.
  - intros n' i j Hn Hj. rewrite Ix4, Ix3 by done. done.
Qed.
End ForwardContents.

(** X18: the sequence that [Transformer.forward] gives to the encoder.
    Position [k < H * W] of the fused sequence holds the image features
    at row [k / W] and column [k mod W] (the feature map flattened row by
    row, with the position axis first), and position [H * W + t] holds
    the text token [t]; the key padding mask is fused in the same order,
    with the batch axis first. *)
Theorem forward_fuses_image_and_text {elem} {scalar : Scalar elem}
    dff (M : Transformer elem)
    B H W Nq Tx src mask query_embed pos_embed text_memory text_attention_mask :
  Transformer_ok dff M -> pass_pos_and_query M = true ->
  valid_inputs B (d_model M) H W Nq Tx src mask query_embed pos_embed
    text_memory text_attention_mask ->
  exists loc pos,
    forward_encode M (PyTensor src) (PyTensor mask) (PyTensor query_embed)
      (PyTensor pos_embed) (PyTensor text_memory)
      (PyTensor text_attention_mask) = Ok loc
    /\ TransformerEncoder_forward (encoder M) (loc_fused_src loc) None
         (Some (loc_mask loc)) (Some pos) = Ok (loc_img_memory loc)
    /\ shape (loc_fused_src loc) = [(H * W + Tx)%nat; B; d_model M]
    /\ (forall k i j,
          item (loc_fused_src loc) [k; i; j]
          = if (k <? H * W)%nat
            then item src [i; j; (k / W)%nat; (k mod W)%nat]
            else item text_memory [(k - H * W)%nat; i; j])
    /\ shape (loc_mask loc) = [B; (H * W + Tx)%nat]
    /\ (forall i k,
          item (loc_mask loc) [i; k]
          = if (k <? H * W)%nat
            then item mask [i; (k / W)%nat; (k mod W)%nat]
            else item text_attention_mask [i; (k - H * W)%nat]).
Proof.
  intros HM Hpass Hvalid.
  destruct (forward_encode_contents dff M B H W Nq Tx src mask query_embed
              pos_embed text_memory text_attention_mask HM Hpass Hvalid)
    as (loc & pos & q & tgt & ? & ? & ? & ? & ? & ? & _).
  exists loc, pos. done.
Qed.

Lemma forward_fuses_image_and_text_witness :
  exists loc pos,
    toy_forward_encode true 3 = Ok loc
    /\ TransformerEncoder_forward (encoder (toy_transformer true true))
         (loc_fused_src loc) None (Some (loc_mask loc)) (Some pos)
       = Ok (loc_img_memory loc)
    /\ shape (loc_fused_src loc) = [7; 1; 2]%nat
    /\ (forall k i j,
          item (loc_fused_src loc) [k; i; j]
          = if (k <? 4)%nat
            then item toy_src [i; j; (k / 2)%nat; (k mod 2)%nat]
            else item (toy_text_memory 3) [(k - 4)%nat; i; j])
    /\ shape (loc_mask loc) = [1; 7]%nat
    /\ (forall i k,
          item (loc_mask loc) [i; k]
          = if (k <? 4)%nat
            then item toy_mask [i; (k / 2)%nat; (k mod 2)%nat]
            else item (toy_text_attention_mask 3) [i; (k - 4)%nat]).
Proof.
  apply (forward_fuses_image_and_text 4 (toy_transformer true true)
           1 2 2 3 3 toy_src toy_mask toy_query_embed toy_pos_embed
           (toy_text_memory 3) (toy_text_attention_mask 3)).
  - apply toy_transformer_ok.
  - reflexivity.
  - apply toy_valid_inputs.
Defined.



(** ** Arguments that [Transformer.forward] rejects *)

(** X20: [Transformer.forward] reads the batch size off a feature map of
    rank 4 before anything else: without [src] (its default [None]) it
    raises [AttributeError], and with a [src] of any other rank the
    unpacking of [src.shape] raises [ValueError]; no module is run. *)
Theorem forward_requires_4d_src {elem} {scalar : Scalar elem}
    (M : Transformer elem)
    (mask query_embed pos_embed text_memory text_attention_mask : pyval elem) :
  Transformer_forward M PyNone mask query_embed pos_embed text_memory
    text_attention_mask = Raise AttributeError
  /\ forall src : Tensor elem, ndim src <> 4%nat ->
       exists msg,
         Transformer_forward M (PyTensor src) mask query_embed pos_embed
           text_memory text_attention_mask = Raise (ValueError msg).
Proof.
  split; [reflexivity|]. intros src Hrank.
  unfold Transformer_forward, forward_encode, ndim in *. cbn [as_tensor].
  rewrite result_bind_Ok.
  destruct (shape src) as [|a [|b [|c [|d [|e s]]]]]; simpl in *;
    try lia; eauto.
Qed.

(** X21: the assertions of [Transformer.forward] reject a query table
    that is flat.  A table of rank 1 with [n] entries, [n <> 1], becomes
    a decoder target [1; n * B; 1] whose axis 1 differs from the batch
    size [B] of the encoder output: the first assertion fails with
    [AssertionError], after the encoder has run. *)
Theorem forward_flat_query_table_fails {elem} {scalar : Scalar elem}
    dff (M : Transformer elem) (B H W n Tx : nat)
    (src mask query_embed pos_embed text_memory text_attention_mask
       : Tensor elem) :
  Transformer_ok dff M -> pass_pos_and_query M = true ->
  (0 < B)%nat -> (0 < H * W)%nat -> n <> 1%nat ->
  shape src = [B; d_model M; H; W] -> shape mask = [B; H; W] ->
  shape query_embed = [n] ->
  shape pos_embed = [B; d_model M; H; W] ->
  shape text_memory = [Tx; B; d_model M] ->
  shape text_attention_mask = [B; Tx] ->
  Transformer_forward M (PyTensor src) (PyTensor mask) (PyTensor query_embed)
    (PyTensor pos_embed) (PyTensor text_memory) (PyTensor text_attention_mask)
  = Raise AssertionError.
Proof.
  intros HM Hpass HB HHW Hn Hsrc Hmask Hqe Hpe Htm Htam.
  pose proof (forward_encode_flat_query dff M B H W n Tx src mask query_embed
                pos_embed text_memory text_attention_mask HM Hpass HB HHW
                Hsrc Hmask Hqe Hpe Htm Htam) as Hflat.
  unfold Transformer_forward.
  destruct (forward_encode M (PyTensor src) (PyTensor mask)
              (PyTensor query_embed) (PyTensor pos_embed)
              (PyTensor text_memory) (PyTensor text_attention_mask))
    as [loc|e].
  - by destruct Hflat as [? _].
  - by destruct Hflat as [_ ->].
Qed.

Lemma forward_flat_query_table_fails_witness :
  Transformer_forward (toy_transformer true true) (PyTensor toy_src)
    (PyTensor toy_mask) (PyTensor (ramp [3%nat])) (PyTensor toy_pos_embed)
    (PyTensor (toy_text_memory 3)) (PyTensor (toy_text_attention_mask 3))
  = Raise AssertionError.
Proof.
  apply (forward_flat_query_table_fails 4 (toy_transformer true true)
           1 2 2 3 3 toy_src toy_mask (ramp [3%nat]) toy_pos_embed
           (toy_text_memory 3) (toy_text_attention_mask 3));
    try reflexivity; try (simpl; lia).
  apply toy_transformer_ok.
Defined.

(** ** The shapes of the two stacks *)

Lemma encoder_layer_init_ok {elem} (nn : TorchNN (Tensor elem))
    (d nhead dff : nat) (dropout : Q) (activation : Module1 (Tensor elem))
    (normalize_before : bool) :
  TorchNN_ok nn -> shape_preserving activation ->
  EncoderLayer_ok d dff
    (TransformerEncoderLayer_init d nhead dff dropout activation
       normalize_before).
Proof. intros [Hattn Hlin Hnorm Hdrop] Hact. split; simpl; auto. Qed.

Lemma decoder_layer_init_ok {elem} (nn : TorchNN (Tensor elem))
    (d nhead dff : nat) (dropout : Q) (activation : Module1 (Tensor elem)) :
  TorchNN_ok nn -> shape_preserving activation ->
  DecoderLayer_ok d dff
    (TransformerDecoderLayer_init d nhead dff dropout activation).
Proof. intros [Hattn Hlin Hnorm Hdrop] Hact. split; simpl; auto. Qed.

(** X22: a [TransformerEncoder] of any number of layers, zero included,
    pre-norm or post-norm, with a final normalization or without one,
    returns a sequence of the shape [S; B; d_model] of its input. *)
Theorem TransformerEncoder_forward_shape {elem} {scalar : Scalar elem}
    (nn : TorchNN (Tensor elem)) (d nhead dff : nat) (dropout : Q)
    (activation : Module1 (Tensor elem)) (normalize_before : bool)
    (num_layers : nat) (norm : option (Module1 (Tensor elem)))
    (src : Tensor elem) (src_key_padding_mask pos : option (Tensor elem))
    (S B : nat) :
  TorchNN_ok nn -> shape_preserving activation ->
  optional_norm_ok d norm ->
  (0 < S)%nat -> (0 < B)%nat ->
  shape src = [S; B; d] ->
  padding_mask_ok B S src_key_padding_mask ->
  same_shape_or_none [S; B; d] pos ->
  exists o,
    TransformerEncoder_forward
      (TransformerEncoder_init
         (TransformerEncoderLayer_init d nhead dff dropout activation
            normalize_before) num_layers norm)
      src None src_key_padding_mask pos = Ok o
    /\ shape o = [S; B; d].
Proof.
  intros Hnn Hact Hnorm HS HB Hsrc Hkpm Hpos.
  apply (encoder_forward_shape d dff); try done.
  apply Forall_replicate. by apply encoder_layer_init_ok.
Qed.

Lemma TransformerEncoder_forward_shape_witness :
  exists o,
    TransformerEncoder_forward
      (TransformerEncoder_init
         (@TransformerEncoderLayer_init _ toy_nn 2 1 4 (1 # 10) toy_activation
            true) 3 (Some (toy_norm 2)))
      (ramp [7; 1; 2]%nat) None (Some (ramp [1; 7]%nat))
      (Some (ramp [7; 1; 2]%nat)) = Ok o
    /\ shape o = [7; 1; 2]%nat.
Proof.
  apply (TransformerEncoder_forward_shape toy_nn 2 1 4 (1 # 10) toy_activation
           true 3 (Some (toy_norm 2)) (ramp [7; 1; 2]%nat)
           (Some (ramp [1; 7]%nat)) (Some (ramp [7; 1; 2]%nat)) 7 1).
  - apply toy_nn_ok.
  - apply toy_activation_ok.
  - apply (LayerNorm_ok toy_nn toy_nn_ok 2).
  - lia.
  - lia.
  - reflexivity.
  - reflexivity.
  - reflexivity.
Defined.

(** X23: a [TransformerDecoder] with a final normalization returns the
    target shape [Nq; B; d_model] when it does not capture the
    intermediate outputs, for any number of layers, and
    [num_layers; Nq; B; d_model] when it captures them and has at least
    one layer. *)
Theorem TransformerDecoder_forward_shape {elem} {scalar : Scalar elem}
    (nn : TorchNN (Tensor elem)) (d nhead dff : nat) (dropout : Q)
    (activation : Module1 (Tensor elem)) (num_layers : nat)
    (norm : Module1 (Tensor elem)) (return_intermediate : bool)
    (tgt memory : Tensor elem)
    (memory_key_padding_mask pos query_pos : option (Tensor elem))
    (Nq S B : nat) :
  TorchNN_ok nn -> shape_preserving activation -> norm_ok d norm ->
  (return_intermediate = true -> (0 < num_layers)%nat) ->
  (0 < Nq)%nat -> (0 < S)%nat -> (0 < B)%nat ->
  shape tgt = [Nq; B; d] -> shape memory = [S; B; d] ->
  padding_mask_ok B S memory_key_padding_mask ->
  same_shape_or_none [S; B; d] pos ->
  same_shape_or_none [Nq; B; d] query_pos ->
  exists o,
    TransformerDecoder_forward
      (TransformerDecoder_init
         (TransformerDecoderLayer_init d nhead dff dropout activation)
         num_layers (Some norm) return_intermediate)
      tgt memory None None None memory_key_padding_mask pos query_pos = Ok o
    /\ shape o = if return_intermediate then [num_layers; Nq; B; d]
                 else [Nq; B; d].
Proof.
  intros Hnn Hact Hnorm Hri HN HS HB Htgt Hmem Hkpm Hpos Hqp.
  destruct (decoder_forward_shape d dff
              (TransformerDecoder_init
                 (TransformerDecoderLayer_init d nhead dff dropout activation)
                 num_layers (Some norm) return_intermediate)
              tgt memory memory_key_padding_mask pos query_pos Nq S B)
    as (o & Eo & Ho); try done.
  - apply Forall_replicate. by apply decoder_layer_init_ok.
  - simpl. intros E Hnil. specialize (Hri E).
    destruct num_layers; [lia|done].
  - exists o. split; [done|]. simpl in Ho.
    unfold _get_clones in Ho. by rewrite length_replicate in Ho.
Qed.

Lemma TransformerDecoder_forward_shape_witness :
  exists o,
    TransformerDecoder_forward
      (TransformerDecoder_init
         (@TransformerDecoderLayer_init _ toy_nn 2 1 4 (1 # 10)
            toy_activation) 3 (Some (toy_norm 2)) true)
      (ramp [5; 1; 2]%nat) (ramp [7; 1; 2]%nat) None None None
      (Some (ramp [1; 7]%nat)) (Some (ramp [7; 1; 2]%nat))
      (Some (ramp [5; 1; 2]%nat)) = Ok o
    /\ shape o = [3; 5; 1; 2]%nat.
Proof.
  apply (TransformerDecoder_forward_shape toy_nn 2 1 4 (1 # 10) toy_activation
           3 (toy_norm 2) true (ramp [5; 1; 2]%nat) (ramp [7; 1; 2]%nat)
           (Some (ramp [1; 7]%nat)) (Some (ramp [7; 1; 2]%nat))
           (Some (ramp [5; 1; 2]%nat)) 5 7 1).
  - apply toy_nn_ok.
  - apply toy_activation_ok.
  - apply (LayerNorm_ok toy_nn toy_nn_ok 2).
  - intros _. lia.
  - lia.
  - lia.
  - lia.
  - reflexivity.
  - reflexivity.
  - reflexivity.
  - reflexivity.
  - reflexivity.
Defined.

Lemma forward_requires_4d_src_witness :
  exists msg,
    Transformer_forward (toy_transformer true true)
      (PyTensor (ramp [2; 2; 2]%nat)) (PyTensor toy_mask)
      (PyTensor toy_query_embed) (PyTensor toy_pos_embed)
      (PyTensor (toy_text_memory 3)) (PyTensor (toy_text_attention_mask 3))
    = Raise (ValueError msg).
Proof.
  apply (proj2 (forward_requires_4d_src (toy_transformer true true)
                  (PyTensor toy_mask) (PyTensor toy_query_embed)
                  (PyTensor toy_pos_embed) (PyTensor (toy_text_memory 3))
                  (PyTensor (toy_text_attention_mask 3)))
               (ramp [2; 2; 2]%nat)).
  unfold ndim. simpl. lia.
Defined.

(** ** The two orderings of the encoder layer *)

(** X24: [normalize_before] selects the ordering of a
    [TransformerEncoderLayer].  Without it both sub-blocks are post-norm,
    [norm (x + f x)], and the output is normalized; with it the output is
    the residual sum [src + f1 + f2] itself, which no normalization
    follows, and the attention reads [src] through [norm1] only. *)
Theorem encoder_layer_ordering
    (d_model nhead dim_feedforward : nat) (dropout : Q)
    (activation : Module1 term) (src : term)
    (src_mask src_key_padding_mask pos : option term) :
  (forall x, is_ok (activation x) = true) ->
  (exists out,
     TransformerEncoderLayer_forward
       (TransformerEncoderLayer_init d_model nhead dim_feedforward dropout
          activation false)
       src src_mask src_key_padding_mask pos = Ok out
     /\ is_post_norm 2 src out = true)
  /\ (exists out q f2,
        TransformerEncoderLayer_forward
          (TransformerEncoderLayer_init d_model nhead dim_feedforward dropout
             activation true)
          src src_mask src_key_padding_mask pos = Ok out
        /\ with_pos_embed (TLayerNorm d_model src) pos = Ok q
        /\ out
           = TAdd (TAdd src
                     (TDropout dropout
                        (TAttention d_model nhead dropout q q
                           (TLayerNorm d_model src)
                           (term_of_option src_mask)
                           (term_of_option src_key_padding_mask))))
                  f2
        /\ is_post_norm 2 src out = false).
Proof.
  intros Hact. split.
  - unfold TransformerEncoderLayer_forward, enc_forward_post. simpl.
    destruct pos as [p|]; simpl;
      match goal with |- context [activation ?x] =>
        specialize (Hact x); destruct (activation x) end; simpl; try done;
      eexists; (split; [reflexivity|]); by apply bool_decide_eq_true.
  - unfold TransformerEncoderLayer_forward, enc_forward_pre. simpl.
    destruct pos as [p|]; simpl;
      match goal with |- context [activation ?x] =>
        specialize (Hact x); destruct (activation x) end; simpl; try done;
      eexists _, _, _; (split; [reflexivity|]); (split; [reflexivity|]);
      (split; [reflexivity|]); by apply bool_decide_eq_false.
Qed.

Lemma encoder_layer_ordering_witness :
  exists out,
    TransformerEncoderLayer_forward
      (TransformerEncoderLayer_init 256 8 2048 (1 # 10) relu false)
      (TVar "src") None (Some (TVar "mask")) (Some (TVar "pos")) = Ok out
    /\ is_post_norm 2 (TVar "src") out = true.
Proof.
  apply (proj1 (encoder_layer_ordering 256 8 2048 (1 # 10) relu (TVar "src")
                  None (Some (TVar "mask")) (Some (TVar "pos"))
                  (fun x => eq_refl))).
Defined.

End MdetrFacts.
